(** * Lateral planner of openpilot (Father-kans fork): a shallow embedding

    Sources embedded here:
    - [selfdrive/controls/lib/lateral_planner.py]: [calc_states_after_delay],
      [LateralPlanner.__init__], [setup_mpc], [update], [publish];
    - [selfdrive/car/gm/carstate.py]: the part of [CarState.update] that
      decodes the steering and turn-signal fields.

    Numbers.  Python floats that the planner itself adds and compares
    (timers, the blend factor, speeds, torques) are exact rationals [Q];
    rounding is not modelled.  Values that come back from the numeric solver
    may be not-a-number, so they live in [pyfloat].

    Effects.  [update] mutates the planner object, may raise, and calls the
    solver and the logger; it is embedded as a function from the planner
    value and the tick's inputs to [result (planner * VM * trace)]. *)

From Stdlib Require Import QArith Qabs Lqa List Bool ZArith Lia.
From Stdlib Require String.
Import ListNotations.
Open Scope Q_scope.

(** ** Python values and exceptions *)

Definition Qlt_bool (a b : Q) : bool := negb (Qle_bool b a).

(** [max(a, b)] and [min(a, b)] of Python: the first argument wins ties. *)
Definition pymax (a b : Q) : Q := if Qlt_bool a b then b else a.
Definition pymin (a b : Q) : Q := if Qlt_bool b a then b else a.

Inductive pyfloat : Type :=
| Fin (q : Q)
| NaN.

Definition isnan (x : pyfloat) : bool :=
  match x with NaN => true | Fin _ => false end.

Definition flift2 (f : Q -> Q -> Q) (x y : pyfloat) : pyfloat :=
  match x, y with
  | Fin a, Fin b => Fin (f a b)
  | _, _ => NaN
  end.

Definition fmap (f : Q -> Q) (x : pyfloat) : pyfloat :=
  match x with Fin q => Fin (f q) | NaN => NaN end.

Definition fadd : pyfloat -> pyfloat -> pyfloat := flift2 Qplus.
Definition fmul : pyfloat -> pyfloat -> pyfloat := flift2 Qmult.
Definition fneg : pyfloat -> pyfloat := fmap Qopp.

(** [x > y]: any comparison with not-a-number is [False]. *)
Definition fgt (x y : pyfloat) : bool :=
  match x, y with
  | Fin a, Fin b => Qlt_bool b a
  | _, _ => false
  end.

(** [max(a, b)] is [b if b > a else a]; [min(a, b)] is [b if b < a else a]. *)
Definition fmax (a b : pyfloat) : pyfloat := if fgt b a then b else a.
Definition fmin (a b : pyfloat) : pyfloat := if fgt a b then b else a.

Definition fzero (x : pyfloat) : bool :=
  match x with Fin q => Qeq_bool q 0 | NaN => false end.

Inductive exn : Type :=
| AttributeError
| AssertionError
| ValueError
| IndexError
| ZeroDivisionError.

Inductive result (A : Type) : Type :=
| Ok (a : A)
| Raise (e : exn).
Arguments Ok {A} a.
Arguments Raise {A} e.

Definition bind {A B : Type} (m : result A) (k : A -> result B) : result B :=
  match m with
  | Ok a => k a
  | Raise e => Raise e
  end.

Notation "x <- m ;; k" := (bind m (fun x => k))
  (at level 61, m at next level, right associativity).
Notation "' pat <- m ;; k" := (bind m (fun x => match x with pat => k end))
  (at level 61, pat pattern, m at next level, right associativity).

(** Float division raises on a zero divisor, whatever the dividend. *)
Definition fdiv (x y : pyfloat) : result pyfloat :=
  if fzero y then Raise ZeroDivisionError else Ok (flift2 Qdiv x y).

(** [xs[0]] *)
Definition item0 {A : Type} (xs : list A) : result A :=
  match xs with
  | [] => Raise IndexError
  | x :: _ => Ok x
  end.

(** [assert c] *)
Definition py_assert (c : bool) : result unit :=
  if c then Ok tt else Raise AssertionError.

(** ** selfdrive/car/gm/carstate.py *)

Module GM.

(** The signal values [pt_cp.vl[msg][sig]] that the decoded fields below
    read. *)
Record vl : Type := {
  SteeringWheelAngle : Q;
  SteeringWheelRate : Q;
  BrakePedalPosition : Q;
  AcceleratorPedal : Q;
  LKADriverAppldTrq : Q;
  FrontLeftDoor : Q;
  FrontRightDoor : Q;
  RearLeftDoor : Q;
  RearRightDoor : Q;
  LeftSeatBelt : Q;
  TurnSignals : Q
}.

Record CarState : Type := {
  steeringAngleDeg : Q;
  steeringRateDeg : Q;
  brake : Q;
  gas : Q;
  gasPressed : bool;
  steeringTorque : Q;
  steeringPressed : bool;
  doorOpen : bool;
  seatbeltUnlatched : bool;
  leftBlinker : bool;
  rightBlinker : bool
}.

(** [CarState.update], lines 50-73; [STEER_THRESHOLD] comes from
    [selfdrive/car/gm/values.py] and is a parameter. *)
Definition update (STEER_THRESHOLD : Q) (pt_cp : vl) : CarState :=
  let brake0 := BrakePedalPosition pt_cp / 208 in
  let brake1 := if Qlt_bool brake0 (10 / 208) then 0 else brake0 in
  let gas0 := AcceleratorPedal pt_cp / 254 in
  let torque := LKADriverAppldTrq pt_cp in
  {| steeringAngleDeg := SteeringWheelAngle pt_cp;
     steeringRateDeg := SteeringWheelRate pt_cp;
     brake := brake1;
     gas := gas0;
     gasPressed := Qlt_bool 0.00001 gas0;
     steeringTorque := torque;
     steeringPressed := Qlt_bool STEER_THRESHOLD (Qabs torque);
     doorOpen := Qeq_bool (FrontLeftDoor pt_cp) 1
                 || Qeq_bool (FrontRightDoor pt_cp) 1
                 || Qeq_bool (RearLeftDoor pt_cp) 1
                 || Qeq_bool (RearRightDoor pt_cp) 1;
     seatbeltUnlatched := Qeq_bool (LeftSeatBelt pt_cp) 0;
     leftBlinker := Qeq_bool (TurnSignals pt_cp) 1;
     rightBlinker := Qeq_bool (TurnSignals pt_cp) 2 |}.

End GM.

(** ** selfdrive/car/gm/carstate.py, with the parser's dictionary

    [CarState.update] reads [pt_cp.vl[message][signal]]; a key the parser
    does not hold raises [KeyError].  [get_can_parser] and
    [get_chassis_can_parser] list the signals the parsers subscribe to. *)

Module GMCan.
Import String.StringSyntax.
#[local] Open Scope string_scope.

Definition string := String.string.

(** [vl]: the values by message and signal. *)
Definition vl_t : Type := list (string * string * Q).

Inductive keyed (A : Type) : Type :=
| Found (a : A)
| KeyError (message signal : string).
Arguments Found {A} a.
Arguments KeyError {A} message signal.

Definition kbind {A B : Type} (m : keyed A) (k : A -> keyed B) : keyed B :=
  match m with
  | Found a => k a
  | KeyError msg sig => KeyError msg sig
  end.

Notation "x <~ m ;; k" := (kbind m (fun x => k))
  (at level 61, m at next level, right associativity).
Notation "' pat <~ m ;; k" := (kbind m (fun x => match x with pat => k end))
  (at level 61, pat pattern, m at next level, right associativity).

(** [vl[message][signal]] *)
Fixpoint get (vl : vl_t) (message signal : string) : keyed Q :=
  match vl with
  | [] => KeyError message signal
  | (m, s, v) :: rest =>
      if String.eqb m message && String.eqb s signal then Found v
      else get rest message signal
  end.

(** Constants and helpers imported by carstate.py: [CV.KPH_TO_MS],
    [STEER_THRESHOLD], [AccState.OFF], [CruiseButtons.UNPRESS],
    [numpy_fast.mean], the speed filter of the base class, and the gear
    decoded from the shifter value. *)
Record Values : Type := {
  KPH_TO_MS : Q;
  STEER_THRESHOLD : Q;
  AccState_OFF : Q;
  CruiseButtons_UNPRESS : Q;
  mean : list Q -> Q;
  update_speed_kf : Q -> Q * Q;
  parse_gear_shifter : Q -> Z
}.

(** A signal of a parser: name, message, default. *)
Definition signal_t : Type := (string * string * Q)%type.

(** [get_can_parser]: the list [signals]. *)
Definition get_can_parser (V : Values) (is_volt : bool) : list signal_t :=
  [ ("BrakePedalPosition", "EBCMBrakePedalPosition", 0);
    ("FrontLeftDoor", "BCMDoorBeltStatus", 0);
    ("FrontRightDoor", "BCMDoorBeltStatus", 0);
    ("RearLeftDoor", "BCMDoorBeltStatus", 0);
    ("RearRightDoor", "BCMDoorBeltStatus", 0);
    ("LeftSeatBelt", "BCMDoorBeltStatus", 0);
    ("RightSeatBelt", "BCMDoorBeltStatus", 0);
    ("TurnSignals", "BCMTurnSignals", 0);
    ("AcceleratorPedal", "AcceleratorPedal", 0);
    ("CruiseState", "AcceleratorPedal2", 0);
    ("ACCButtons", "ASCMSteeringButton", CruiseButtons_UNPRESS V);
    ("SteeringWheelAngle", "PSCMSteeringAngle", 0);
    ("SteeringWheelRate", "PSCMSteeringAngle", 0);
    ("FLWheelSpd", "EBCMWheelSpdFront", 0);
    ("FRWheelSpd", "EBCMWheelSpdFront", 0);
    ("RLWheelSpd", "EBCMWheelSpdRear", 0);
    ("RRWheelSpd", "EBCMWheelSpdRear", 0);
    ("PRNDL", "ECMPRDNL", 0);
    ("LKADriverAppldTrq", "PSCMStatus", 0);
    ("LKATorqueDeliveredStatus", "PSCMStatus", 0);
    ("TractionControlOn", "ESPStatus", 0);
    ("EPBClosed", "EPBStatus", 0);
    ("CruiseMainOn", "ECMEngineStatus", 0);
    ("LKAButton", "ASCMSteeringButton", 0);
    ("DistanceButton", "ASCMSteeringButton", 0);
    ("LKATorqueDelivered", "PSCMStatus", 0);
    ("EngineRPM", "ECMEngineStatus", 0) ]
  ++ (if is_volt then [ ("RegenPaddle", "EBCMRegenPaddle", 0) ] else []).

(** [get_chassis_can_parser]: the list [signals]. *)
Definition get_chassis_can_parser : list signal_t :=
  [ ("FrictionBrakePressure", "EBCMFrictionBrakeStatus", 0) ].

(** The parser holds a value for every signal of the list. *)
Definition subscribes (vl : vl_t) (signals : list signal_t) : Prop :=
  forall name message default,
    In (name, message, default) signals ->
    exists v, get vl message name = Found v.

(** The attributes of the [CarState] object that [update] reads or
    assigns. *)
Record CarStateObj : Type := {
  cruise_buttons : Q;
  prev_cruise_buttons : Q;
  lka_button : Q;
  prev_lka_button : Q;
  distance_button : Q;
  prev_distance_button : Q;
  follow_level : Z;
  autoHold : bool;
  autoHoldActivated : bool;
  regenPaddlePressed : bool;
  cruiseMain : bool;
  engineRPM : Q;
  park_brake : Q;
  pcm_acc_status : Q;
  lkas_status : Q
}.

(** The message [ret] that [update] fills. *)
Record CarStateRet : Type := {
  wheelSpeeds_fl : Q;
  wheelSpeeds_fr : Q;
  wheelSpeeds_rl : Q;
  wheelSpeeds_rr : Q;
  vEgoRaw : Q;
  vEgo : Q;
  aEgo : Q;
  standstill : bool;
  steeringAngleDeg : Q;
  steeringRateDeg : Q;
  gearShifter : Z;
  brake : Q;
  gas : Q;
  gasPressed : bool;
  steeringTorque : Q;
  steeringPressed : bool;
  doorOpen : bool;
  seatbeltUnlatched : bool;
  leftBlinker : bool;
  rightBlinker : bool;
  cruiseState_available : bool;
  espDisabled : bool;
  brakePressed : bool;
  cruiseState_enabled : bool;
  cruiseState_standstill : bool;
  steerWarning : bool;
  steeringTorqueEps : Q;
  ret_autoHoldActivated : bool;
  brakeLights : bool
}.

(** [a == 1 or b == 1 or ...] over signals of one message: a later signal
    is read only when the earlier ones were not 1. *)
Fixpoint any_is_one (vl : vl_t) (message : string) (signals : list string)
  : keyed bool :=
  match signals with
  | [] => Found false
  | s :: rest =>
      v <~ get vl message s ;;
      if Qeq_bool v 1 then Found true else any_is_one vl message rest
  end.

(** [CarState.update]; [is_volt] is [self.car_fingerprint == CAR.VOLT] and
    [conf_AutoHold] is [kegman_kans.conf['AutoHold'] == "1"]. *)
Definition update (V : Values) (is_volt conf_AutoHold : bool)
    (self : CarStateObj) (pt_cp ch_cp : vl_t)
  : keyed (CarStateObj * CarStateRet) :=
  acc_buttons <~ get pt_cp "ASCMSteeringButton" "ACCButtons" ;;
  lka <~ get pt_cp "ASCMSteeringButton" "LKAButton" ;;
  distance <~ get pt_cp "ASCMSteeringButton" "DistanceButton" ;;
  fl <~ get pt_cp "EBCMWheelSpdFront" "FLWheelSpd" ;;
  fr <~ get pt_cp "EBCMWheelSpdFront" "FRWheelSpd" ;;
  rl <~ get pt_cp "EBCMWheelSpdRear" "RLWheelSpd" ;;
  rr <~ get pt_cp "EBCMWheelSpdRear" "RRWheelSpd" ;;
  let fl := fl * KPH_TO_MS V in
  let fr := fr * KPH_TO_MS V in
  let rl := rl * KPH_TO_MS V in
  let rr := rr * KPH_TO_MS V in
  let v_raw := mean V [fl; fr; rl; rr] in
  let kf := update_speed_kf V v_raw in
  angle <~ get pt_cp "PSCMSteeringAngle" "SteeringWheelAngle" ;;
  rate <~ get pt_cp "PSCMSteeringAngle" "SteeringWheelRate" ;;
  prndl <~ get pt_cp "ECMPRDNL" "PRNDL" ;;
  pedal <~ get pt_cp "EBCMBrakePedalPosition" "BrakePedalPosition" ;;
  let brake0 := pedal / 208 in
  let brake1 := if Qlt_bool brake0 (10 / 208) then 0 else brake0 in
  accel <~ get pt_cp "AcceleratorPedal" "AcceleratorPedal" ;;
  let gas0 := accel / 254 in
  torque <~ get pt_cp "PSCMStatus" "LKADriverAppldTrq" ;;
  door <~ any_is_one pt_cp "BCMDoorBeltStatus"
            ["FrontLeftDoor"; "FrontRightDoor"; "RearLeftDoor";
             "RearRightDoor"] ;;
  belt <~ get pt_cp "BCMDoorBeltStatus" "LeftSeatBelt" ;;
  turn_l <~ get pt_cp "BCMTurnSignals" "TurnSignals" ;;
  turn_r <~ get pt_cp "BCMTurnSignals" "TurnSignals" ;;
  epb <~ get pt_cp "EPBStatus" "EPBClosed" ;;
  main_on <~ get pt_cp "ECMEngineStatus" "CruiseMainOn" ;;
  let available := negb (Qeq_bool main_on 0) in
  traction <~ get pt_cp "ESPStatus" "TractionControlOn" ;;
  acc_status <~ get pt_cp "AcceleratorPedal2" "CruiseState" ;;
  let pressed0 := Qlt_bool 0.00001 brake1 in
  '(regen, pressed) <~
    (if is_volt then
       paddle <~ get pt_cp "EBCMRegenPaddle" "RegenPaddle" ;;
       let regen := negb (Qeq_bool paddle 0) in
       Found (regen, pressed0 || regen)
     else Found (regenPaddlePressed self, pressed0)) ;;
  lkas <~ get pt_cp "PSCMStatus" "LKATorqueDeliveredStatus" ;;
  eps <~ get pt_cp "PSCMStatus" "LKATorqueDelivered" ;;
  rpm <~ get pt_cp "ECMEngineStatus" "EngineRPM" ;;
  friction <~ get ch_cp "EBCMFrictionBrakeStatus" "FrictionBrakePressure" ;;
  Found
    ({| cruise_buttons := acc_buttons;
        prev_cruise_buttons := cruise_buttons self;
        lka_button := lka;
        prev_lka_button := lka_button self;
        distance_button := distance;
        prev_distance_button := distance_button self;
        follow_level := follow_level self;
        autoHold := conf_AutoHold;
        autoHoldActivated := autoHoldActivated self;
        regenPaddlePressed := regen;
        cruiseMain := available;
        engineRPM := rpm;
        park_brake := epb;
        pcm_acc_status := acc_status;
        lkas_status := lkas |},
     {| wheelSpeeds_fl := fl;
        wheelSpeeds_fr := fr;
        wheelSpeeds_rl := rl;
        wheelSpeeds_rr := rr;
        vEgoRaw := v_raw;
        vEgo := fst kf;
        aEgo := snd kf;
        standstill := Qlt_bool v_raw 0.01;
        steeringAngleDeg := angle;
        steeringRateDeg := rate;
        gearShifter := parse_gear_shifter V prndl;
        brake := brake1;
        gas := gas0;
        gasPressed := Qlt_bool 0.00001 gas0;
        steeringTorque := torque;
        steeringPressed := Qlt_bool (STEER_THRESHOLD V) (Qabs torque);
        doorOpen := door;
        seatbeltUnlatched := Qeq_bool belt 0;
        leftBlinker := Qeq_bool turn_l 1;
        rightBlinker := Qeq_bool turn_r 2;
        cruiseState_available := available;
        espDisabled := negb (Qeq_bool traction 1);
        brakePressed := pressed;
        cruiseState_enabled := negb (Qeq_bool acc_status (AccState_OFF V));
        cruiseState_standstill := false;
        steerWarning := negb (Qeq_bool lkas 0 || Qeq_bool lkas 1);
        steeringTorqueEps := eps;
        ret_autoHoldActivated := autoHoldActivated self;
        brakeLights := negb (Qeq_bool friction 0) || pressed |}).

(** [get_follow_level] *)
Definition get_follow_level (self : CarStateObj) : Z := follow_level self.

(** The record of signal values that [GM.update] decodes, read from the
    dictionary. *)
Definition signals_of (pt_cp : vl_t) : keyed GM.vl :=
  angle <~ get pt_cp "PSCMSteeringAngle" "SteeringWheelAngle" ;;
  rate <~ get pt_cp "PSCMSteeringAngle" "SteeringWheelRate" ;;
  pedal <~ get pt_cp "EBCMBrakePedalPosition" "BrakePedalPosition" ;;
  accel <~ get pt_cp "AcceleratorPedal" "AcceleratorPedal" ;;
  torque <~ get pt_cp "PSCMStatus" "LKADriverAppldTrq" ;;
  d1 <~ get pt_cp "BCMDoorBeltStatus" "FrontLeftDoor" ;;
  d2 <~ get pt_cp "BCMDoorBeltStatus" "FrontRightDoor" ;;
  d3 <~ get pt_cp "BCMDoorBeltStatus" "RearLeftDoor" ;;
  d4 <~ get pt_cp "BCMDoorBeltStatus" "RearRightDoor" ;;
  belt <~ get pt_cp "BCMDoorBeltStatus" "LeftSeatBelt" ;;
  turn <~ get pt_cp "BCMTurnSignals" "TurnSignals" ;;
  Found {| GM.SteeringWheelAngle := angle;
           GM.SteeringWheelRate := rate;
           GM.BrakePedalPosition := pedal;
           GM.AcceleratorPedal := accel;
           GM.LKADriverAppldTrq := torque;
           GM.FrontLeftDoor := d1;
           GM.FrontRightDoor := d2;
           GM.RearLeftDoor := d3;
           GM.RearRightDoor := d4;
           GM.LeftSeatBelt := belt;
           GM.TurnSignals := turn |}.

End GMCan.

(** ** selfdrive/controls/lib/lateral_planner.py: data *)

Inductive LaneChangeState : Type :=
| off
| preLaneChange
| laneChangeStarting
| laneChangeFinishing.

Inductive LaneChangeDirection : Type :=
| none
| left
| right.

Inductive Desire : Type :=
| Desire_none
| Desire_laneChangeLeft
| Desire_laneChangeRight.

Definition LaneChangeState_eqb (a b : LaneChangeState) : bool :=
  match a, b with
  | off, off | preLaneChange, preLaneChange
  | laneChangeStarting, laneChangeStarting
  | laneChangeFinishing, laneChangeFinishing => true
  | _, _ => false
  end.

Definition LaneChangeDirection_eqb (a b : LaneChangeDirection) : bool :=
  match a, b with
  | none, none | left, left | right, right => true
  | _, _ => false
  end.

(** The table [DESIRES[direction][state]]. *)
Definition DESIRES (d : LaneChangeDirection) (s : LaneChangeState) : Desire :=
  match d, s with
  | left, laneChangeStarting | left, laneChangeFinishing => Desire_laneChangeLeft
  | right, laneChangeStarting | right, laneChangeFinishing => Desire_laneChangeRight
  | _, _ => Desire_none
  end.

(** [one_blinker = leftBlinker != rightBlinker] *)
Definition one_blinker_of (l r : bool) : bool := negb (eqb l r).

(** ** The messages read each tick ([sm[...]]) *)

Record CarStateMsg : Type := {
  vEgo : Q;
  steeringAngle : Q;
  steeringTorque : Q;
  steeringPressed : bool;
  leftBlinker : bool;
  rightBlinker : bool;
  leftBlindspot : bool;
  rightBlindspot : bool
}.

(** The estimates of [liveParameters] are floats and may be not-a-number. *)
Record LiveParameters : Type := {
  angleOffset : Q;
  stiffnessFactor : pyfloat;
  lp_steerRatio : pyfloat
}.

(** One [XYZTData] of [modelV2]: four lists that the schema sizes
    independently. *)
Record XYZT : Type := {
  xs : list Q;
  ys : list Q;
  zs : list Q;
  ts : list Q
}.

Record ModelV2 : Type := {
  position : XYZT;
  orientation : XYZT
}.

(** The values [ntune_get] and [ntune_isEnabled] return during a tick. *)
Record NTune : Type := {
  nt_steerRateCost : Q;
  nt_steerActuatorDelay : Q;
  nt_steerRatio : pyfloat;
  nt_useLiveSteerRatio : bool
}.

(** The keys of [kegman_kans_conf().conf] read every 500 frames. *)
Record KegmanConf : Type := {
  conf_nTune : bool;
  conf_sR_boost : Q;
  conf_sR_BP0 : Q;
  conf_sR_BP1 : Q;
  conf_sR_time : Q
}.

(** [state_t] and [log_t] of the solver's interface. *)
Record state_t : Type := {
  st_x : pyfloat;
  st_y : pyfloat;
  st_psi : pyfloat;
  st_curvature : pyfloat
}.

Record log_t : Type := {
  sol_x : list pyfloat;
  sol_y : list pyfloat;
  sol_psi : list pyfloat;
  sol_curvature : list pyfloat;
  sol_curvature_rate : list pyfloat;
  sol_cost : pyfloat
}.

(** The attributes of [LanePlanner] that the lateral planner reads or
    scales. *)
Record LanePlanner : Type := {
  lll_prob : Q;
  rll_prob : Q;
  d_prob : Q;
  lane_width : Q;
  l_lane_change_prob : Q;
  r_lane_change_prob : Q
}.

(** [VehicleModel]: the steer ratio and stiffness factor that
    [update_params] stores. *)
Record VehicleModel : Type := {
  sR : pyfloat;
  sF : pyfloat
}.

(** Everything one call of [update] reads from outside the planner: the
    messages, the tuning values, and what the collaborators answer during
    the call (the lane planner, the vehicle model, the solver, the clock). *)
Record Tick : Type := {
  carState : CarStateMsg;
  active : bool;
  liveParameters : LiveParameters;
  modelV2 : ModelV2;
  ntune : NTune;
  kegman : KegmanConf;
  (** [self.LP] once [parse_model] has run *)
  lp_parsed : LanePlanner;
  (** [VM.curvature_factor(v_ego)] *)
  vm_curvature_factor : pyfloat;
  (** [self.LP.get_d_path(...)] *)
  lp_d_path : list (Q * Q * Q);
  (** what [run_mpc] leaves in [self.mpc_solution] *)
  mpc_out : log_t;
  (** [sec_since_boot()] *)
  now : Q
}.

(** Calls that leave the planner, in program order. *)
Inductive event : Type :=
| MpcInit (path heading rate : Q)
| RunMpc (cur : state_t) (v_ego rotation_radius : Q) (y_pts heading_pts : list Q)
| CloudlogWarning (t : Q).

(** ** The planner object *)

Record LaneChange : Type := {
  lane_change_state : LaneChangeState;
  lane_change_direction : LaneChangeDirection;
  lane_change_timer : Q;
  lane_change_ll_prob : Q;
  prev_one_blinker : bool;
  (** not assigned by [__init__]: [None] until [update] first assigns it *)
  pre_lane_change_timer : option Q
}.

Record Forecast : Type := {
  path_xyz : list (Q * Q * Q);
  t_idxs : list Q;
  plan_yaw : list Q
}.

Record Mpc : Type := {
  cur_state : state_t;
  mpc_solution : log_t;
  solution_invalid_cnt : nat;
  last_cloudlog_t : Q
}.

Record Tuning : Type := {
  steer_rate_cost_prev : Q;
  steer_actuator_delay_prev : Q;
  mpc_frame : Z;
  sR_time : Z;
  tune_sR : option (pyfloat * pyfloat);
  tune_sRBP : option (Q * Q)
}.

(** What [__init__] reads from [CP], [Params] and [kegman_kans_conf]. *)
Record Config : Type := {
  cfg_steerRateCost : Q;
  cfg_steerActuatorDelay : Q;
  cfg_LaneChangeEnabled : bool;
  cfg_car_is_volt : bool;
  cfg_ALCnudgeLess : bool;
  cfg_ALCminSpeed : Q;
  cfg_ALCtimer : Q
}.

Record LateralPlanner : Type := {
  LP : LanePlanner;
  tuning : Tuning;
  mpc : Mpc;
  lc : LaneChange;
  forecast : Forecast;
  lane_change_enabled : bool;
  desire : Desire;
  y_pts : list Q;
  angle_steers_des : Q;
  angle_steers_des_mpc : Q;
  angle_steers_des_prev : Q;
  angle_steers_des_time : Q;
  v_ego_ed : Q;
  sR_delay_counter : Z;
  use_dynamic_sr : bool;
  alc_nudge_less : bool;
  alc_min_speed : Q;
  alc_timer : Q;
  (** assigned by [update] only *)
  desired_steering_wheel_angle_deg : option pyfloat;
  desired_steering_wheel_angle_rate_deg : option pyfloat
}.

(** The [lateralPlan] message. *)
Record LateralPlanMsg : Type := {
  msg_laneWidth : Q;
  msg_dPathPoints : list Q;
  msg_lProb : Q;
  msg_rProb : Q;
  msg_dProb : Q;
  msg_angleSteers : pyfloat;
  msg_rateSteers : pyfloat;
  msg_angleOffset : Q;
  mpcSolutionValid : bool;
  msg_desire : Desire;
  laneChangeState : LaneChangeState;
  laneChangeDirection : LaneChangeDirection;
  msg_steerRatio : pyfloat;
  msg_steerRateCost : Q;
  msg_steerActuatorDelay : Q
}.

(** ** Constants and functions imported from outside this file

    [DT_MDL] ([common.realtime]), [TRAJECTORY_SIZE] ([lane_planner]),
    [MPC_N], [MPC_COST_LAT], [CAR_ROTATION_RADIUS] ([drive_helpers]), the
    [math] functions, [common.numpy_fast.interp] at a scalar, pointwise
    [np.interp], row-wise [np.linalg.norm], and the attributes of a fresh
    [LanePlanner()]. *)
Class Extern : Type := {
  DT_MDL : Q;
  TRAJECTORY_SIZE : nat;
  MPC_N : nat;
  MPC_COST_LAT_PATH : Q;
  MPC_COST_LAT_HEADING : Q;
  CAR_ROTATION_RADIUS : Q;
  radians : Q -> Q;
  degrees : Q -> Q;
  sin : Q -> Q;
  interp : Q -> list Q -> list pyfloat -> pyfloat;
  np_interp1 : list Q -> list Q -> Q -> Q;
  norm3 : Q * Q * Q -> Q;
  LanePlanner_new : LanePlanner
}.

Section Model.
Context {E : Extern}.

(** ** Helpers for numpy and attribute access *)

(** Reading an attribute that may not have been assigned yet. *)
Definition attr {A : Type} (a : option A) : result A :=
  match a with
  | Some v => Ok v
  | None => Raise AttributeError
  end.

(** [np.column_stack([x, y, z])]: the three columns must have one length. *)
Fixpoint column_stack (x y z : list Q) : result (list (Q * Q * Q)) :=
  match x, y, z with
  | [], [], [] => Ok []
  | a :: x', b :: y', c :: z' =>
      rows <- column_stack x' y' z' ;; Ok ((a, b, c) :: rows)
  | _, _, _ => Raise ValueError
  end.

(** [np.interp(x, xp, fp)]: [xp] and [fp] must have one length and be
    non-empty; the result has the length of [x]. *)
Definition np_interp (x xp fp : list Q) : result (list Q) :=
  if (length xp =? length fp)%nat && negb (length xp =? 0)%nat
  then Ok (map (np_interp1 xp fp) x)
  else Raise ValueError.

(** [a[:, 1]] *)
Definition col1 (row : Q * Q * Q) : Q := snd (fst row).

(** [np.arange(n)] and [np.zeros(n)] *)
Definition arange (n : nat) : list Q :=
  map (fun k => inject_Z (Z.of_nat k)) (seq 0 n).

Definition zeros (n : nat) : list Q := repeat 0 n.

(** [int(x)] of a float: truncation towards zero. *)
Definition py_int (q : Q) : Z := Z.quot (Qnum q) (Zpos (Qden q)).

(** ** [calc_states_after_delay] *)

Definition calc_states_after_delay (states : state_t) (v_ego steer_angle : Q)
    (curvature_factor steer_ratio : pyfloat) (delay : Q) : result state_t :=
  let x := v_ego * delay in
  q <- fdiv (fmul (fmul (Fin v_ego) curvature_factor) (Fin (radians steer_angle)))
            steer_ratio ;;
  let psi := fmul q (Fin delay) in
  let y := fmul (Fin x) (fmap (fun p => sin (p / 2)) psi) in
  Ok {| st_x := Fin x; st_y := y; st_psi := psi;
        st_curvature := st_curvature states |}.

(** ** [LateralPlanner.__init__] and [setup_mpc] *)

Definition setup_mpc_state : state_t :=
  {| st_x := Fin 0; st_y := Fin 0; st_psi := Fin 0; st_curvature := Fin 0 |}.

(** [ffi.new("log_t *")]: zero-filled arrays of the horizon's length. *)
Definition setup_mpc_solution : log_t :=
  let z := repeat (Fin 0) (MPC_N + 1) in
  {| sol_x := z; sol_y := z; sol_psi := z; sol_curvature := z;
     sol_curvature_rate := repeat (Fin 0) MPC_N; sol_cost := Fin 0 |}.

Definition init_planner (cfg : Config) : LateralPlanner :=
  {| LP := LanePlanner_new;
     tuning := {| steer_rate_cost_prev := cfg_steerRateCost cfg;
                  steer_actuator_delay_prev := cfg_steerActuatorDelay cfg;
                  mpc_frame := 0%Z;
                  sR_time := 1%Z;
                  tune_sR := None;
                  tune_sRBP := None |};
     mpc := {| cur_state := setup_mpc_state;
               mpc_solution := setup_mpc_solution;
               solution_invalid_cnt := 0%nat;
               last_cloudlog_t := 0 |};
     lc := {| lane_change_state := off;
              lane_change_direction := none;
              lane_change_timer := 0;
              lane_change_ll_prob := 1;
              prev_one_blinker := false;
              pre_lane_change_timer := None |};
     forecast := {| path_xyz := repeat (0, 0, 0) TRAJECTORY_SIZE;
                    t_idxs := arange TRAJECTORY_SIZE;
                    plan_yaw := zeros TRAJECTORY_SIZE |};
     lane_change_enabled := cfg_LaneChangeEnabled cfg;
     desire := Desire_none;
     y_pts := zeros TRAJECTORY_SIZE;
     angle_steers_des := 0;
     angle_steers_des_mpc := 0;
     angle_steers_des_prev := 0;
     angle_steers_des_time := 0;
     v_ego_ed := 0;
     sR_delay_counter := 0%Z;
     use_dynamic_sr := cfg_car_is_volt cfg;
     alc_nudge_less := cfg_ALCnudgeLess cfg;
     alc_min_speed := cfg_ALCminSpeed cfg;
     alc_timer := cfg_ALCtimer cfg;
     desired_steering_wheel_angle_deg := None;
     desired_steering_wheel_angle_rate_deg := None |}.

(** The [libmpc.init] call of [setup_mpc]. *)
Definition init_trace (cfg : Config) : list event :=
  [MpcInit MPC_COST_LAT_PATH MPC_COST_LAT_HEADING (cfg_steerRateCost cfg)].

(** ** [update], lines 115-122: tuning values that changed *)

Definition refresh_tuning (tu : Tuning) (cur : state_t) (VM : VehicleModel)
    (nt : NTune) (steering_wheel_angle_deg steering_wheel_angle_offset_deg : Q)
  : result (Tuning * state_t * list event) :=
  let rate :=
    if negb (Qeq_bool (steer_rate_cost_prev tu) (nt_steerRateCost nt))
    then nt_steerRateCost nt else steer_rate_cost_prev tu in
  if negb (Qeq_bool (steer_actuator_delay_prev tu) (nt_steerActuatorDelay nt))
  then
    c <- fdiv (Fin (radians (steering_wheel_angle_deg
                             - steering_wheel_angle_offset_deg))) (sR VM) ;;
    Ok ({| steer_rate_cost_prev := rate;
           steer_actuator_delay_prev := nt_steerActuatorDelay nt;
           mpc_frame := mpc_frame tu; sR_time := sR_time tu;
           tune_sR := tune_sR tu; tune_sRBP := tune_sRBP tu |},
        {| st_x := st_x cur; st_y := st_y cur; st_psi := st_psi cur;
           st_curvature := c |},
        [MpcInit MPC_COST_LAT_PATH MPC_COST_LAT_HEADING rate])
  else
    Ok ({| steer_rate_cost_prev := rate;
           steer_actuator_delay_prev := steer_actuator_delay_prev tu;
           mpc_frame := mpc_frame tu; sR_time := sR_time tu;
           tune_sR := tune_sR tu; tune_sRBP := tune_sRBP tu |},
        cur, []).

(** ** Lines 128-138: the vehicle model's parameters *)

(** Modelled from the spec: [VehicleModel.update_params], whose file
    ([selfdrive/controls/lib/vehicle_model.py]) is not among the sources.
    It "updates internal model parameters" from a stiffness factor and a
    steering ratio; the planner reads the ratio back as [VM.sR]. *)
Definition VM_update_params (stiffness_factor steer_ratio : pyfloat)
  : VehicleModel :=
  {| sR := steer_ratio; sF := stiffness_factor |}.

Definition update_vehicle_model (self : LateralPlanner) (sm : Tick)
  : VehicleModel :=
  let x := fmax (stiffnessFactor (liveParameters sm)) (Fin 0.1) in
  let sr :=
    if use_dynamic_sr self
    then interp (Qabs (angle_steers_des_mpc self)) [5; 35] [Fin 13.5; Fin 17.5]
    else if nt_useLiveSteerRatio (ntune sm)
         then fmax (lp_steerRatio (liveParameters sm)) (Fin 0.1)
         else fmax (nt_steerRatio (ntune sm)) (Fin 0.1) in
  VM_update_params x sr.

(** ** Lines 143-151: the frame counter and the periodic re-read *)

Definition reload_conf (tu : Tuning) (nt : NTune) (k : KegmanConf) : Tuning :=
  let frame := (mpc_frame tu + 1)%Z in
  if (frame mod 500 =? 0)%Z then
    if conf_nTune k then
      {| steer_rate_cost_prev := steer_rate_cost_prev tu;
         steer_actuator_delay_prev := steer_actuator_delay_prev tu;
         mpc_frame := 0%Z;
         sR_time := (py_int (conf_sR_time k) * 100)%Z;
         tune_sR := Some (nt_steerRatio nt,
                          fadd (nt_steerRatio nt) (Fin (conf_sR_boost k)));
         tune_sRBP := Some (conf_sR_BP0 k, conf_sR_BP1 k) |}
    else
      {| steer_rate_cost_prev := steer_rate_cost_prev tu;
         steer_actuator_delay_prev := steer_actuator_delay_prev tu;
         mpc_frame := 0%Z; sR_time := sR_time tu;
         tune_sR := tune_sR tu; tune_sRBP := tune_sRBP tu |}
  else
    {| steer_rate_cost_prev := steer_rate_cost_prev tu;
       steer_actuator_delay_prev := steer_actuator_delay_prev tu;
       mpc_frame := frame; sR_time := sR_time tu;
       tune_sR := tune_sR tu; tune_sRBP := tune_sRBP tu |}.

(** ** Line 153 *)

Definition measured_curvature_of (curvature_factor : pyfloat)
    (steering_wheel_angle_deg steering_wheel_angle_offset_deg : Q)
    (VM : VehicleModel) : result pyfloat :=
  fdiv (fmul (fneg curvature_factor)
             (Fin (radians (steering_wheel_angle_deg
                            - steering_wheel_angle_offset_deg))))
       (sR VM).

(** ** Lines 156-161: the forecast is taken only at the expected length *)

Definition accept_forecast (fc : Forecast) (md : ModelV2) : result Forecast :=
  if (length (xs (position md)) =? TRAJECTORY_SIZE)%nat
     && (length (xs (orientation md)) =? TRAJECTORY_SIZE)%nat
  then
    path <- column_stack (xs (position md)) (ys (position md))
                         (zs (position md)) ;;
    Ok {| path_xyz := path;
          t_idxs := ts (position md);
          plan_yaw := zs (orientation md) |}
  else Ok fc.

(** ** Lines 164-231: the lane-change logic *)

(** Lines 172-179: the blinker sets the direction attribute and feeds the
    pre-lane-change timer. *)
Definition blinker_step (l : LaneChange) (cs : CarStateMsg)
  : result (LaneChangeDirection * Q) :=
  if leftBlinker cs then
    t <- attr (pre_lane_change_timer l) ;; Ok (left, t + DT_MDL)
  else if rightBlinker cs then
    t <- attr (pre_lane_change_timer l) ;; Ok (right, t + DT_MDL)
  else Ok (lane_change_direction l, 0).

(** Lines 181-188.  [local_direction] is the local variable
    [lane_change_direction] of line 164, not the attribute. *)
Definition torque_applied_of (nudge_less : bool) (pre_timer timer_limit : Q)
    (local_direction : LaneChangeDirection) (cs : CarStateMsg) : bool :=
  if nudge_less && Qlt_bool timer_limit pre_timer then true
  else if LaneChangeDirection_eqb local_direction left
       then Qlt_bool 0 (steeringTorque cs) && steeringPressed cs
       else Qlt_bool (steeringTorque cs) 0 && steeringPressed cs.

(** Lines 191-192 *)
Definition blindspot_detected_of (direction : LaneChangeDirection)
    (cs : CarStateMsg) : bool :=
  (leftBlindspot cs && LaneChangeDirection_eqb direction left)
  || (rightBlindspot cs && LaneChangeDirection_eqb direction right).

(** Lines 196-224: the next state and blend factor. *)
Definition state_transition (st : LaneChangeState) (ll_prob : Q)
    (one_blinker prev_blinker below_lane_change_speed
     torque_applied blindspot_detected : bool) (lane_change_prob : Q)
  : LaneChangeState * Q :=
  if LaneChangeState_eqb st off && one_blinker && negb prev_blinker
     && negb below_lane_change_speed
  then (preLaneChange, 1)
  else if LaneChangeState_eqb st preLaneChange then
    if negb one_blinker || below_lane_change_speed then (off, ll_prob)
    else if torque_applied && negb blindspot_detected
         then (laneChangeStarting, ll_prob)
         else (st, ll_prob)
  else if LaneChangeState_eqb st laneChangeStarting then
    let ll := pymax (ll_prob - 2 * DT_MDL) 0 in
    if Qlt_bool lane_change_prob 0.02 && Qlt_bool ll 0.01
    then (laneChangeFinishing, ll)
    else (st, ll)
  else if LaneChangeState_eqb st laneChangeFinishing then
    let ll := pymin (ll_prob + DT_MDL) 1 in
    if one_blinker && Qlt_bool 0.99 ll then (preLaneChange, ll)
    else if Qlt_bool 0.99 ll then (off, ll)
    else (st, ll)
  else (st, ll_prob).

(** Lines 226-229 *)
Definition timer_step (st : LaneChangeState) (timer : Q) : Q :=
  match st with
  | off | preLaneChange => 0
  | _ => timer + DT_MDL
  end.

Definition lane_change_logic (self : LateralPlanner) (cs : CarStateMsg)
    (active : bool) (lp : LanePlanner) : result LaneChange :=
  let l := lc self in
  let v_ego := vEgo cs in
  let lane_change_direction_local := none in
  let one_blinker := one_blinker_of (leftBlinker cs) (rightBlinker cs) in
  let below_lane_change_speed := Qlt_bool v_ego (alc_min_speed self) in
  '(st, direction, ll_prob, pre_timer) <-
    (if negb active || Qlt_bool 10 (lane_change_timer l) then
       Ok (off, lane_change_direction l, lane_change_ll_prob l, 0)
     else
       '(direction, pre_timer) <- blinker_step l cs ;;
       let torque_applied :=
         torque_applied_of (alc_nudge_less self) pre_timer (alc_timer self)
                           lane_change_direction_local cs in
       let blindspot_detected := blindspot_detected_of direction cs in
       let lane_change_prob := l_lane_change_prob lp + r_lane_change_prob lp in
       let '(st, ll_prob) :=
         state_transition (lane_change_state l) (lane_change_ll_prob l)
                          one_blinker (prev_one_blinker l)
                          below_lane_change_speed torque_applied
                          blindspot_detected lane_change_prob in
       Ok (st, direction, ll_prob, pre_timer)) ;;
  Ok {| lane_change_state := st;
        lane_change_direction := direction;
        lane_change_timer := timer_step st (lane_change_timer l);
        lane_change_ll_prob := ll_prob;
        prev_one_blinker := one_blinker;
        pre_lane_change_timer := Some pre_timer |}.

(** ** Lines 233-238: the desire, and the lane lines faded by it *)

Definition scale_lane_lines (lp : LanePlanner) (d : Desire) (ll_prob : Q)
  : LanePlanner :=
  match d with
  | Desire_none => lp
  | _ =>
      {| lll_prob := lll_prob lp * ll_prob;
         rll_prob := rll_prob lp * ll_prob;
         d_prob := d_prob lp;
         lane_width := lane_width lp;
         l_lane_change_prob := l_lane_change_prob lp;
         r_lane_change_prob := r_lane_change_prob lp |}
  end.

(** ** Lines 286-300: the check of the solution

    [cur] is the carried solver state after line 261, [sol] the solution of
    this tick. *)
Definition mpc_nans_of (sol : log_t) : bool := existsb isnan (sol_curvature sol).

Definition solution_invalid (sol : log_t) : bool :=
  fgt (sol_cost sol) (Fin 20000) || mpc_nans_of sol.

Definition check_solution (m : Mpc) (cur : state_t) (sol : log_t)
    (rate_cost : Q) (measured_curvature : pyfloat) (t : Q)
  : Mpc * list event :=
  let mpc_nans := mpc_nans_of sol in
  let '(cur', last, ev) :=
    if mpc_nans then
      let reseeded := {| st_x := st_x cur; st_y := st_y cur;
                         st_psi := st_psi cur;
                         st_curvature := measured_curvature |} in
      let init := MpcInit MPC_COST_LAT_PATH MPC_COST_LAT_HEADING rate_cost in
      if Qlt_bool (last_cloudlog_t m + 5) t
      then (reseeded, t, [init; CloudlogWarning t])
      else (reseeded, last_cloudlog_t m, [init])
    else (cur, last_cloudlog_t m, []) in
  let cnt :=
    if fgt (sol_cost sol) (Fin 20000) || mpc_nans
    then S (solution_invalid_cnt m) else 0%nat in
  ({| cur_state := cur'; mpc_solution := sol;
      solution_invalid_cnt := cnt; last_cloudlog_t := last |}, ev).

(** ** Lines 264-272: the command read off the solution *)

Definition next_curvature_of (sol : log_t) (idxs : list Q)
    (v_ego delay : Q) : result (pyfloat * pyfloat) :=
  let next_curvature := interp delay idxs (sol_curvature sol) in
  let psi := interp delay idxs (sol_psi sol) in
  next_curvature_rate <- item0 (sol_curvature_rate sol) ;;
  next_curvature_from_psi <- fdiv psi (Fin (pymax v_ego 0.1 * delay)) ;;
  c0 <- item0 (sol_curvature sol) ;;
  if fgt psi (fmul (fmul c0 (Fin delay)) (Fin v_ego))
  then Ok (fmax next_curvature_from_psi next_curvature, next_curvature_rate)
  else Ok (fmin next_curvature_from_psi next_curvature, next_curvature_rate).

(** ** Lines 258-261: the solver state carried to the next tick *)

Definition carried (fc : Forecast) (sol : log_t) : state_t :=
  {| st_x := Fin 0; st_y := Fin 0; st_psi := Fin 0;
     st_curvature :=
       interp DT_MDL (firstn (MPC_N + 1) (t_idxs fc)) (sol_curvature sol) |}.

(** ** [LateralPlanner.update] *)

Definition update (self : LateralPlanner) (VM : VehicleModel) (sm : Tick)
  : result (LateralPlanner * VehicleModel * list event) :=
  let cs := carState sm in
  let v_ego := vEgo cs in
  let steering_wheel_angle_offset_deg := angleOffset (liveParameters sm) in
  let steering_wheel_angle_deg := steeringAngle cs in
  '(tu1, cur1, ev1) <-
    refresh_tuning (tuning self) (cur_state (mpc self)) VM (ntune sm)
                   steering_wheel_angle_deg steering_wheel_angle_offset_deg ;;
  let VM1 := update_vehicle_model self sm in
  let curvature_factor := vm_curvature_factor sm in
  let tu2 := reload_conf tu1 (ntune sm) (kegman sm) in
  measured_curvature <-
    measured_curvature_of curvature_factor steering_wheel_angle_deg
                          steering_wheel_angle_offset_deg VM1 ;;
  let lp1 := lp_parsed sm in
  fc1 <- accept_forecast (forecast self) (modelV2 sm) ;;
  lc1 <- lane_change_logic self cs (active sm) lp1 ;;
  let desire1 := DESIRES (lane_change_direction lc1) (lane_change_state lc1) in
  let lp2 := scale_lane_lines lp1 desire1 (lane_change_ll_prob lc1) in
  let d_path_xyz := lp_d_path sm in
  let idxs := firstn (MPC_N + 1) (t_idxs fc1) in
  let sample := map (Qmult v_ego) idxs in
  y_pts1 <- np_interp sample (map norm3 d_path_xyz) (map col1 d_path_xyz) ;;
  heading_pts <- np_interp sample (map norm3 (path_xyz fc1)) (plan_yaw fc1) ;;
  let steerActuatorDelay := nt_steerActuatorDelay (ntune sm) in
  cur2 <- calc_states_after_delay cur1 v_ego
            (steering_wheel_angle_deg - steering_wheel_angle_offset_deg)
            curvature_factor (sR VM1) steerActuatorDelay ;;
  _ <- py_assert (length y_pts1 =? MPC_N + 1)%nat ;;
  _ <- py_assert (length heading_pts =? MPC_N + 1)%nat ;;
  let ev2 := [RunMpc cur2 v_ego CAR_ROTATION_RADIUS y_pts1 heading_pts] in
  let sol := mpc_out sm in
  let cur3 := carried fc1 sol in
  let delay := steerActuatorDelay + 0.2 in
  '(next_curvature, next_curvature_rate) <-
    next_curvature_of sol idxs v_ego delay ;;
  let curvature_desired :=
    if active sm then next_curvature else measured_curvature in
  let desired_curvature_rate :=
    if active sm then next_curvature_rate else Fin 0 in
  a <- fdiv (fmap degrees (fmul curvature_desired (sR VM1))) curvature_factor ;;
  r <- fdiv (fmap degrees (fmul desired_curvature_rate (sR VM1)))
            curvature_factor ;;
  let '(mpc1, ev3) :=
    check_solution (mpc self) cur3 sol (steer_rate_cost_prev tu2)
                   measured_curvature (now sm) in
  Ok ({| LP := lp2;
         tuning := tu2;
         mpc := mpc1;
         lc := lc1;
         forecast := fc1;
         lane_change_enabled := lane_change_enabled self;
         desire := desire1;
         y_pts := y_pts1;
         angle_steers_des := angle_steers_des self;
         angle_steers_des_mpc := angle_steers_des_mpc self;
         angle_steers_des_prev := angle_steers_des_mpc self;
         angle_steers_des_time := angle_steers_des_time self;
         v_ego_ed := v_ego_ed self;
         sR_delay_counter := sR_delay_counter self;
         use_dynamic_sr := use_dynamic_sr self;
         alc_nudge_less := alc_nudge_less self;
         alc_min_speed := alc_min_speed self;
         alc_timer := alc_timer self;
         desired_steering_wheel_angle_deg :=
           Some (fadd (fneg a) (Fin steering_wheel_angle_offset_deg));
         desired_steering_wheel_angle_rate_deg := Some (fneg r) |},
      VM1, ev1 ++ ev2 ++ ev3).

(** ** [LateralPlanner.publish]: the [lateralPlan] message *)

Definition publish (self : LateralPlanner) (VM : VehicleModel) (sm : Tick)
  : result LateralPlanMsg :=
  let plan_solution_valid := (solution_invalid_cnt (mpc self) <? 2)%nat in
  angle <- attr (desired_steering_wheel_angle_deg self) ;;
  rate <- attr (desired_steering_wheel_angle_rate_deg self) ;;
  Ok {| msg_laneWidth := lane_width (LP self);
        msg_dPathPoints := y_pts self;
        msg_lProb := lll_prob (LP self);
        msg_rProb := rll_prob (LP self);
        msg_dProb := d_prob (LP self);
        msg_angleSteers := angle;
        msg_rateSteers := rate;
        msg_angleOffset := angleOffset (liveParameters sm);
        mpcSolutionValid := plan_solution_valid;
        msg_desire := desire self;
        laneChangeState := lane_change_state (lc self);
        laneChangeDirection := lane_change_direction (lc self);
        msg_steerRatio := sR VM;
        msg_steerRateCost := steer_rate_cost_prev (tuning self);
        msg_steerActuatorDelay := steer_actuator_delay_prev (tuning self) |}.

(** ** Runs: [update] tick after tick *)

Fixpoint run (self : LateralPlanner) (VM : VehicleModel) (ticks : list Tick)
  : result (LateralPlanner * VehicleModel * list event) :=
  match ticks with
  | [] => Ok (self, VM, [])
  | sm :: rest =>
      '(self1, VM1, ev1) <- update self VM sm ;;
      '(self2, VM2, ev2) <- run self1 VM1 rest ;;
      Ok (self2, VM2, ev1 ++ ev2)
  end.

(** The times of the diagnostics in a trace. *)
Fixpoint warnings (tr : list event) : list Q :=
  match tr with
  | [] => []
  | CloudlogWarning t :: tr' => t :: warnings tr'
  | _ :: tr' => warnings tr'
  end.

(** No two diagnostics within five seconds: every later one comes more than
    5 s after every earlier one. *)
Definition spaced (ws : list Q) : Prop :=
  ForallOrdPairs (fun earlier later => earlier + 5 < later) ws.

(** The calls a tick makes after it has run the solver. *)
Fixpoint after_solve (tr : list event) : list event :=
  match tr with
  | [] => []
  | RunMpc _ _ _ _ _ :: tr' => tr'
  | _ :: tr' => after_solve tr'
  end.

(** [p] is a whole number of tick periods between 0 and 1, for a tick rate
    of [n] ticks per second. *)
Definition on_grid (n : positive) (p : Q) : Prop :=
  exists k : Z, (0 <= k <= Z.pos n)%Z /\ p == inject_Z k * DT_MDL.

(** The stored forecast passes the checks that [np.interp] and the two
    assertions make on it. *)
Definition forecast_usable (fc : Forecast) : bool :=
  (length (path_xyz fc) =? length (plan_yaw fc))%nat
  && negb (length (path_xyz fc) =? 0)%nat
  && (MPC_N + 1 <=? length (t_idxs fc))%nat.

(** The heading targets handed to the solver when the stored forecast is
    [fc] and the speed is [v_ego]. *)
Definition heading_targets (fc : Forecast) (v_ego : Q) : list Q :=
  map (np_interp1 (map norm3 (path_xyz fc)) (plan_yaw fc))
      (map (Qmult v_ego) (firstn (MPC_N + 1) (t_idxs fc))).

(** What the collaborators hand over is usable: no divisor is zero (the
    steer ratio left by the previous tick and the one of this tick, the
    curvature factor, the look-ahead time), the lane planner's path has a
    point, and the solution's arrays are not empty. *)
Definition collaborators_sane (self : LateralPlanner) (VM : VehicleModel)
    (sm : Tick) : bool :=
  negb (fzero (sR VM))
  && negb (fzero (sR (update_vehicle_model self sm)))
  && negb (fzero (vm_curvature_factor sm))
  && negb (Qeq_bool (pymax (vEgo (carState sm)) 0.1
                     * (nt_steerActuatorDelay (ntune sm) + 0.2)) 0)
  && negb (length (lp_d_path sm) =? 0)%nat
  && negb (length (sol_curvature (mpc_out sm)) =? 0)%nat
  && negb (length (sol_curvature_rate (mpc_out sm)) =? 0)%nat.

(** Outside [off] the direction attribute has been set. *)
Definition direction_known (self : LateralPlanner) : Prop :=
  lane_change_state (lc self) <> off ->
  lane_change_direction (lc self) <> none.

(** The moves the lane-change state can make in one tick. *)
Definition lane_change_edge (a b : LaneChangeState) : bool :=
  match a, b with
  | off, off | off, preLaneChange
  | preLaneChange, off | preLaneChange, preLaneChange
  | preLaneChange, laneChangeStarting
  | laneChangeStarting, off | laneChangeStarting, laneChangeStarting
  | laneChangeStarting, laneChangeFinishing
  | laneChangeFinishing, off | laneChangeFinishing, preLaneChange
  | laneChangeFinishing, laneChangeFinishing => true
  | _, _ => false
  end.

(** A lane change is under way. *)
Definition changing (st : LaneChangeState) : bool :=
  match st with
  | laneChangeStarting | laneChangeFinishing => true
  | _ => false
  end.

(** Equality of float values: the same number, or both not-a-number. *)
Definition feq (a b : pyfloat) : Prop :=
  match a, b with
  | Fin x, Fin y => x == y
  | NaN, NaN => True
  | _, _ => False
  end.

End Model.

(** ** A concrete setting, used by the examples

    A 20 Hz tick, the horizon sizes of openpilot, linear interpolation, and
    rational stand-ins for the [math] functions. *)

Module Demo.

Definition lerp (x x0 x1 f0 f1 : Q) : Q :=
  f0 + (x - x0) * (f1 - f0) / (x1 - x0).

Fixpoint interp_q (xp fp : list Q) (x : Q) : Q :=
  match xp, fp with
  | x0 :: xp', f0 :: fp' =>
      if Qle_bool x x0 then f0
      else match xp', fp' with
           | x1 :: _, f1 :: _ =>
               if Qle_bool x x1 then lerp x x0 x1 f0 f1
               else interp_q xp' fp' x
           | _, _ => f0
           end
  | _, _ => 0
  end.

Fixpoint interp_f (x : Q) (xp : list Q) (fp : list pyfloat) : pyfloat :=
  match xp, fp with
  | x0 :: xp', f0 :: fp' =>
      if Qle_bool x x0 then f0
      else match xp', fp' with
           | x1 :: _, f1 :: _ =>
               if Qle_bool x x1
               then flift2 (fun a b => lerp x x0 x1 a b) f0 f1
               else interp_f x xp' fp'
           | _, _ => f0
           end
  | _, _ => NaN
  end.

Definition extern : Extern :=
  {| DT_MDL := 0.05;
     TRAJECTORY_SIZE := 33;
     MPC_N := 16;
     MPC_COST_LAT_PATH := 1;
     MPC_COST_LAT_HEADING := 1;
     CAR_ROTATION_RADIUS := 0;
     radians := fun d => d * 0.0175;
     degrees := fun r => r * 57.3;
     sin := fun a => a;
     interp := interp_f;
     np_interp1 := interp_q;
     norm3 := fun r => Qabs (fst (fst r)) + Qabs (snd (fst r)) + Qabs (snd r);
     LanePlanner_new :=
       {| lll_prob := 0; rll_prob := 0; d_prob := 0; lane_width := 3.7;
          l_lane_change_prob := 0; r_lane_change_prob := 0 |} |}.

Definition cfg : Config :=
  {| cfg_steerRateCost := 0.5;
     cfg_steerActuatorDelay := 0.1;
     cfg_LaneChangeEnabled := true;
     cfg_car_is_volt := false;
     cfg_ALCnudgeLess := false;
     cfg_ALCminSpeed := 10;
     cfg_ALCtimer := 2 |}.

Definition VM0 : VehicleModel := {| sR := Fin 15; sF := Fin 1 |}.

(** A car at 20 m/s; [blinker] is 0 (none), 1 (left) or 2 (right). *)
Definition car (blinker : Z) (torque : Q) (pressed : bool) : CarStateMsg :=
  {| vEgo := 20;
     steeringAngle := 10;
     steeringTorque := torque;
     steeringPressed := pressed;
     leftBlinker := (blinker =? 1)%Z;
     rightBlinker := (blinker =? 2)%Z;
     leftBlindspot := false;
     rightBlindspot := false |}.

(** A solution with every sample equal to [c] and the given cost. *)
Definition solution (c cost : pyfloat) : log_t :=
  {| sol_x := repeat (Fin 0) 17;
     sol_y := repeat (Fin 0) 17;
     sol_psi := repeat (Fin 0) 17;
     sol_curvature := repeat c 17;
     sol_curvature_rate := repeat (Fin 0) 16;
     sol_cost := cost |}.

(** A straight road ahead: [k] points, one every 0.3 s at 20 m/s. *)
Definition straight (k : nat) : ModelV2 :=
  let idx := map (fun i => inject_Z (Z.of_nat i)) (seq 0 k) in
  {| position := {| xs := map (Qmult 6) idx; ys := repeat 0 k;
                    zs := repeat 0 k; ts := map (Qmult 0.3) idx |};
     orientation := {| xs := repeat 0 k; ys := repeat 0 k;
                       zs := repeat 0 k; ts := map (Qmult 0.3) idx |} |}.

Definition tick_with (md : ModelV2) (act : bool) (cs : CarStateMsg)
    (sol : log_t) (t : Q) : Tick :=
  {| carState := cs;
     active := act;
     liveParameters := {| angleOffset := 0; stiffnessFactor := Fin 1;
                          lp_steerRatio := Fin 15 |};
     modelV2 := md;
     ntune := {| nt_steerRateCost := 0.5; nt_steerActuatorDelay := 0.1;
                 nt_steerRatio := Fin 15; nt_useLiveSteerRatio := false |};
     kegman := {| conf_nTune := false; conf_sR_boost := 0; conf_sR_BP0 := 0;
                  conf_sR_BP1 := 0; conf_sR_time := 1 |};
     lp_parsed := {| lll_prob := 1; rll_prob := 1; d_prob := 1;
                     lane_width := 3.7;
                     l_lane_change_prob := 0; r_lane_change_prob := 0 |};
     vm_curvature_factor := Fin 0.4;
     lp_d_path := [(0, 0, 0); (100, 0, 0)];
     mpc_out := sol;
     now := t |}.

(** A tick with a forecast of the expected length, 33. *)
Definition tick : bool -> CarStateMsg -> log_t -> Q -> Tick :=
  tick_with (straight 33).

Definition good : log_t := solution (Fin 0) (Fin 10).

(** The solver did not converge: cost 25000, every sample finite. *)
Definition high_cost : log_t := solution (Fin 0) (Fin 25000).

(** The solver broke down: not-a-number curvature. *)
Definition broken : log_t := solution NaN (Fin 10).

(** Engaged, no blinker, hands off. *)
Definition cruise : Tick := tick true (car 0 0 false) good 100.

(** Engaged, left blinker on, hands off. *)
Definition signal_left : Tick := tick true (car 1 0 false) good 100.

(** Engaged, left blinker on, the driver pushes the wheel to the left
    (positive torque) or to the right (negative torque). *)
Definition nudge_left : Tick := tick true (car 1 1 true) good 100.
Definition nudge_right : Tick := tick true (car 1 (-1) true) good 100.

(** As [cruise], but the forecast has one point too few. *)
Definition short_forecast : Tick :=
  tick_with (straight 32) true (car 0 0 false) good 100.

(** Engaged, no blinker, at clock [t], with the solver's answer [sol]. *)
Definition solve (sol : log_t) (t : Q) : Tick := tick true (car 0 0 false) sol t.

(** A lane change to the left, from the fresh planner to the last tick of
    [laneChangeFinishing]: engage, signal, nudge, fade out over 10 ticks with
    the blinker on, fade in over 19 ticks with the blinker released. *)
Definition lane_change_left : list Tick :=
  [cruise; signal_left; nudge_right]
  ++ repeat signal_left 10 ++ repeat cruise 19.

End Demo.

(** ** More concrete inputs *)

Module DemoMore.
Import String.StringSyntax.
#[local] Open Scope string_scope.

(** Left blinker and a nudge, with a car in the left blind spot. *)
Definition blocked_left : Tick :=
  Demo.tick true
    {| vEgo := 20; steeringAngle := 10; steeringTorque := -1;
       steeringPressed := true; leftBlinker := true; rightBlinker := false;
       leftBlindspot := true; rightBlindspot := false |}
    Demo.good 100.

(** The controller is not engaged. *)
Definition disengaged : Tick :=
  Demo.tick false (Demo.car 0 0 false) Demo.good 100.

(** As [Demo.cruise], with the lane planner's answer and the parameter
    estimates given. *)
Definition tick_of (lp : LanePlanner) (live : LiveParameters) : Tick :=
  {| carState := Demo.car 0 0 false;
     active := true;
     liveParameters := live;
     modelV2 := Demo.straight 33;
     ntune := {| nt_steerRateCost := 0.5; nt_steerActuatorDelay := 0.1;
                 nt_steerRatio := Fin 15; nt_useLiveSteerRatio := true |};
     kegman := kegman Demo.cruise;
     lp_parsed := lp;
     vm_curvature_factor := Fin 0.4;
     lp_d_path := [(0, 0, 0); (100, 0, 0)];
     mpc_out := Demo.good;
     now := 100 |}.


(** The parameter estimator has no estimate yet: not-a-number. *)
Definition no_estimate : Tick :=
  tick_of (lp_parsed Demo.cruise)
          {| angleOffset := 0; stiffnessFactor := NaN; lp_steerRatio := NaN |}.


(** A nudge and one tick of fading, then the controller disengages. *)
Definition broken_off : list Tick :=
  [Demo.cruise; Demo.signal_left; Demo.nudge_right; Demo.cruise; disengaged].

(** Nudge-less lane changes after 0.05 s of blinker. *)
Definition cfg_nudge_less : Config :=
  {| cfg_steerRateCost := 0.5;
     cfg_steerActuatorDelay := 0.1;
     cfg_LaneChangeEnabled := true;
     cfg_car_is_volt := false;
     cfg_ALCnudgeLess := true;
     cfg_ALCminSpeed := 10;
     cfg_ALCtimer := 0.05 |}.

Definition values : GMCan.Values :=
  {| GMCan.KPH_TO_MS := 1 / 3.6;
     GMCan.STEER_THRESHOLD := 1;
     GMCan.AccState_OFF := 0;
     GMCan.CruiseButtons_UNPRESS := 1;
     GMCan.mean := fun l => fold_right Qplus 0 l / inject_Z (Z.of_nat (length l));
     GMCan.update_speed_kf := fun v => (v, 0);
     GMCan.parse_gear_shifter := fun _ => 0%Z |}.

(** The dictionary of a parser: every listed signal at its default, except
    the values given in [set]. *)
Definition parser_vl (signals : list GMCan.signal_t) (set : GMCan.vl_t)
  : GMCan.vl_t :=
  set ++ map (fun '(name, message, default) => (message, name, default))
             signals.

Definition car_obj : GMCan.CarStateObj :=
  {| GMCan.cruise_buttons := 1;
     GMCan.prev_cruise_buttons := 1;
     GMCan.lka_button := 0;
     GMCan.prev_lka_button := 0;
     GMCan.distance_button := 0;
     GMCan.prev_distance_button := 0;
     GMCan.follow_level := 2;
     GMCan.autoHold := false;
     GMCan.autoHoldActivated := false;
     GMCan.regenPaddlePressed := false;
     GMCan.cruiseMain := false;
     GMCan.engineRPM := 0;
     GMCan.park_brake := 0;
     GMCan.pcm_acc_status := 0;
     GMCan.lkas_status := 0 |}.

(** A Volt with the pedal at 12, the LKA button pressed, the left blinker
    on and the driver pushing with torque -3. *)
Definition volt_pt : GMCan.vl_t :=
  parser_vl (GMCan.get_can_parser values true)
    [ ("EBCMBrakePedalPosition", "BrakePedalPosition", 12);
      ("ASCMSteeringButton", "LKAButton", 1);
      ("BCMTurnSignals", "TurnSignals", 1);
      ("PSCMStatus", "LKADriverAppldTrq", -3) ].

(** The same car one call later, button released. *)
Definition volt_pt_next : GMCan.vl_t :=
  parser_vl (GMCan.get_can_parser values true) [].

(** The parser of a car that is not a Volt. *)
Definition other_pt : GMCan.vl_t :=
  parser_vl (GMCan.get_can_parser values false) [].

Definition chassis : GMCan.vl_t :=
  parser_vl GMCan.get_chassis_can_parser [].

End DemoMore.

(** * Properties *)

Section Proofs.
Context {E : Extern}.

(** ** Comparisons, [max] and [min] *)

Lemma Qlt_bool_iff (a b : Q) : Qlt_bool a b = true <-> a < b.
Proof.
  unfold Qlt_bool. rewrite negb_true_iff. split; intro H.
  - apply Qnot_le_lt. intro Hle. apply Qle_bool_iff in Hle. congruence.
  - destruct (Qle_bool b a) eqn:Hb; [|reflexivity].
    apply Qle_bool_iff in Hb. exfalso. apply (Qlt_not_le _ _ H Hb).
Qed.

Lemma Qlt_bool_false (a b : Q) : Qlt_bool a b = false <-> b <= a.
Proof.
  unfold Qlt_bool. rewrite negb_false_iff. apply Qle_bool_iff.
Qed.

Lemma pymax_spec (a b : Q) :
  (a < b /\ pymax a b = b) \/ (b <= a /\ pymax a b = a).
Proof.
  unfold pymax. destruct (Qlt_bool a b) eqn:H.
  - left. split; [now apply Qlt_bool_iff | reflexivity].
  - right. split; [now apply Qlt_bool_false | reflexivity].
Qed.

Lemma pymin_spec (a b : Q) :
  (b < a /\ pymin a b = b) \/ (a <= b /\ pymin a b = a).
Proof.
  unfold pymin. destruct (Qlt_bool b a) eqn:H.
  - left. split; [now apply Qlt_bool_iff | reflexivity].
  - right. split; [now apply Qlt_bool_false | reflexivity].
Qed.

(** ** The error monad *)

Lemma bind_Ok {A B : Type} (m : result A) (k : A -> result B) (b : B) :
  bind m k = Ok b -> exists a, m = Ok a /\ k a = Ok b.
Proof.
  destruct m as [a|e]; simpl; intro H; [eauto | discriminate].
Qed.

Lemma py_assert_Ok (c : bool) (u : unit) : py_assert c = Ok u -> c = true.
Proof.
  destruct c; simpl; [reflexivity | discriminate].
Qed.

(** ** What a completed [update] went through *)

Lemma update_stages self VM sm self' VM' tr :
  update self VM sm = Ok (self', VM', tr) ->
  exists tu1 cur1 ev1 cur2 mc y h,
    refresh_tuning (tuning self) (cur_state (mpc self)) VM (ntune sm)
      (steeringAngle (carState sm)) (angleOffset (liveParameters sm))
    = Ok (tu1, cur1, ev1)
    /\ measured_curvature_of (vm_curvature_factor sm)
         (steeringAngle (carState sm)) (angleOffset (liveParameters sm)) VM'
       = Ok mc
    /\ VM' = update_vehicle_model self sm
    /\ accept_forecast (forecast self) (modelV2 sm) = Ok (forecast self')
    /\ lane_change_logic self (carState sm) (active sm) (lp_parsed sm)
       = Ok (lc self')
    /\ np_interp (map (Qmult (vEgo (carState sm)))
                      (firstn (MPC_N + 1) (t_idxs (forecast self'))))
                 (map norm3 (path_xyz (forecast self')))
                 (plan_yaw (forecast self')) = Ok h
    /\ length h = (MPC_N + 1)%nat
    /\ tuning self' = reload_conf tu1 (ntune sm) (kegman sm)
    /\ mpc self' =
       fst (check_solution (mpc self) (carried (forecast self') (mpc_out sm))
              (mpc_out sm) (steer_rate_cost_prev (tuning self')) mc (now sm))
    /\ tr = ev1
            ++ [RunMpc cur2 (vEgo (carState sm)) CAR_ROTATION_RADIUS y h]
            ++ snd (check_solution (mpc self)
                      (carried (forecast self') (mpc_out sm)) (mpc_out sm)
                      (steer_rate_cost_prev (tuning self')) mc (now sm))
    /\ desired_steering_wheel_angle_deg self' <> None
    /\ desired_steering_wheel_angle_rate_deg self' <> None.
Proof.
  unfold update. intro H.
  apply bind_Ok in H. destruct H as ([[tu1 cur1] ev1] & Hrefresh & H).
  apply bind_Ok in H. destruct H as (mc & Hmc & H).
  apply bind_Ok in H. destruct H as (fc1 & Hfc & H).
  apply bind_Ok in H. destruct H as (lc1 & Hlc & H).
  apply bind_Ok in H. destruct H as (y1 & Hy & H).
  apply bind_Ok in H. destruct H as (h1 & Hh & H).
  apply bind_Ok in H. destruct H as (cur2 & Hcur2 & H).
  apply bind_Ok in H. destruct H as (u1 & Hy_len & H).
  apply bind_Ok in H. destruct H as (u2 & Hh_len & H).
  apply bind_Ok in H. destruct H as ([nc ncr] & Hnext & H).
  apply bind_Ok in H. destruct H as (a & Ha & H).
  apply bind_Ok in H. destruct H as (r & Hr & H).
  destruct (check_solution _ _ _ _ _ _) as [mpc1 ev3] eqn:Hchk.
  injection H as <- <- <-.
  apply py_assert_Ok in Hh_len. apply Nat.eqb_eq in Hh_len.
  exists tu1, cur1, ev1, cur2, mc, y1, h1. simpl. rewrite Hchk. simpl.
  repeat split; try assumption; try reflexivity; discriminate.
Qed.

(** ** What a completed lane-change step went through *)

Lemma lane_change_logic_cases self cs act lp l' :
  lane_change_logic self cs act lp = Ok l' ->
  prev_one_blinker l' = one_blinker_of (leftBlinker cs) (rightBlinker cs)
  /\ lane_change_timer l'
     = timer_step (lane_change_state l') (lane_change_timer (lc self))
  /\ ((negb act || Qlt_bool 10 (lane_change_timer (lc self)) = true
       /\ lane_change_state l' = off
       /\ lane_change_direction l' = lane_change_direction (lc self)
       /\ lane_change_ll_prob l' = lane_change_ll_prob (lc self)
       /\ pre_lane_change_timer l' = Some 0)
      \/ (negb act || Qlt_bool 10 (lane_change_timer (lc self)) = false
          /\ exists pre,
              blinker_step (lc self) cs = Ok (lane_change_direction l', pre)
              /\ pre_lane_change_timer l' = Some pre
              /\ (lane_change_state l', lane_change_ll_prob l')
                 = state_transition
                     (lane_change_state (lc self))
                     (lane_change_ll_prob (lc self))
                     (one_blinker_of (leftBlinker cs) (rightBlinker cs))
                     (prev_one_blinker (lc self))
                     (Qlt_bool (vEgo cs) (alc_min_speed self))
                     (torque_applied_of (alc_nudge_less self) pre
                        (alc_timer self) none cs)
                     (blindspot_detected_of (lane_change_direction l') cs)
                     (l_lane_change_prob lp + r_lane_change_prob lp))).
Proof.
  unfold lane_change_logic. intro H.
  destruct (negb act || Qlt_bool 10 (lane_change_timer (lc self))) eqn:Hforce.
  - simpl in H. injection H as <-. simpl. repeat split. left. repeat split.
  - apply bind_Ok in H. destruct H as ([[[st d] ll] pre] & Hstep & H).
    injection H as <-. simpl.
    apply bind_Ok in Hstep. destruct Hstep as ([d0 pre0] & Hblink & Hstep).
    destruct (state_transition _ _ _ _ _ _ _ _) as [st1 ll1] eqn:Htr.
    injection Hstep as <- <- <- <-.
    repeat split. right. split; [reflexivity|].
    exists pre0. rewrite Htr. repeat split. exact Hblink.
Qed.

(** The blinker step never yields [none] unless the attribute already was. *)
Lemma blinker_step_direction l cs d pre :
  blinker_step l cs = Ok (d, pre) ->
  (leftBlinker cs = true /\ d = left)
  \/ (leftBlinker cs = false /\ rightBlinker cs = true /\ d = right)
  \/ (leftBlinker cs = false /\ rightBlinker cs = false
      /\ d = lane_change_direction l).
Proof.
  unfold blinker_step. intro H.
  destruct (leftBlinker cs).
  - apply bind_Ok in H. destruct H as (t & _ & H). injection H as <- _. auto.
  - destruct (rightBlinker cs).
    + apply bind_Ok in H. destruct H as (t & _ & H). injection H as <- _. auto.
    + injection H as <- _. auto.
Qed.

(** When the controller is off or the timer is past 10 s, the lane-change
    step cannot raise and ends in [off]. *)
Lemma forced_off_total self cs act lp :
  act = false \/ 10 < lane_change_timer (lc self) ->
  exists l', lane_change_logic self cs act lp = Ok l'
             /\ lane_change_state l' = off /\ lane_change_timer l' = 0.
Proof.
  intro H. unfold lane_change_logic.
  assert (Hf : negb act || Qlt_bool 10 (lane_change_timer (lc self)) = true).
  { destruct H as [-> | H]; [reflexivity|].
    apply Qlt_bool_iff in H. rewrite H. apply orb_true_r. }
  rewrite Hf. simpl. eexists. repeat split.
Qed.

(** ** The turn-signal flags (gm/carstate.py) *)

(** C10. The left and right blinker flags decoded from one turn-signal
    value are never both true, so the planner's test
    [leftBlinker != rightBlinker] says the same as "some blinker is on". *)
Theorem C10_blinkers_exclusive (STEER_THRESHOLD : Q) (pt_cp : GM.vl) :
  let ret := GM.update STEER_THRESHOLD pt_cp in
  GM.leftBlinker ret && GM.rightBlinker ret = false
  /\ one_blinker_of (GM.leftBlinker ret) (GM.rightBlinker ret)
     = GM.leftBlinker ret || GM.rightBlinker ret.
Proof.
  simpl.
  assert (H : Qeq_bool (GM.TurnSignals pt_cp) 1
              && Qeq_bool (GM.TurnSignals pt_cp) 2 = false).
  { destruct (Qeq_bool (GM.TurnSignals pt_cp) 1) eqn:H1; [|reflexivity].
    destruct (Qeq_bool (GM.TurnSignals pt_cp) 2) eqn:H2; [|reflexivity].
    apply Qeq_bool_iff in H1. apply Qeq_bool_iff in H2.
    rewrite H1 in H2. discriminate. }
  split; [exact H|].
  destruct (Qeq_bool (GM.TurnSignals pt_cp) 1),
           (Qeq_bool (GM.TurnSignals pt_cp) 2);
    try reflexivity; discriminate.
Qed.

(** ** The lane-change timer *)


(** ** The check of the solution *)

Lemma check_solution_cnt m cur sol rate mc t :
  solution_invalid_cnt (fst (check_solution m cur sol rate mc t))
  = if solution_invalid sol then S (solution_invalid_cnt m) else 0%nat.
Proof.
  unfold check_solution, solution_invalid.
  destruct (mpc_nans_of sol); [destruct (Qlt_bool _ t)|]; reflexivity.
Qed.

Lemma check_solution_curvature m cur sol rate mc t :
  st_curvature (cur_state (fst (check_solution m cur sol rate mc t)))
  = if mpc_nans_of sol then mc else st_curvature cur.
Proof.
  unfold check_solution.
  destruct (mpc_nans_of sol); [destruct (Qlt_bool _ t)|]; reflexivity.
Qed.

Lemma check_solution_events m cur sol rate mc t :
  snd (check_solution m cur sol rate mc t)
  = if mpc_nans_of sol
    then MpcInit MPC_COST_LAT_PATH MPC_COST_LAT_HEADING rate
         :: (if Qlt_bool (last_cloudlog_t m + 5) t
             then [CloudlogWarning t] else [])
    else [].
Proof.
  unfold check_solution.
  destruct (mpc_nans_of sol); [destruct (Qlt_bool _ t)|]; reflexivity.
Qed.

Lemma check_solution_last m cur sol rate mc t :
  last_cloudlog_t (fst (check_solution m cur sol rate mc t))
  = if mpc_nans_of sol && Qlt_bool (last_cloudlog_t m + 5) t
    then t else last_cloudlog_t m.
Proof.
  unfold check_solution.
  destruct (mpc_nans_of sol); [destruct (Qlt_bool _ t)|]; reflexivity.
Qed.

Lemma refresh_tuning_events tu cur VM nt a o tu1 cur1 ev1 :
  refresh_tuning tu cur VM nt a o = Ok (tu1, cur1, ev1) ->
  ev1 = [] \/ exists rate, ev1 = [MpcInit MPC_COST_LAT_PATH
                                          MPC_COST_LAT_HEADING rate].
Proof.
  unfold refresh_tuning. intro H.
  destruct (negb (Qeq_bool (steer_actuator_delay_prev tu) _)).
  - apply bind_Ok in H. destruct H as (c & _ & H). injection H as _ _ <-.
    right. eexists. reflexivity.
  - injection H as _ _ <-. left. reflexivity.
Qed.

(** The counter, the flag and the calls after the solver, for a completed
    tick. *)
Lemma update_check self VM sm self' VM' tr :
  update self VM sm = Ok (self', VM', tr) ->
  exists mc,
    measured_curvature_of (vm_curvature_factor sm)
      (steeringAngle (carState sm)) (angleOffset (liveParameters sm)) VM'
    = Ok mc
    /\ solution_invalid_cnt (mpc self')
       = (if solution_invalid (mpc_out sm)
          then S (solution_invalid_cnt (mpc self)) else 0%nat)
    /\ st_curvature (cur_state (mpc self'))
       = (if mpc_nans_of (mpc_out sm) then mc
          else interp DT_MDL (firstn (MPC_N + 1) (t_idxs (forecast self')))
                      (sol_curvature (mpc_out sm)))
    /\ after_solve tr
       = (if mpc_nans_of (mpc_out sm)
          then MpcInit MPC_COST_LAT_PATH MPC_COST_LAT_HEADING
                       (steer_rate_cost_prev (tuning self'))
               :: (if Qlt_bool (last_cloudlog_t (mpc self) + 5) (now sm)
                   then [CloudlogWarning (now sm)] else [])
          else [])
    /\ warnings tr
       = (if mpc_nans_of (mpc_out sm)
             && Qlt_bool (last_cloudlog_t (mpc self) + 5) (now sm)
          then [now sm] else [])
    /\ last_cloudlog_t (mpc self')
       = (if mpc_nans_of (mpc_out sm)
             && Qlt_bool (last_cloudlog_t (mpc self) + 5) (now sm)
          then now sm else last_cloudlog_t (mpc self)).
Proof.
  intro H. apply update_stages in H.
  destruct H as (tu1 & cur1 & ev1 & cur2 & mc & y & h & H).
  destruct H as (Hrefresh & Hmc & _ & _ & _ & _ & _ & _ & Hmpc & Htr & _).
  exists mc. split; [exact Hmc|].
  rewrite Hmpc, check_solution_cnt, check_solution_curvature,
    check_solution_last.
  rewrite check_solution_events in Htr. subst tr.
  repeat split.
  - destruct (refresh_tuning_events _ _ _ _ _ _ _ _ _ Hrefresh)
      as [-> | (rate & ->)]; reflexivity.
  - destruct (refresh_tuning_events _ _ _ _ _ _ _ _ _ Hrefresh)
      as [-> | (rate & ->)]; simpl;
      destruct (mpc_nans_of (mpc_out sm)); simpl;
      try destruct (Qlt_bool _ (now sm)); reflexivity.
Qed.

(** A completed [update] assigns everything [publish] reads. *)
Lemma publish_after_update self VM sm self' VM' tr :
  update self VM sm = Ok (self', VM', tr) ->
  exists msg,
    publish self' VM' sm = Ok msg
    /\ mpcSolutionValid msg = (solution_invalid_cnt (mpc self') <? 2)%nat
    /\ laneChangeState msg = lane_change_state (lc self')
    /\ laneChangeDirection msg = lane_change_direction (lc self').
Proof.
  intro H. apply update_stages in H.
  destruct H as (tu1 & cur1 & ev1 & cur2 & mc & y & h & H).
  destruct H as (_ & _ & _ & _ & _ & _ & _ & _ & _ & _ & Ha & Hr).
  unfold publish.
  destruct (desired_steering_wheel_angle_deg self') as [a|]; [|congruence].
  destruct (desired_steering_wheel_angle_rate_deg self') as [r|]; [|congruence].
  simpl. eexists. repeat split.
Qed.

(** ** Invalid solutions *)

(** C2 (amended). A tick whose solution has a cost above 20000 or a
    not-a-number curvature sample increments the counter of consecutive
    invalid solutions.  The costs are reinitialised and the carried
    curvature is reseeded from the measured curvature when the curvature has
    a not-a-number sample; when it has none, also at a cost above 20000, the
    carried curvature stays the one read off the solution and nothing is
    called after the solver. *)
Theorem C2_invalid_solution_handling self VM sm self' VM' tr :
  update self VM sm = Ok (self', VM', tr) ->
  exists measured_curvature,
    measured_curvature_of (vm_curvature_factor sm)
      (steeringAngle (carState sm)) (angleOffset (liveParameters sm)) VM'
    = Ok measured_curvature
    /\ (solution_invalid (mpc_out sm) = true ->
        solution_invalid_cnt (mpc self')
        = S (solution_invalid_cnt (mpc self)))
    /\ (mpc_nans_of (mpc_out sm) = true ->
        st_curvature (cur_state (mpc self')) = measured_curvature
        /\ exists rest,
            after_solve tr
            = MpcInit MPC_COST_LAT_PATH MPC_COST_LAT_HEADING
                      (steer_rate_cost_prev (tuning self')) :: rest)
    /\ (mpc_nans_of (mpc_out sm) = false ->
        st_curvature (cur_state (mpc self'))
        = interp DT_MDL (firstn (MPC_N + 1) (t_idxs (forecast self')))
                 (sol_curvature (mpc_out sm))
        /\ after_solve tr = []).
Proof.
  intro H. destruct (update_check _ _ _ _ _ _ H)
    as (mc & Hmc & Hcnt & Hcur & Hafter & _ & _).
  exists mc. split; [exact Hmc|]. split; [|split].
  - intro Hinv. rewrite Hcnt, Hinv. reflexivity.
  - intro Hnan. rewrite Hcur, Hafter, Hnan. split; [reflexivity|].
    eexists. reflexivity.
  - intro Hfin. rewrite Hcur, Hafter, Hfin. split; reflexivity.
Qed.

(** C3. The published flag [mpcSolutionValid] is false exactly when the
    counter of consecutive invalid solutions is 2 or more: after two
    invalid ticks in a row it is false; after an invalid tick that follows
    a valid one it is still true, and the valid tick that comes next puts
    the counter back to zero and leaves the flag true. *)
Theorem C3_solution_valid_flag s0 VM0 t1 t2 s1 VM1 tr1 s2 VM2 tr2 :
  update s0 VM0 t1 = Ok (s1, VM1, tr1) ->
  update s1 VM1 t2 = Ok (s2, VM2, tr2) ->
  exists m1 m2,
    publish s1 VM1 t1 = Ok m1
    /\ publish s2 VM2 t2 = Ok m2
    /\ (mpcSolutionValid m1 = false
        <-> (2 <= solution_invalid_cnt (mpc s1))%nat)
    /\ (mpcSolutionValid m2 = false
        <-> (2 <= solution_invalid_cnt (mpc s2))%nat)
    /\ (solution_invalid (mpc_out t1) = true ->
        solution_invalid (mpc_out t2) = true ->
        mpcSolutionValid m2 = false)
    /\ (solution_invalid_cnt (mpc s0) = 0%nat ->
        solution_invalid (mpc_out t1) = true ->
        solution_invalid (mpc_out t2) = false ->
        mpcSolutionValid m1 = true
        /\ solution_invalid_cnt (mpc s2) = 0%nat
        /\ mpcSolutionValid m2 = true).
Proof.
  intros H1 H2.
  destruct (publish_after_update _ _ _ _ _ _ H1) as (m1 & Hp1 & Hv1 & _).
  destruct (publish_after_update _ _ _ _ _ _ H2) as (m2 & Hp2 & Hv2 & _).
  destruct (update_check _ _ _ _ _ _ H1) as (mc1 & _ & Hc1 & _).
  destruct (update_check _ _ _ _ _ _ H2) as (mc2 & _ & Hc2 & _).
  exists m1, m2. split; [exact Hp1|]. split; [exact Hp2|].
  rewrite Hv1, Hv2.
  split; [apply Nat.ltb_ge|]. split; [apply Nat.ltb_ge|]. split.
  - intros Hi1 Hi2. rewrite Hc2, Hi2, Hc1, Hi1. reflexivity.
  - intros Hzero Hi1 Hv. rewrite Hc2, Hv, Hc1, Hi1, Hzero.
    repeat split.
Qed.

(** ** The rate limit of the diagnostic *)

Lemma warnings_app tr1 tr2 : warnings (tr1 ++ tr2) = warnings tr1 ++ warnings tr2.
Proof.
  induction tr1 as [|e tr1 IH]; [reflexivity|].
  destruct e; simpl; rewrite IH; reflexivity.
Qed.

Lemma run_warnings ticks : forall self VM self' VM' tr,
  run self VM ticks = Ok (self', VM', tr) ->
  last_cloudlog_t (mpc self) <= last_cloudlog_t (mpc self')
  /\ Forall (fun w => last_cloudlog_t (mpc self) + 5 < w
                      /\ w <= last_cloudlog_t (mpc self')) (warnings tr)
  /\ spaced (warnings tr).
Proof.
  induction ticks as [|sm rest IH]; intros self VM self' VM' tr H.
  - injection H as <- _ <-. simpl. split; [apply Qle_refl|].
    split; constructor.
  - simpl in H.
    apply bind_Ok in H. destruct H as ([[s1 VM1] tr1] & Hup & H).
    apply bind_Ok in H. destruct H as ([[s2 VM2] tr2] & Hrun & H).
    injection H as <- <- <-.
    destruct (IH _ _ _ _ _ Hrun) as (Hle & Hall & Hsp).
    destruct (update_check _ _ _ _ _ _ Hup)
      as (mc & _ & _ & _ & _ & Hw & Hlast).
    rewrite warnings_app, Hw. rewrite Hlast in Hle, Hall.
    destruct (mpc_nans_of (mpc_out sm)
              && Qlt_bool (last_cloudlog_t (mpc self) + 5) (now sm)) eqn:Hc.
    + apply andb_prop in Hc. destruct Hc as (_ & Hc).
      apply Qlt_bool_iff in Hc. simpl.
      split; [lra|]. split.
      * constructor; [lra|].
        eapply Forall_impl; [|exact Hall]. simpl. intros w Hw'. lra.
      * constructor; [|exact Hsp].
        eapply Forall_impl; [|exact Hall]. simpl. intros w Hw'. lra.
    + simpl. split; [exact Hle|]. split; [exact Hall | exact Hsp].
Qed.

(** C4 (amended). When the solver returns a cost above 20000 with finite
    curvature samples on three ticks in a row, the counter goes up by 3 (it
    reaches 3 from zero), the published flag is false after the second and
    after the third tick (and still true after the first when the counter
    started at zero), and no diagnostic is emitted: the diagnostic reports
    not-a-number curvature only.  In every run, every diagnostic comes more
    than 5 s of process time after every earlier one. *)
Theorem C4_divergence_run :
  (forall s0 VM0 t1 t2 t3 s1 VM1 tr1 s2 VM2 tr2 s3 VM3 tr3,
      (forall t, In t [t1; t2; t3] ->
                 fgt (sol_cost (mpc_out t)) (Fin 20000) = true
                 /\ mpc_nans_of (mpc_out t) = false) ->
      update s0 VM0 t1 = Ok (s1, VM1, tr1) ->
      update s1 VM1 t2 = Ok (s2, VM2, tr2) ->
      update s2 VM2 t3 = Ok (s3, VM3, tr3) ->
      solution_invalid_cnt (mpc s3) = (3 + solution_invalid_cnt (mpc s0))%nat
      /\ (exists m1 m2 m3,
             publish s1 VM1 t1 = Ok m1
             /\ (solution_invalid_cnt (mpc s0) = 0%nat ->
                 mpcSolutionValid m1 = true)
             /\ publish s2 VM2 t2 = Ok m2 /\ mpcSolutionValid m2 = false
             /\ publish s3 VM3 t3 = Ok m3 /\ mpcSolutionValid m3 = false)
      /\ warnings (tr1 ++ tr2 ++ tr3) = [])
  /\ (forall self VM ticks self' VM' tr,
         run self VM ticks = Ok (self', VM', tr) -> spaced (warnings tr)).
Proof.
  split.
  - intros s0 VM0 t1 t2 t3 s1 VM1 tr1 s2 VM2 tr2 s3 VM3 tr3 Hsol H1 H2 H3.
    destruct (Hsol t1) as (Hc1 & Hn1); [simpl; auto|].
    destruct (Hsol t2) as (Hc2 & Hn2); [simpl; auto|].
    destruct (Hsol t3) as (Hc3 & Hn3); [simpl; auto|].
    destruct (publish_after_update _ _ _ _ _ _ H1) as (m1 & Hp1 & Hv1 & _).
    destruct (publish_after_update _ _ _ _ _ _ H2) as (m2 & Hp2 & Hv2 & _).
    destruct (publish_after_update _ _ _ _ _ _ H3) as (m3 & Hp3 & Hv3 & _).
    destruct (update_check _ _ _ _ _ _ H1) as (? & _ & Hk1 & _ & _ & Hw1 & _).
    destruct (update_check _ _ _ _ _ _ H2) as (? & _ & Hk2 & _ & _ & Hw2 & _).
    destruct (update_check _ _ _ _ _ _ H3) as (? & _ & Hk3 & _ & _ & Hw3 & _).
    unfold solution_invalid in Hk1, Hk2, Hk3.
    rewrite Hc1 in Hk1. rewrite Hc2, Hk1 in Hk2. rewrite Hc3, Hk2 in Hk3.
    simpl in Hk1, Hk2, Hk3.
    rewrite Hn1 in Hw1. rewrite Hn2 in Hw2. rewrite Hn3 in Hw3.
    split; [exact Hk3|]. split.
    + exists m1, m2, m3.
      rewrite Hv1, Hv2, Hv3, Hk1, Hk2, Hk3.
      split; [exact Hp1|]. split; [intros ->; reflexivity|].
      split; [exact Hp2|]. split; [reflexivity|].
      split; [exact Hp3 | reflexivity].
    + rewrite !warnings_app, Hw1, Hw2, Hw3. reflexivity.
  - intros self VM ticks self' VM' tr H.
    apply (run_warnings _ _ _ _ _ _ H).
Qed.

(** ** Invariants of runs *)

Lemma run_invariant (P : LateralPlanner -> Prop) :
  (forall self VM sm self' VM' tr,
      update self VM sm = Ok (self', VM', tr) -> P self -> P self') ->
  forall ticks self VM self' VM' tr,
    run self VM ticks = Ok (self', VM', tr) -> P self -> P self'.
Proof.
  intros Hstep ticks.
  induction ticks as [|sm rest IH]; intros self VM self' VM' tr H HP.
  - injection H as <- _ _. exact HP.
  - simpl in H.
    apply bind_Ok in H. destruct H as ([[s1 VM1] tr1] & Hup & H).
    apply bind_Ok in H. destruct H as ([[s2 VM2] tr2] & Hrun & H).
    injection H as <- _ _.
    eapply IH; [exact Hrun|]. eapply Hstep; eassumption.
Qed.

Lemma update_lane_change self VM sm self' VM' tr :
  update self VM sm = Ok (self', VM', tr) ->
  lane_change_logic self (carState sm) (active sm) (lp_parsed sm)
  = Ok (lc self').
Proof.
  intro H. apply update_stages in H.
  destruct H as (tu1 & cur1 & ev1 & cur2 & mc & y & h & H).
  apply H.
Qed.

(** ** The direction *)

Lemma state_transition_no_blinker st ll prev below torque blind prob :
  fst (state_transition st ll false prev below torque blind prob) = off
  \/ (st <> off
      /\ fst (state_transition st ll false prev below torque blind prob) <> off).
Proof.
  unfold state_transition.
  destruct st; simpl; auto.
  - destruct (Qlt_bool prob 0.02 && _); simpl; right; split; discriminate.
  - destruct (Qlt_bool 0.99 _); simpl; auto. right; split; discriminate.
Qed.

Lemma direction_known_step self VM sm self' VM' tr :
  update self VM sm = Ok (self', VM', tr) ->
  direction_known self -> direction_known self'.
Proof.
  intros H Hinv. apply update_lane_change in H.
  destruct (lane_change_logic_cases _ _ _ _ _ H) as (_ & _ & Hcases).
  unfold direction_known in *.
  destruct Hcases as [(_ & Hoff & _) | (_ & pre & Hblink & _ & Htr)].
  - intro Hne. congruence.
  - intro Hne.
    destruct (blinker_step_direction _ _ _ _ Hblink)
      as [(_ & ->) | [(_ & _ & ->) | (Hl & Hr & ->)]]; try discriminate.
    rewrite Hl, Hr in Htr. unfold one_blinker_of in Htr.
    cbn [eqb negb] in Htr.
    match type of Htr with
    | _ = state_transition ?st ?ll false ?pv ?bl ?tq ?bs ?pr =>
        destruct (state_transition_no_blinker st ll pv bl tq bs pr)
          as [Hoff | (Hst & _)]
    end.
    + rewrite <- Htr in Hoff. simpl in Hoff. congruence.
    + apply Hinv. exact Hst.
Qed.

(** C8 (amended). In every tick reachable from a fresh planner, a state
    other than [off] comes with direction left or right.  The direction is
    never put back to [none]: a tick changes it only to the side of the
    blinker that is on while the controller is active and the timer is at
    most 10 s, and leaves it as it is otherwise, also when the state returns
    to [off] from [laneChangeFinishing]. *)
Theorem C8_direction cfg VM0 ticks self VM tr0 :
  run (init_planner cfg) VM0 ticks = Ok (self, VM, tr0) ->
  (lane_change_state (lc self) <> off ->
   lane_change_direction (lc self) = left
   \/ lane_change_direction (lc self) = right)
  /\ forall sm self' VM' tr,
      update self VM sm = Ok (self', VM', tr) ->
      lane_change_direction (lc self')
      = (if negb (active sm) || Qlt_bool 10 (lane_change_timer (lc self))
         then lane_change_direction (lc self)
         else if leftBlinker (carState sm) then left
         else if rightBlinker (carState sm) then right
         else lane_change_direction (lc self))
      /\ (lane_change_direction (lc self) <> none ->
          lane_change_direction (lc self') <> none)
      /\ (lane_change_state (lc self) = laneChangeFinishing ->
          lane_change_state (lc self') = off ->
          lane_change_direction (lc self') = left
          \/ lane_change_direction (lc self') = right).
Proof.
  intro Hrun.
  assert (Hinv : direction_known self).
  { eapply (run_invariant direction_known); [|exact Hrun|].
    - intros. eapply direction_known_step; eassumption.
    - intro Hne. simpl in Hne. congruence. }
  assert (Hlr : forall d, d <> none -> d = left \/ d = right).
  { intros [] Hd; auto. congruence. }
  split; [intro Hne; apply Hlr, Hinv, Hne|].
  intros sm self' VM' tr Hup.
  assert (Hdir : lane_change_direction (lc self')
      = (if negb (active sm) || Qlt_bool 10 (lane_change_timer (lc self))
         then lane_change_direction (lc self)
         else if leftBlinker (carState sm) then left
         else if rightBlinker (carState sm) then right
         else lane_change_direction (lc self))).
  { apply update_lane_change in Hup.
    destruct (lane_change_logic_cases _ _ _ _ _ Hup) as (_ & _ & Hcases).
    destruct Hcases as [(-> & _ & Hd & _) | (-> & pre & Hblink & _)].
    - exact Hd.
    - destruct (blinker_step_direction _ _ _ _ Hblink)
        as [(-> & ->) | [(-> & -> & ->) | (-> & -> & ->)]]; reflexivity. }
  assert (Hkeep : lane_change_direction (lc self) <> none ->
                  lane_change_direction (lc self') <> none).
  { rewrite Hdir. intro Hne.
    destruct (negb (active sm) || _); [exact Hne|].
    destruct (leftBlinker (carState sm)); [discriminate|].
    destruct (rightBlinker (carState sm)); [discriminate | exact Hne]. }
  split; [exact Hdir|]. split; [exact Hkeep|].
  intros Hfin _. apply Hlr, Hkeep, Hinv. rewrite Hfin. discriminate.
Qed.

(** ** The blend factor *)

Section Grid.
Variable n : positive.
Hypothesis whole_rate : inject_Z (Z.pos n) * DT_MDL == 1.

Lemma period_positive : 0 < DT_MDL.
Proof.
  assert (Hn : 0 < inject_Z (Z.pos n)).
  { change 0 with (inject_Z 0). rewrite <- Zlt_Qlt. reflexivity. }
  destruct (Qlt_le_dec 0 DT_MDL) as [Hd | Hd]; [exact Hd|]. nra.
Qed.

Lemma grid_range p : on_grid n p -> 0 <= p <= 1.
Proof.
  intros (k & [Hk0 Hkn] & Hp). pose proof period_positive as Hd.
  rewrite Zle_Qle in Hk0, Hkn. change (inject_Z 0) with 0 in Hk0.
  split; nra.
Qed.

Lemma grid_one : on_grid n 1.
Proof.
  exists (Z.pos n). split; [lia|]. rewrite whole_rate. reflexivity.
Qed.

Lemma grid_fade_out p : on_grid n p -> on_grid n (pymax (p - 2 * DT_MDL) 0).
Proof.
  intros (k & [Hk0 Hkn] & Hp). pose proof period_positive as Hd.
  destruct (Z_lt_le_dec k 2) as [Hlt | Hge].
  - exists 0%Z. split; [lia|].
    assert (Hk : (k <= 1)%Z) by lia.
    rewrite Zle_Qle in Hk. change (inject_Z 1) with 1 in Hk.
    destruct (pymax_spec (p - 2 * DT_MDL) 0) as [(_ & ->) | (Hle & _)].
    + change (inject_Z 0) with 0. ring.
    + exfalso. nra.
  - exists (k - 2)%Z. split; [lia|].
    rewrite Zle_Qle in Hge. change (inject_Z 2) with 2 in Hge.
    unfold Z.sub. rewrite inject_Z_plus, inject_Z_opp.
    change (inject_Z 2) with 2.
    destruct (pymax_spec (p - 2 * DT_MDL) 0) as [(Hlt & _) | (_ & ->)].
    + exfalso. nra.
    + rewrite Hp. ring.
Qed.

Lemma grid_fade_in p : on_grid n p -> on_grid n (pymin (p + DT_MDL) 1).
Proof.
  intros (k & [Hk0 Hkn] & Hp). pose proof period_positive as Hd.
  destruct (Z_lt_le_dec k (Z.pos n)) as [Hlt | Hge].
  - exists (k + 1)%Z. split; [lia|].
    assert (Hk : (k + 1 <= Z.pos n)%Z) by lia.
    rewrite Zle_Qle in Hk. rewrite inject_Z_plus in *.
    change (inject_Z 1) with 1 in *.
    destruct (pymin_spec (p + DT_MDL) 1) as [(Hgt & _) | (_ & ->)].
    + exfalso. nra.
    + rewrite Hp. ring.
  - exists (Z.pos n). split; [lia|].
    assert (Hk : k = Z.pos n) by lia. subst k.
    destruct (pymin_spec (p + DT_MDL) 1) as [(_ & ->) | (Hle & _)].
    + rewrite whole_rate. reflexivity.
    + exfalso. nra.
Qed.

Lemma state_transition_grid st ll ob pv bl tq bs pr :
  on_grid n ll ->
  on_grid n (snd (state_transition st ll ob pv bl tq bs pr)).
Proof.
  intro Hg. unfold state_transition.
  destruct st; simpl.
  - destruct (ob && negb pv && negb bl); simpl; [apply grid_one | exact Hg].
  - destruct (negb ob || bl); simpl; [exact Hg|].
    destruct (tq && negb bs); exact Hg.
  - destruct (Qlt_bool pr 0.02 && _); simpl; apply grid_fade_out, Hg.
  - destruct (ob && Qlt_bool 0.99 _); simpl; [apply grid_fade_in, Hg|].
    destruct (Qlt_bool 0.99 _); simpl; apply grid_fade_in, Hg.
Qed.

(** Above 0.99 on the grid is 1, when the period is at least 10 ms. *)
Lemma grid_top p : 0.01 <= DT_MDL -> on_grid n p -> 0.99 < p -> p == 1.
Proof.
  intros Hmin (k & [Hk0 Hkn] & Hp) Hgt.
  destruct (Z_lt_le_dec k (Z.pos n)) as [Hlt | Hge].
  - exfalso. assert (Hk : (k <= Z.pos n + - (1))%Z) by lia.
    rewrite Zle_Qle in Hk. rewrite inject_Z_plus, inject_Z_opp in Hk.
    change (inject_Z 1) with 1 in Hk. nra.
  - assert (Hk : k = Z.pos n) by lia. subst k.
    rewrite Hp. exact whole_rate.
Qed.

Lemma enter_pre_at_one st ll ob pv bl tq bs pr st' ll' :
  0.01 <= DT_MDL -> on_grid n ll ->
  state_transition st ll ob pv bl tq bs pr = (st', ll') ->
  st <> preLaneChange -> st' = preLaneChange -> ll' == 1.
Proof.
  intros Hmin Hg Htr Hst ->. unfold state_transition in Htr.
  destruct st; simpl in Htr; [| congruence | |].
  - destruct (ob && negb pv && negb bl);
      [injection Htr as <-; reflexivity | discriminate].
  - destruct (Qlt_bool pr 0.02 && _); discriminate.
  - destruct (Qlt_bool 0.99 (pymin (ll + DT_MDL) 1)) eqn:Hgt.
    + apply Qlt_bool_iff in Hgt.
      destruct ob; simpl in Htr; [|discriminate].
      injection Htr as <-.
      apply grid_top; [exact Hmin | apply grid_fade_in, Hg | exact Hgt].
    + rewrite andb_false_r in Htr. discriminate.
Qed.

Lemma grid_step self VM sm self' VM' tr :
  update self VM sm = Ok (self', VM', tr) ->
  on_grid n (lane_change_ll_prob (lc self)) ->
  on_grid n (lane_change_ll_prob (lc self')).
Proof.
  intros H Hg. apply update_lane_change in H.
  destruct (lane_change_logic_cases _ _ _ _ _ H) as (_ & _ & Hcases).
  destruct Hcases as [(_ & _ & _ & -> & _) | (_ & pre & _ & _ & Htr)].
  - exact Hg.
  - apply (f_equal snd) in Htr. simpl in Htr. rewrite Htr.
    apply state_transition_grid, Hg.
Qed.

End Grid.

(** What the table of lines 196-224 does to the blend factor, from any
    state. *)
Lemma state_transition_blend st ll ob pv bl tq bs pr st' ll' :
  0 <= DT_MDL ->
  state_transition st ll ob pv bl tq bs pr = (st', ll') ->
  (st = laneChangeStarting -> ll' = pymax (ll - 2 * DT_MDL) 0)
  /\ (st = laneChangeFinishing -> ll' = pymin (ll + DT_MDL) 1)
  /\ (st = off -> st' = preLaneChange -> ll' = 1)
  /\ (0 <= ll <= 1 ->
      0 <= ll' <= 1
      /\ (st = laneChangeStarting -> ll' <= ll)
      /\ (st = laneChangeFinishing -> ll <= ll')).
Proof.
  intros Hd Htr.
  pose proof (pymax_spec (ll - 2 * DT_MDL) 0) as Hmax.
  pose proof (pymin_spec (ll + DT_MDL) 1) as Hmin.
  unfold state_transition in Htr.
  destruct st; simpl in Htr.
  - destruct (ob && negb pv && negb bl); injection Htr as <- <-;
      repeat split; try discriminate; try reflexivity; try lra.
  - destruct (negb ob || bl); [|destruct (tq && negb bs)];
      injection Htr as <- <-;
      repeat split; try discriminate; try lra.
  - assert (Hll : ll' = pymax (ll - 2 * DT_MDL) 0).
    { destruct (Qlt_bool pr 0.02 && _); injection Htr as _ <-; reflexivity. }
    rewrite Hll.
    repeat split; try discriminate;
      destruct Hmax as [(? & ->) | (? & ->)]; lra.
  - assert (Hll : ll' = pymin (ll + DT_MDL) 1).
    { destruct (ob && Qlt_bool 0.99 _); [injection Htr as _ <-; reflexivity|].
      destruct (Qlt_bool 0.99 _); injection Htr as _ <-; reflexivity. }
    rewrite Hll.
    repeat split; try discriminate;
      destruct Hmin as [(? & ->) | (? & ->)]; lra.
Qed.

(** C6. With a whole number [n] of ticks per second and a tick period of at
    least 10 ms:
    - in every tick, from any planner state: if it starts in
      [laneChangeStarting] and is not forced to [off], the blend factor
      drops by two tick periods with a floor of 0; if it starts in
      [laneChangeFinishing] and is not forced to [off], the factor rises by
      one tick period with a cap of 1; a tick that moves from [off] to
      [preLaneChange] sets it to 1; a tick forced to [off] leaves it as it
      is; and a factor in [0,1] stays in [0,1], not raised from
      [laneChangeStarting] and not lowered from [laneChangeFinishing];
    - along every run from a fresh planner the factor stays in [0,1], a tick
      that starts in [laneChangeStarting] never raises it, one that starts in
      [laneChangeFinishing] never lowers it, and whenever a tick enters
      [preLaneChange] the factor is 1. *)
Theorem C6_blend_factor (n : positive) :
  inject_Z (Z.pos n) * DT_MDL == 1 ->
  0.01 <= DT_MDL ->
  (forall self VM sm self' VM' tr,
      update self VM sm = Ok (self', VM', tr) ->
      (lane_change_state (lc self) = laneChangeStarting ->
       active sm = true -> lane_change_timer (lc self) <= 10 ->
       lane_change_ll_prob (lc self')
       = pymax (lane_change_ll_prob (lc self) - 2 * DT_MDL) 0)
      /\ (lane_change_state (lc self) = laneChangeFinishing ->
          active sm = true -> lane_change_timer (lc self) <= 10 ->
          lane_change_ll_prob (lc self')
          = pymin (lane_change_ll_prob (lc self) + DT_MDL) 1)
      /\ (lane_change_state (lc self) = off ->
          lane_change_state (lc self') = preLaneChange ->
          lane_change_ll_prob (lc self') = 1)
      /\ (active sm = false \/ 10 < lane_change_timer (lc self) ->
          lane_change_ll_prob (lc self') = lane_change_ll_prob (lc self))
      /\ (0 <= lane_change_ll_prob (lc self) <= 1 ->
          0 <= lane_change_ll_prob (lc self') <= 1
          /\ (lane_change_state (lc self) = laneChangeStarting ->
              lane_change_ll_prob (lc self')
              <= lane_change_ll_prob (lc self))
          /\ (lane_change_state (lc self) = laneChangeFinishing ->
              lane_change_ll_prob (lc self)
              <= lane_change_ll_prob (lc self'))))
  /\ (forall cfg VM0 ticks self VM tr0,
      run (init_planner cfg) VM0 ticks = Ok (self, VM, tr0) ->
      0 <= lane_change_ll_prob (lc self) <= 1
      /\ forall sm self' VM' tr,
          update self VM sm = Ok (self', VM', tr) ->
          0 <= lane_change_ll_prob (lc self') <= 1
          /\ (lane_change_state (lc self) = laneChangeStarting ->
              lane_change_ll_prob (lc self')
              <= lane_change_ll_prob (lc self))
          /\ (lane_change_state (lc self) = laneChangeFinishing ->
              lane_change_ll_prob (lc self)
              <= lane_change_ll_prob (lc self'))
          /\ (lane_change_state (lc self) <> preLaneChange ->
              lane_change_state (lc self') = preLaneChange ->
              lane_change_ll_prob (lc self') == 1)).
Proof.
  intros Hrate Hmin.
  pose proof (period_positive n Hrate) as Hd.
  assert (Hd0 : 0 <= DT_MDL) by lra.
  assert (Htick : forall self VM sm self' VM' tr,
      update self VM sm = Ok (self', VM', tr) ->
      (lane_change_state (lc self) = laneChangeStarting ->
       active sm = true -> lane_change_timer (lc self) <= 10 ->
       lane_change_ll_prob (lc self')
       = pymax (lane_change_ll_prob (lc self) - 2 * DT_MDL) 0)
      /\ (lane_change_state (lc self) = laneChangeFinishing ->
          active sm = true -> lane_change_timer (lc self) <= 10 ->
          lane_change_ll_prob (lc self')
          = pymin (lane_change_ll_prob (lc self) + DT_MDL) 1)
      /\ (lane_change_state (lc self) = off ->
          lane_change_state (lc self') = preLaneChange ->
          lane_change_ll_prob (lc self') = 1)
      /\ (active sm = false \/ 10 < lane_change_timer (lc self) ->
          lane_change_ll_prob (lc self') = lane_change_ll_prob (lc self))
      /\ (0 <= lane_change_ll_prob (lc self) <= 1 ->
          0 <= lane_change_ll_prob (lc self') <= 1
          /\ (lane_change_state (lc self) = laneChangeStarting ->
              lane_change_ll_prob (lc self')
              <= lane_change_ll_prob (lc self))
          /\ (lane_change_state (lc self) = laneChangeFinishing ->
              lane_change_ll_prob (lc self)
              <= lane_change_ll_prob (lc self')))).
  { intros self VM sm self' VM' tr Hup.
    apply update_lane_change in Hup.
    destruct (lane_change_logic_cases _ _ _ _ _ Hup) as (_ & _ & Hcases).
    destruct Hcases as [(Hf & Hoff & _ & Hll & _) | (Hf & pre & _ & _ & Htr)].
    - assert (Hno : active sm = true -> lane_change_timer (lc self) <= 10 ->
                    False).
      { intros Ha Ht. rewrite Ha in Hf. simpl in Hf.
        apply Qlt_bool_iff in Hf. exact (Qlt_not_le _ _ Hf Ht). }
      rewrite Hll, Hoff.
      split; [intros _ Ha Ht; exfalso; exact (Hno Ha Ht)|].
      split; [intros _ Ha Ht; exfalso; exact (Hno Ha Ht)|].
      split; [intros _ Hx; discriminate|].
      split; [intros _; reflexivity|].
      intro Hr. split; [exact Hr|]. split; intros _; apply Qle_refl.
    - apply orb_false_iff in Hf. destruct Hf as (Ha & Ht).
      apply negb_false_iff in Ha. apply Qlt_bool_false in Ht.
      symmetry in Htr.
      destruct (state_transition_blend _ _ _ _ _ _ _ _ _ _ Hd0 Htr)
        as (Hout & Hin & Hreset & Hrange).
      split; [intros Hs _ _; exact (Hout Hs)|].
      split; [intros Hs _ _; exact (Hin Hs)|].
      split; [exact Hreset|].
      split; [|exact Hrange].
      intros [Hx | Hx]; exfalso.
      + rewrite Ha in Hx. discriminate.
      + exact (Qlt_not_le _ _ Hx Ht). }
  split; [exact Htick|].
  intros cfg VM0 ticks self VM tr0 Hrun.
  assert (Hg : on_grid n (lane_change_ll_prob (lc self))).
  { eapply (run_invariant (fun s => on_grid n (lane_change_ll_prob (lc s))));
      [|exact Hrun|].
    - intros. eapply grid_step; eassumption.
    - simpl. apply grid_one, Hrate. }
  pose proof (grid_range n Hrate _ Hg) as Hr.
  split; [exact Hr|].
  intros sm self' VM' tr Hup.
  destruct (Htick _ _ _ _ _ _ Hup) as (_ & _ & _ & _ & Hrange).
  destruct (Hrange Hr) as (Hr' & Hdown & Hup').
  split; [exact Hr'|]. split; [exact Hdown|]. split; [exact Hup'|].
  intros Hne Hpre.
  apply update_lane_change in Hup.
  destruct (lane_change_logic_cases _ _ _ _ _ Hup) as (_ & _ & Hcases).
  destruct Hcases as [(_ & Hoff & _) | (_ & pre & _ & _ & Htr)];
    [congruence|].
  eapply (enter_pre_at_one n Hrate);
    [exact Hmin | exact Hg | symmetry; exact Htr | exact Hne | exact Hpre].
Qed.

(** ** Forecasts of the wrong length *)

Lemma accept_forecast_mismatch fc md :
  length (xs (position md)) <> TRAJECTORY_SIZE
  \/ length (xs (orientation md)) <> TRAJECTORY_SIZE ->
  accept_forecast fc md = Ok fc.
Proof.
  intro H. unfold accept_forecast.
  destruct H as [H | H]; apply Nat.eqb_neq in H; rewrite H;
    [|rewrite andb_false_r]; reflexivity.
Qed.

Lemma np_interp_Ok x xp fp h :
  np_interp x xp fp = Ok h ->
  h = map (np_interp1 xp fp) x
  /\ (length xp =? length fp)%nat && negb (length xp =? 0)%nat = true.
Proof.
  unfold np_interp. intro H.
  destruct ((length xp =? length fp)%nat && negb (length xp =? 0)%nat);
    [|discriminate].
  injection H as <-. split; reflexivity.
Qed.

(** A completed tick leaves a forecast that the next tick can use, and has
    assigned the pre-lane-change timer. *)
Lemma update_leaves_usable self VM sm self' VM' tr :
  update self VM sm = Ok (self', VM', tr) ->
  forecast_usable (forecast self') = true
  /\ pre_lane_change_timer (lc self') <> None.
Proof.
  intro H. apply update_stages in H.
  destruct H as (tu1 & cur1 & ev1 & cur2 & mc & y & h & H).
  destruct H as (_ & _ & _ & _ & Hlc & Hh & Hlen & _).
  split.
  - apply np_interp_Ok in Hh. destruct Hh as (-> & Hchk).
    repeat rewrite length_map in Hlen. repeat rewrite length_map in Hchk.
    unfold forecast_usable. rewrite Hchk. simpl.
    apply Nat.leb_le. rewrite length_firstn in Hlen. lia.
  - unfold lane_change_logic in Hlc.
    apply bind_Ok in Hlc. destruct Hlc as ([[[st d] ll] pre] & _ & Hlc).
    injection Hlc as <-. discriminate.
Qed.

Lemma lane_change_logic_total self cs act lp :
  pre_lane_change_timer (lc self) <> None ->
  exists l', lane_change_logic self cs act lp = Ok l'.
Proof.
  intro Hpre. unfold lane_change_logic, blinker_step.
  destruct (pre_lane_change_timer (lc self)) as [t|]; [|congruence].
  destruct (negb act || _); simpl; [eexists; reflexivity|].
  destruct (leftBlinker cs); simpl.
  - destruct (state_transition _ _ _ _ _ _ _ _). eexists. reflexivity.
  - destruct (rightBlinker cs); simpl;
      destruct (state_transition _ _ _ _ _ _ _ _); eexists; reflexivity.
Qed.

Lemma item0_nonempty {A : Type} (l : list A) :
  (length l =? 0)%nat = false -> exists a, item0 l = Ok a.
Proof.
  destruct l as [|a l]; simpl; [discriminate | eauto].
Qed.

(** With a usable forecast in store, the timer attribute assigned, and sane
    collaborators, [update] completes. *)
Lemma update_total self VM sm fc :
  pre_lane_change_timer (lc self) <> None ->
  accept_forecast (forecast self) (modelV2 sm) = Ok fc ->
  forecast_usable fc = true ->
  collaborators_sane self VM sm = true ->
  exists r, update self VM sm = Ok r.
Proof.
  intros Hpre Hacc Hfc Hsane.
  unfold collaborators_sane in Hsane.
  repeat (apply andb_prop in Hsane; destruct Hsane as [Hsane ?]).
  rewrite negb_true_iff in *.
  unfold forecast_usable in Hfc.
  apply andb_prop in Hfc. destruct Hfc as [Hfc Hidx].
  apply Nat.leb_le in Hidx.
  destruct (lane_change_logic_total self (carState sm) (active sm)
              (lp_parsed sm) Hpre) as (l' & Hlc).
  destruct (item0_nonempty (sol_curvature (mpc_out sm))) as (c0 & Hc0);
    [assumption|].
  destruct (item0_nonempty (sol_curvature_rate (mpc_out sm))) as (r0 & Hr0);
    [assumption|].
  unfold update, refresh_tuning, measured_curvature_of,
    calc_states_after_delay, next_curvature_of, fdiv.
  repeat match goal with
         | H : fzero _ = false |- _ => rewrite H
         end.
  cbn [fzero].
  match goal with H : Qeq_bool _ 0 = false |- _ => rewrite H end.
  rewrite Hc0, Hr0.
  destruct (negb (Qeq_bool _ (nt_steerActuatorDelay (ntune sm))));
    cbn [bind]; rewrite Hacc; cbn [bind]; rewrite Hlc; cbn [bind];
    unfold np_interp; repeat rewrite length_map;
    rewrite Hfc, Nat.eqb_refl;
    match goal with H : (length (lp_d_path sm) =? 0)%nat = false |- _ =>
      rewrite H end;
    cbn [bind negb andb]; repeat rewrite length_map;
    rewrite length_firstn, Nat.min_l, Nat.eqb_refl by exact Hidx;
    cbn [bind py_assert];
    destruct (fgt _ _); cbn [bind];
    destruct (check_solution _ _ _ _ _ _); eexists; reflexivity.
Qed.

(** C7. A tick brings a forecast whose position or orientation sequence
    does not have the expected length.  Whenever the tick completes, the
    stored path, time indices and yaw are exactly those it started with and
    the heading targets handed to the solver are computed from that stored
    path.  And the tick does complete when it follows a completed tick and
    the collaborators are sane. *)
Theorem C7_forecast_mismatch self VM sm :
  length (xs (position (modelV2 sm))) <> TRAJECTORY_SIZE
  \/ length (xs (orientation (modelV2 sm))) <> TRAJECTORY_SIZE ->
  (forall self' VM' tr,
      update self VM sm = Ok (self', VM', tr) ->
      path_xyz (forecast self') = path_xyz (forecast self)
      /\ t_idxs (forecast self') = t_idxs (forecast self)
      /\ plan_yaw (forecast self') = plan_yaw (forecast self)
      /\ exists cur y,
          In (RunMpc cur (vEgo (carState sm)) CAR_ROTATION_RADIUS y
                     (heading_targets (forecast self) (vEgo (carState sm))))
             tr)
  /\ (forall s0 VM0 sm0 tr0,
         update s0 VM0 sm0 = Ok (self, VM, tr0) ->
         collaborators_sane self VM sm = true ->
         exists self' VM' tr, update self VM sm = Ok (self', VM', tr)).
Proof.
  intro Hlen.
  pose proof (accept_forecast_mismatch (forecast self) _ Hlen) as Hacc.
  split.
  - intros self' VM' tr Hup.
    apply update_stages in Hup.
    destruct Hup as (tu1 & cur1 & ev1 & cur2 & mc & y & h & H).
    destruct H as (_ & _ & _ & Hacc' & _ & Hh & _ & _ & _ & Htr & _).
    rewrite Hacc in Hacc'. injection Hacc' as Hfc. rewrite <- Hfc in *.
    repeat split.
    exists cur2, y. rewrite Htr.
    apply np_interp_Ok in Hh. destruct Hh as (-> & _).
    apply in_or_app. right. left. reflexivity.
  - intros s0 VM0 sm0 tr0 Hprev Hsane.
    destruct (update_leaves_usable _ _ _ _ _ _ Hprev) as (Husable & Hpre).
    destruct (update_total self VM sm _ Hpre Hacc Husable Hsane)
      as ([[self' VM'] tr] & Hup).
    exists self', VM', tr. exact Hup.
Qed.

(** ** The torque nudge and the first tick *)

(** What the code does in [preLaneChange] when the nudge-less path is not
    taken: the step to [laneChangeStarting] asks for negative torque,
    whatever the direction. *)
Lemma pre_to_starting_needs_negative_torque self cs lp l' :
  lane_change_logic self cs true lp = Ok l' ->
  lane_change_state (lc self) = preLaneChange ->
  lane_change_timer (lc self) <= 10 ->
  alc_nudge_less self = false ->
  (lane_change_state l' = laneChangeStarting
   <-> one_blinker_of (leftBlinker cs) (rightBlinker cs) = true
       /\ alc_min_speed self <= vEgo cs
       /\ steeringTorque cs < 0
       /\ steeringPressed cs = true
       /\ blindspot_detected_of (lane_change_direction l') cs = false).
Proof.
  intros H Hst Ht Hnl.
  destruct (lane_change_logic_cases _ _ _ _ _ H) as (_ & _ & Hcases).
  destruct Hcases as [(Hf & _) | (_ & pre & _ & _ & Htr)].
  - simpl in Hf. apply Qlt_bool_iff in Hf.
    exfalso. apply (Qlt_not_le _ _ Hf Ht).
  - rewrite Hst, Hnl in Htr.
    unfold state_transition, torque_applied_of in Htr. simpl in Htr.
    rewrite <- Qlt_bool_false, <- Qlt_bool_iff.
    destruct (one_blinker_of _ _), (Qlt_bool (vEgo cs) _),
      (Qlt_bool (steeringTorque cs) 0), (steeringPressed cs),
      (blindspot_detected_of _ cs); simpl in Htr;
      injection Htr as -> _; split; intro Hx;
      try discriminate; try (repeat split; reflexivity);
      destruct Hx as (? & ? & ? & ? & ?); discriminate.
Qed.

(** A fresh planner cannot complete a tick that has the controller active
    and a blinker on: the pre-lane-change timer is read before it was ever
    assigned. *)
Lemma first_tick_with_blinker_raises cfg VM sm :
  active sm = true ->
  leftBlinker (carState sm) = true \/ rightBlinker (carState sm) = true ->
  lane_change_logic (init_planner cfg) (carState sm) (active sm) (lp_parsed sm)
  = Raise AttributeError
  /\ forall r, update (init_planner cfg) VM sm <> Ok r.
Proof.
  intros Hact Hblink.
  assert (Hraise : lane_change_logic (init_planner cfg) (carState sm)
                     (active sm) (lp_parsed sm) = Raise AttributeError).
  { unfold lane_change_logic, blinker_step. rewrite Hact. simpl.
    destruct Hblink as [-> | ->]; [reflexivity|].
    destruct (leftBlinker (carState sm)); reflexivity. }
  split; [exact Hraise|].
  intros [[self' VM'] tr] Hup.
  apply update_lane_change in Hup. congruence.
Qed.

(** * Further properties of the planner *)

(** ** Everything a completed [update] computed *)

Lemma update_full self VM sm self' VM' tr :
  update self VM sm = Ok (self', VM', tr) ->
  exists tu1 cur1 ev1 cur2 mc y h nc ncr a r,
    refresh_tuning (tuning self) (cur_state (mpc self)) VM (ntune sm)
      (steeringAngle (carState sm)) (angleOffset (liveParameters sm))
    = Ok (tu1, cur1, ev1)
    /\ measured_curvature_of (vm_curvature_factor sm)
         (steeringAngle (carState sm)) (angleOffset (liveParameters sm)) VM'
       = Ok mc
    /\ VM' = update_vehicle_model self sm
    /\ calc_states_after_delay cur1 (vEgo (carState sm))
         (steeringAngle (carState sm) - angleOffset (liveParameters sm))
         (vm_curvature_factor sm) (sR VM')
         (nt_steerActuatorDelay (ntune sm)) = Ok cur2
    /\ next_curvature_of (mpc_out sm)
         (firstn (MPC_N + 1) (t_idxs (forecast self')))
         (vEgo (carState sm)) (nt_steerActuatorDelay (ntune sm) + 0.2)
       = Ok (nc, ncr)
    /\ fdiv (fmap degrees (fmul (if active sm then nc else mc) (sR VM')))
            (vm_curvature_factor sm) = Ok a
    /\ fdiv (fmap degrees (fmul (if active sm then ncr else Fin 0) (sR VM')))
            (vm_curvature_factor sm) = Ok r
    /\ desired_steering_wheel_angle_deg self'
       = Some (fadd (fneg a) (Fin (angleOffset (liveParameters sm))))
    /\ desired_steering_wheel_angle_rate_deg self' = Some (fneg r)
    /\ desire self'
       = DESIRES (lane_change_direction (lc self'))
                 (lane_change_state (lc self'))
    /\ LP self'
       = scale_lane_lines (lp_parsed sm) (desire self')
                          (lane_change_ll_prob (lc self'))
    /\ np_interp (map (Qmult (vEgo (carState sm)))
                      (firstn (MPC_N + 1) (t_idxs (forecast self'))))
                 (map norm3 (lp_d_path sm)) (map col1 (lp_d_path sm)) = Ok y
    /\ y_pts self' = y
    /\ tuning self' = reload_conf tu1 (ntune sm) (kegman sm)
    /\ tr = ev1
            ++ [RunMpc cur2 (vEgo (carState sm)) CAR_ROTATION_RADIUS y h]
            ++ snd (check_solution (mpc self)
                      (carried (forecast self') (mpc_out sm)) (mpc_out sm)
                      (steer_rate_cost_prev (tuning self')) mc (now sm))
    /\ alc_nudge_less self' = alc_nudge_less self
    /\ alc_min_speed self' = alc_min_speed self
    /\ alc_timer self' = alc_timer self
    /\ use_dynamic_sr self' = use_dynamic_sr self
    /\ angle_steers_des_mpc self' = angle_steers_des_mpc self.
Proof.
  unfold update. intro H.
  apply bind_Ok in H. destruct H as ([[tu1 cur1] ev1] & Hrefresh & H).
  apply bind_Ok in H. destruct H as (mc & Hmc & H).
  apply bind_Ok in H. destruct H as (fc1 & Hfc & H).
  apply bind_Ok in H. destruct H as (lc1 & Hlc & H).
  apply bind_Ok in H. destruct H as (y1 & Hy & H).
  apply bind_Ok in H. destruct H as (h1 & Hh & H).
  apply bind_Ok in H. destruct H as (cur2 & Hcur2 & H).
  apply bind_Ok in H. destruct H as (u1 & Hy_len & H).
  apply bind_Ok in H. destruct H as (u2 & Hh_len & H).
  apply bind_Ok in H. destruct H as ([nc ncr] & Hnext & H).
  apply bind_Ok in H. destruct H as (a & Ha & H).
  apply bind_Ok in H. destruct H as (r & Hr & H).
  destruct (check_solution _ _ _ _ _ _) as [mpc1 ev3] eqn:Hchk.
  injection H as <- <- <-.
  exists tu1, cur1, ev1, cur2, mc, y1, h1, nc, ncr, a, r.
  simpl. rewrite Hchk. simpl.
  repeat split; assumption.
Qed.

(** ** The moves of the lane-change state *)

Lemma lane_change_tick self VM sm self' VM' tr :
  update self VM sm = Ok (self', VM', tr) ->
  (negb (active sm) || Qlt_bool 10 (lane_change_timer (lc self)) = true
   /\ lane_change_state (lc self') = off
   /\ lane_change_ll_prob (lc self') = lane_change_ll_prob (lc self)
   /\ pre_lane_change_timer (lc self') = Some 0)
  \/ (active sm = true /\ lane_change_timer (lc self) <= 10
      /\ exists pre,
          blinker_step (lc self) (carState sm)
          = Ok (lane_change_direction (lc self'), pre)
          /\ pre_lane_change_timer (lc self') = Some pre
          /\ (lane_change_state (lc self'), lane_change_ll_prob (lc self'))
             = state_transition
                 (lane_change_state (lc self))
                 (lane_change_ll_prob (lc self))
                 (one_blinker_of (leftBlinker (carState sm))
                                 (rightBlinker (carState sm)))
                 (prev_one_blinker (lc self))
                 (Qlt_bool (vEgo (carState sm)) (alc_min_speed self))
                 (torque_applied_of (alc_nudge_less self) pre
                    (alc_timer self) none (carState sm))
                 (blindspot_detected_of (lane_change_direction (lc self'))
                    (carState sm))
                 (l_lane_change_prob (lp_parsed sm)
                  + r_lane_change_prob (lp_parsed sm))).
Proof.
  intro H. apply update_lane_change in H.
  destruct (lane_change_logic_cases _ _ _ _ _ H) as (_ & _ & Hcases).
  destruct Hcases as [(Hf & Hoff & _ & Hll & Hpre) | (Hf & pre & Hrest)].
  - left. repeat split; assumption.
  - right. apply orb_false_iff in Hf. destruct Hf as (Ha & Ht).
    apply negb_false_iff in Ha. apply Qlt_bool_false in Ht.
    split; [exact Ha|]. split; [exact Ht|]. exists pre. exact Hrest.
Qed.

(** X1. One tick moves the lane-change state only along the edges
    off -> preLaneChange -> laneChangeStarting -> laneChangeFinishing ->
    (preLaneChange or off), stays where it is, or falls back to [off]; it
    never skips a stage and never goes from [off] or [preLaneChange]
    straight to [laneChangeFinishing]. *)
Theorem X1_moves_along_edges self VM sm self' VM' tr :
  update self VM sm = Ok (self', VM', tr) ->
  lane_change_edge (lane_change_state (lc self))
                   (lane_change_state (lc self')) = true.
Proof.
  intro H.
  destruct (lane_change_tick _ _ _ _ _ _ H)
    as [(_ & -> & _) | (_ & _ & pre & _ & _ & Htr)].
  - destruct (lane_change_state (lc self)); reflexivity.
  - apply (f_equal fst) in Htr. simpl in Htr. rewrite Htr.
    unfold state_transition.
    destruct (lane_change_state (lc self)); simpl.
    + destruct (_ && negb _ && negb _); reflexivity.
    + destruct (negb _ || _); [reflexivity|].
      destruct (_ && negb _); reflexivity.
    + destruct (Qlt_bool _ 0.02 && _); reflexivity.
    + destruct (_ && Qlt_bool 0.99 _); [reflexivity|].
      destruct (Qlt_bool 0.99 _); reflexivity.
Qed.

(** X2. From [off] a tick enters [preLaneChange] exactly when the controller
    is active, the timer is not above 10 s, exactly one blinker is on, it was
    not on at the previous tick, and the speed is not below the minimum; the
    blend factor is then 1 and the direction is the blinker's side.  In every
    case the tick records this tick's blinker test for the next one. *)
Theorem X2_off_to_pre self VM sm self' VM' tr :
  update self VM sm = Ok (self', VM', tr) ->
  lane_change_state (lc self) = off ->
  (lane_change_state (lc self') = preLaneChange
   <-> active sm = true
       /\ lane_change_timer (lc self) <= 10
       /\ one_blinker_of (leftBlinker (carState sm))
                         (rightBlinker (carState sm)) = true
       /\ prev_one_blinker (lc self) = false
       /\ alc_min_speed self <= vEgo (carState sm))
  /\ (lane_change_state (lc self') = preLaneChange ->
      lane_change_ll_prob (lc self') = 1
      /\ lane_change_direction (lc self')
         = (if leftBlinker (carState sm) then left else right))
  /\ prev_one_blinker (lc self')
     = one_blinker_of (leftBlinker (carState sm)) (rightBlinker (carState sm)).
Proof.
  intros H Hoff.
  pose proof (update_lane_change _ _ _ _ _ _ H) as Hlc.
  destruct (lane_change_logic_cases _ _ _ _ _ Hlc) as (Hprev & _ & _).
  split; [|split; [|exact Hprev]].
  - destruct (lane_change_tick _ _ _ _ _ _ H)
      as [(Hf & Hs & _) | (Ha & Ht & pre & _ & _ & Htr)].
    + split; [intro Hp; congruence|].
      intros (Ha & Ht & _). exfalso.
      rewrite Ha in Hf. simpl in Hf. apply Qlt_bool_iff in Hf.
      apply (Qlt_not_le _ _ Hf Ht).
    + rewrite Hoff in Htr. unfold state_transition in Htr.
      cbn [LaneChangeState_eqb andb] in Htr.
      destruct (one_blinker_of (leftBlinker (carState sm))
                               (rightBlinker (carState sm))
                && negb (prev_one_blinker (lc self))
                && negb (Qlt_bool (vEgo (carState sm)) (alc_min_speed self)))
        eqn:Hc; injection Htr as -> _.
      * split; [intros _|reflexivity].
        apply andb_prop in Hc. destruct Hc as (Hc & Hv).
        apply andb_prop in Hc. destruct Hc as (Hone & Hpv).
        apply negb_true_iff in Hv. apply negb_true_iff in Hpv.
        split; [exact Ha|]. split; [exact Ht|]. split; [exact Hone|].
        split; [exact Hpv | apply Qlt_bool_false, Hv].
      * split; [discriminate|].
        intros (_ & _ & Hone & Hpv & Hv). apply Qlt_bool_false in Hv.
        rewrite Hone, Hpv, Hv in Hc. discriminate.
  - intro Hp.
    destruct (lane_change_tick _ _ _ _ _ _ H)
      as [(_ & Hs & _) | (_ & _ & pre & Hblink & _ & Htr)]; [congruence|].
    rewrite Hoff in Htr. unfold state_transition in Htr.
    cbn [LaneChangeState_eqb andb] in Htr.
    destruct (one_blinker_of (leftBlinker (carState sm))
                             (rightBlinker (carState sm))
              && negb (prev_one_blinker (lc self))
              && negb (Qlt_bool (vEgo (carState sm)) (alc_min_speed self)))
      eqn:Hc; injection Htr as Hs Hll; [|congruence].
    split; [exact Hll|].
    apply andb_prop in Hc. destruct Hc as (Hc & _).
    apply andb_prop in Hc. destruct Hc as (Hone & _).
    destruct (blinker_step_direction _ _ _ _ Hblink)
      as [(-> & ->) | [(-> & _ & ->) | (Hl & Hr & _)]]; try reflexivity.
    rewrite Hl, Hr in Hone. discriminate.
Qed.

(** X3. While the state is [preLaneChange], a blind spot reported on the
    side of the blinker blocks the step to [laneChangeStarting], whatever the
    torque and also in nudge-less mode. *)
Theorem X3_blind_spot_blocks self VM sm self' VM' tr :
  update self VM sm = Ok (self', VM', tr) ->
  lane_change_state (lc self) = preLaneChange ->
  (leftBlinker (carState sm) = true /\ leftBlindspot (carState sm) = true)
  \/ (leftBlinker (carState sm) = false /\ rightBlinker (carState sm) = true
      /\ rightBlindspot (carState sm) = true) ->
  lane_change_state (lc self') <> laneChangeStarting.
Proof.
  intros H Hst Hblind.
  destruct (lane_change_tick _ _ _ _ _ _ H)
    as [(_ & -> & _) | (_ & _ & pre & Hblink & _ & Htr)]; [discriminate|].
  assert (Hdet : blindspot_detected_of (lane_change_direction (lc self'))
                   (carState sm) = true).
  { unfold blindspot_detected_of.
    destruct (blinker_step_direction _ _ _ _ Hblink)
      as [(Hl & ->) | [(Hl & Hr & ->) | (Hl & Hr & _)]];
      destruct Hblind as [(Hl' & Hb) | (Hl' & Hr' & Hb)];
      try congruence; rewrite Hb; simpl; [reflexivity | apply orb_true_r]. }
  rewrite Hst, Hdet in Htr. unfold state_transition in Htr.
  cbn [LaneChangeState_eqb andb negb] in Htr. rewrite andb_false_r in Htr.
  destruct (negb _ || _); injection Htr as -> _; discriminate.
Qed.

(** X4. Once the state is [laneChangeStarting], a tick with the controller
    active and the timer not above 10 s keeps it there or moves it to
    [laneChangeFinishing], whatever the blinkers, the torque and the speed;
    it moves on exactly when the lane planner's lane-change probabilities sum
    to less than 0.02 and the faded blend factor is below 0.01. *)
Theorem X4_starting_runs_on self VM sm self' VM' tr :
  update self VM sm = Ok (self', VM', tr) ->
  lane_change_state (lc self) = laneChangeStarting ->
  active sm = true ->
  lane_change_timer (lc self) <= 10 ->
  (lane_change_state (lc self') = laneChangeStarting
   \/ lane_change_state (lc self') = laneChangeFinishing)
  /\ (lane_change_state (lc self') = laneChangeFinishing
      <-> l_lane_change_prob (lp_parsed sm) + r_lane_change_prob (lp_parsed sm)
          < 0.02
          /\ lane_change_ll_prob (lc self') < 0.01).
Proof.
  intros H Hst Ha Ht.
  destruct (lane_change_tick _ _ _ _ _ _ H)
    as [(Hf & _) | (_ & _ & pre & _ & _ & Htr)].
  - exfalso. rewrite Ha in Hf. simpl in Hf. apply Qlt_bool_iff in Hf.
    apply (Qlt_not_le _ _ Hf Ht).
  - rewrite Hst in Htr. unfold state_transition in Htr.
    cbn [LaneChangeState_eqb andb] in Htr.
    rewrite <- !Qlt_bool_iff.
    destruct (Qlt_bool (l_lane_change_prob (lp_parsed sm)
                        + r_lane_change_prob (lp_parsed sm)) 0.02) eqn:Hp;
      cbn [andb] in Htr.
    + destruct (Qlt_bool (pymax (lane_change_ll_prob (lc self) - 2 * DT_MDL) 0)
                         0.01) eqn:Hl; injection Htr as -> ->.
      * split; [right; reflexivity|]. split; [intros _|reflexivity].
        split; [reflexivity | exact Hl].
      * split; [left; reflexivity|]. split; [discriminate|].
        intros (_ & Hx). congruence.
    + injection Htr as -> ->.
      split; [left; reflexivity|]. split; [discriminate|].
      intros (Hx & _). discriminate.
Qed.

(** X5. In nudge-less mode the step from [preLaneChange] to
    [laneChangeStarting] needs no torque: with exactly one blinker on, the
    speed not below the minimum, no blind spot on the blinker's side, and the
    pre-lane-change timer passing [ALCtimer] with this tick, the state moves
    on. *)
Theorem X5_nudge_less_starts self VM sm self' VM' tr t :
  update self VM sm = Ok (self', VM', tr) ->
  lane_change_state (lc self) = preLaneChange ->
  active sm = true ->
  lane_change_timer (lc self) <= 10 ->
  alc_nudge_less self = true ->
  pre_lane_change_timer (lc self) = Some t ->
  alc_timer self < t + DT_MDL ->
  one_blinker_of (leftBlinker (carState sm)) (rightBlinker (carState sm))
  = true ->
  alc_min_speed self <= vEgo (carState sm) ->
  blindspot_detected_of (lane_change_direction (lc self')) (carState sm)
  = false ->
  lane_change_state (lc self') = laneChangeStarting
  /\ pre_lane_change_timer (lc self') = Some (t + DT_MDL).
Proof.
  intros H Hst Ha Ht Hnl Hpre Hlim Hone Hv Hblind.
  destruct (lane_change_tick _ _ _ _ _ _ H)
    as [(Hf & _) | (_ & _ & pre & Hblink & Hpre' & Htr)].
  - exfalso. rewrite Ha in Hf. simpl in Hf. apply Qlt_bool_iff in Hf.
    apply (Qlt_not_le _ _ Hf Ht).
  - assert (Hp : pre = t + DT_MDL).
    { unfold blinker_step in Hblink. rewrite Hpre in Hblink.
      destruct (leftBlinker (carState sm)), (rightBlinker (carState sm));
        simpl in Hblink; try discriminate;
        injection Hblink as _ <-; reflexivity. }
    subst pre. split; [|exact Hpre'].
    apply Qlt_bool_false in Hv. apply Qlt_bool_iff in Hlim.
    rewrite Hst, Hone, Hv, Hblind, Hnl in Htr.
    unfold state_transition, torque_applied_of in Htr.
    rewrite Hlim in Htr. simpl in Htr. injection Htr as -> _. reflexivity.
Qed.

(** X6. A tick with the controller inactive, or one that starts with the
    lane-change timer above 10 s, ends with the state [off], both timers at
    zero, the desire [none] and the lane planner's probabilities unscaled;
    direction and blend factor keep their values.  With the controller
    inactive the desired angle is computed from the measured curvature and
    the desired rate from zero. *)
Theorem X6_forced_off self VM sm self' VM' tr :
  update self VM sm = Ok (self', VM', tr) ->
  active sm = false \/ 10 < lane_change_timer (lc self) ->
  lane_change_state (lc self') = off
  /\ lane_change_timer (lc self') = 0
  /\ pre_lane_change_timer (lc self') = Some 0
  /\ desire self' = Desire_none
  /\ LP self' = lp_parsed sm
  /\ lane_change_direction (lc self') = lane_change_direction (lc self)
  /\ lane_change_ll_prob (lc self') = lane_change_ll_prob (lc self)
  /\ (active sm = false ->
      exists mc a r,
        measured_curvature_of (vm_curvature_factor sm)
          (steeringAngle (carState sm)) (angleOffset (liveParameters sm)) VM'
        = Ok mc
        /\ fdiv (fmap degrees (fmul mc (sR VM'))) (vm_curvature_factor sm)
           = Ok a
        /\ desired_steering_wheel_angle_deg self'
           = Some (fadd (fneg a) (Fin (angleOffset (liveParameters sm))))
        /\ fdiv (fmap degrees (fmul (Fin 0) (sR VM')))
                (vm_curvature_factor sm) = Ok r
        /\ desired_steering_wheel_angle_rate_deg self' = Some (fneg r)).
Proof.
  intros H Hforce.
  pose proof (update_lane_change _ _ _ _ _ _ H) as Hlc.
  destruct (lane_change_logic_cases _ _ _ _ _ Hlc) as (_ & Htimer & Hcases).
  destruct (update_full _ _ _ _ _ _ H)
    as (tu1 & cur1 & ev1 & cur2 & mc & y & h & nc & ncr & a & r & Hfull).
  destruct Hfull as (_ & Hmc & _ & _ & _ & Ha & Hr & Hang & Hrate & Hdes
                     & HLP & _).
  destruct Hcases as [(_ & Hoff & Hdir & Hll & Hpre) | (Hnf & _)].
  - rewrite Hoff in Htimer, Hdes.
    assert (Hnone : desire self' = Desire_none).
    { rewrite Hdes. destruct (lane_change_direction (lc self')); reflexivity. }
    rewrite Hnone in HLP.
    repeat (split; [assumption|]).
    intro Hina. rewrite Hina in Ha, Hr. exists mc, a, r.
    repeat (split; [assumption|]). assumption.
  - exfalso. destruct Hforce as [Hina | Hgt].
    + rewrite Hina in Hnf. discriminate.
    + apply Qlt_bool_iff in Hgt. rewrite Hgt, orb_true_r in Hnf. discriminate.
Qed.

(** ** Bounds that need only a non-negative tick period *)

Lemma timer_bound_step self VM sm self' VM' tr :
  0 <= DT_MDL ->
  update self VM sm = Ok (self', VM', tr) ->
  0 <= lane_change_timer (lc self) <= 10 + DT_MDL ->
  0 <= lane_change_timer (lc self') <= 10 + DT_MDL.
Proof.
  intros Hd H Hb. apply update_lane_change in H.
  destruct (lane_change_logic_cases _ _ _ _ _ H) as (_ & Htimer & Hcases).
  rewrite Htimer.
  destruct Hcases as [(_ & -> & _) | (Hnf & _)]; [simpl; lra|].
  apply orb_false_iff in Hnf. destruct Hnf as (_ & Ht).
  apply Qlt_bool_false in Ht.
  destruct (lane_change_state (lc self')); simpl; lra.
Qed.

Lemma blend_range_step self VM sm self' VM' tr :
  0 <= DT_MDL ->
  update self VM sm = Ok (self', VM', tr) ->
  0 <= lane_change_ll_prob (lc self) <= 1 ->
  0 <= lane_change_ll_prob (lc self') <= 1.
Proof.
  intros Hd H Hb.
  destruct (lane_change_tick _ _ _ _ _ _ H)
    as [(_ & _ & -> & _) | (_ & _ & pre & _ & _ & Htr)]; [exact Hb|].
  apply (f_equal snd) in Htr. simpl in Htr. rewrite Htr.
  unfold state_transition.
  destruct (lane_change_state (lc self)); simpl.
  - destruct (_ && negb _ && negb _); simpl; lra.
  - destruct (negb _ || _); simpl; [lra|]. destruct (_ && negb _); simpl; lra.
  - assert (Hr : 0 <= pymax (lane_change_ll_prob (lc self) - 2 * DT_MDL) 0
                 <= 1).
    { destruct (pymax_spec (lane_change_ll_prob (lc self) - 2 * DT_MDL) 0)
        as [(_ & ->) | (? & ->)]; lra. }
    destruct (Qlt_bool _ 0.02 && _); simpl; exact Hr.
  - assert (Hr : 0 <= pymin (lane_change_ll_prob (lc self) + DT_MDL) 1 <= 1).
    { destruct (pymin_spec (lane_change_ll_prob (lc self) + DT_MDL) 1)
        as [(_ & ->) | (? & ->)]; lra. }
    destruct (_ && Qlt_bool 0.99 _); simpl; [exact Hr|].
    destruct (Qlt_bool 0.99 _); simpl; exact Hr.
Qed.

(** X7. With a non-negative tick period, along every run from a fresh
    planner the lane-change timer stays between 0 and 10 s plus one tick
    period, and it is 0 whenever the state is [off] or [preLaneChange]. *)
Theorem X7_timer_bounded cfg VM0 ticks self VM tr :
  0 <= DT_MDL ->
  run (init_planner cfg) VM0 ticks = Ok (self, VM, tr) ->
  0 <= lane_change_timer (lc self) <= 10 + DT_MDL
  /\ (changing (lane_change_state (lc self)) = false ->
      lane_change_timer (lc self) = 0).
Proof.
  intros Hd Hrun. split.
  - eapply (run_invariant
              (fun s => 0 <= lane_change_timer (lc s) <= 10 + DT_MDL));
      [|exact Hrun|simpl; lra].
    intros. eapply timer_bound_step; eassumption.
  - eapply (run_invariant
              (fun s => changing (lane_change_state (lc s)) = false ->
                        lane_change_timer (lc s) = 0));
      [|exact Hrun|reflexivity].
    intros s V sm s' V' t H _ Hc. apply update_lane_change in H.
    destruct (lane_change_logic_cases _ _ _ _ _ H) as (_ & Htimer & _).
    rewrite Htimer.
    destruct (lane_change_state (lc s')); simpl in *;
      try reflexivity; discriminate.
Qed.

(** X8. Along every run from a fresh planner the stored desire is the table
    entry for the stored direction and state; it is [none] exactly when no
    lane change is under way, and otherwise names the side of the stored
    direction.  The published message carries the stored desire, state and
    direction, so its desire is the table entry of its own two fields. *)
Theorem X8_desire_follows_state cfg VM0 ticks self VM tr :
  run (init_planner cfg) VM0 ticks = Ok (self, VM, tr) ->
  desire self = DESIRES (lane_change_direction (lc self))
                        (lane_change_state (lc self))
  /\ (desire self = Desire_none
      <-> changing (lane_change_state (lc self)) = false)
  /\ (desire self = Desire_laneChangeLeft
      <-> changing (lane_change_state (lc self)) = true
          /\ lane_change_direction (lc self) = left)
  /\ (desire self = Desire_laneChangeRight
      <-> changing (lane_change_state (lc self)) = true
          /\ lane_change_direction (lc self) = right)
  /\ forall V sm msg,
      publish self V sm = Ok msg ->
      msg_desire msg = desire self
      /\ laneChangeState msg = lane_change_state (lc self)
      /\ laneChangeDirection msg = lane_change_direction (lc self)
      /\ msg_desire msg
         = DESIRES (laneChangeDirection msg) (laneChangeState msg).
Proof.
  intro Hrun.
  assert (Hdes : desire self = DESIRES (lane_change_direction (lc self))
                                       (lane_change_state (lc self))).
  { eapply (run_invariant
              (fun s => desire s = DESIRES (lane_change_direction (lc s))
                                           (lane_change_state (lc s))));
      [|exact Hrun|reflexivity].
    intros s V sm s' V' t H _.
    destruct (update_full _ _ _ _ _ _ H)
      as (? & ? & ? & ? & ? & ? & ? & ? & ? & ? & ? & Hfull).
    apply Hfull. }
  assert (Hinv : direction_known self).
  { eapply (run_invariant direction_known); [|exact Hrun|].
    - intros. eapply direction_known_step; eassumption.
    - intro Hne. simpl in Hne. congruence. }
  unfold direction_known in Hinv.
  split; [exact Hdes|]. rewrite Hdes.
  split; [|split; [|split]].
  - destruct (lane_change_state (lc self)),
      (lane_change_direction (lc self)); simpl in *;
      split; intro Hx; try reflexivity; try discriminate;
      exfalso; apply Hinv; try reflexivity; discriminate.
  - destruct (lane_change_state (lc self)),
      (lane_change_direction (lc self)); simpl;
      split; intro Hx; try discriminate; try (split; reflexivity);
      destruct Hx; discriminate.
  - destruct (lane_change_state (lc self)),
      (lane_change_direction (lc self)); simpl;
      split; intro Hx; try discriminate; try (split; reflexivity);
      destruct Hx; discriminate.
  - intros V sm msg Hp. unfold publish in Hp.
    apply bind_Ok in Hp. destruct Hp as (a & _ & Hp).
    apply bind_Ok in Hp. destruct Hp as (r & _ & Hp).
    injection Hp as <-. simpl. repeat split; exact Hdes.
Qed.

(** X9. With a non-negative tick period, in every tick of a run from a
    fresh planner the stored lane-line probabilities are the lane planner's
    values, multiplied by the blend factor while a lane change is under way
    and untouched otherwise; for non-negative parsed values they are never
    negative and never above the parsed values. *)
Theorem X9_lane_lines_faded cfg VM0 ticks self VM tr0 sm self' VM' tr :
  0 <= DT_MDL ->
  run (init_planner cfg) VM0 ticks = Ok (self, VM, tr0) ->
  update self VM sm = Ok (self', VM', tr) ->
  (changing (lane_change_state (lc self')) = false -> LP self' = lp_parsed sm)
  /\ (changing (lane_change_state (lc self')) = true ->
      lll_prob (LP self')
      = lll_prob (lp_parsed sm) * lane_change_ll_prob (lc self')
      /\ rll_prob (LP self')
         = rll_prob (lp_parsed sm) * lane_change_ll_prob (lc self'))
  /\ (0 <= lll_prob (lp_parsed sm) ->
      0 <= lll_prob (LP self') <= lll_prob (lp_parsed sm))
  /\ (0 <= rll_prob (lp_parsed sm) ->
      0 <= rll_prob (LP self') <= rll_prob (lp_parsed sm)).
Proof.
  intros Hd Hrun Hup.
  assert (Hrange : 0 <= lane_change_ll_prob (lc self') <= 1).
  { eapply blend_range_step; [exact Hd | exact Hup|].
    eapply (run_invariant (fun s => 0 <= lane_change_ll_prob (lc s) <= 1));
      [|exact Hrun|simpl; lra].
    intros. eapply blend_range_step; eassumption. }
  assert (Hinv : direction_known self').
  { eapply direction_known_step; [exact Hup|].
    eapply (run_invariant direction_known); [|exact Hrun|].
    - intros. eapply direction_known_step; eassumption.
    - intro Hne. simpl in Hne. congruence. }
  destruct (update_full _ _ _ _ _ _ Hup)
    as (? & ? & ? & ? & ? & ? & ? & ? & ? & ? & ? & Hfull).
  destruct Hfull as (_ & _ & _ & _ & _ & _ & _ & _ & _ & Hdes & HLP & _).
  rewrite Hdes in HLP. rewrite HLP. unfold direction_known in Hinv.
  destruct (lane_change_state (lc self')) eqn:Hst,
    (lane_change_direction (lc self')) eqn:Hdir; simpl;
    try (exfalso; apply Hinv; [discriminate | reflexivity]);
    (split; [intro Hx; first [reflexivity | discriminate]|]);
    (split; [intro Hx; first [discriminate | split; reflexivity]|]);
    split; intro Hp; nra.
Qed.

(** ** The validity flag and the diagnostic, along runs *)

(** X10. After two consecutive ticks the published flag [mpcSolutionValid]
    is false exactly when the solutions of both ticks were invalid (cost
    above 20000 or a not-a-number curvature sample), whatever came before. *)
Theorem X10_flag_is_last_two s0 VM0 t1 t2 s1 VM1 tr1 s2 VM2 tr2 :
  update s0 VM0 t1 = Ok (s1, VM1, tr1) ->
  update s1 VM1 t2 = Ok (s2, VM2, tr2) ->
  exists m2,
    publish s2 VM2 t2 = Ok m2
    /\ (mpcSolutionValid m2 = false
        <-> solution_invalid (mpc_out t1) = true
            /\ solution_invalid (mpc_out t2) = true).
Proof.
  intros H1 H2.
  destruct (publish_after_update _ _ _ _ _ _ H2) as (m2 & Hp2 & Hv2 & _).
  destruct (update_check _ _ _ _ _ _ H1) as (mc1 & _ & Hc1 & _).
  destruct (update_check _ _ _ _ _ _ H2) as (mc2 & _ & Hc2 & _).
  exists m2. split; [exact Hp2|].
  rewrite Hv2, Hc2, Hc1.
  destruct (solution_invalid (mpc_out t1)), (solution_invalid (mpc_out t2));
    simpl; split; intro Hx; try reflexivity; try discriminate;
    try (split; reflexivity); destruct Hx; discriminate.
Qed.

Lemma last_cons_default {A : Type} (l : list A) :
  forall a d : A, last (a :: l) d = last l a.
Proof.
  induction l as [|b l IH]; intros a d; [reflexivity|].
  change (last (a :: b :: l) d) with (last (b :: l) d).
  rewrite (IH b d), (IH b a). reflexivity.
Qed.

Lemma run_warnings_origin ticks : forall self VM self' VM' tr,
  run self VM ticks = Ok (self', VM', tr) ->
  (forall w, In w (warnings tr) ->
             exists sm, In sm ticks /\ now sm = w
                        /\ mpc_nans_of (mpc_out sm) = true)
  /\ last_cloudlog_t (mpc self')
     = last (warnings tr) (last_cloudlog_t (mpc self)).
Proof.
  induction ticks as [|sm rest IH]; intros self VM self' VM' tr H.
  - injection H as <- _ <-. simpl. split; [intros w []|reflexivity].
  - simpl in H.
    apply bind_Ok in H. destruct H as ([[s1 VM1] tr1] & Hup & H).
    apply bind_Ok in H. destruct H as ([[s2 VM2] tr2] & Hrun & H).
    injection H as <- <- <-.
    destruct (IH _ _ _ _ _ Hrun) as (Horigin & Hlast).
    destruct (update_check _ _ _ _ _ _ Hup)
      as (mc & _ & _ & _ & _ & Hw & Hl1).
    rewrite warnings_app, Hw. rewrite Hl1 in Hlast.
    destruct (mpc_nans_of (mpc_out sm)
              && Qlt_bool (last_cloudlog_t (mpc self) + 5) (now sm)) eqn:Hc.
    + apply andb_prop in Hc. destruct Hc as (Hnan & _).
      split.
      * intros w [<- | Hin].
        -- exists sm. split; [left; reflexivity|]. split; [reflexivity|].
           exact Hnan.
        -- destruct (Horigin w Hin) as (sm' & Hin' & Hrest).
           exists sm'. split; [right; exact Hin' | exact Hrest].
      * simpl app. rewrite last_cons_default. exact Hlast.
    + split; [|exact Hlast].
      intros w Hin. destruct (Horigin w Hin) as (sm' & Hin' & Hrest).
      exists sm'. split; [right; exact Hin' | exact Hrest].
Qed.

(** X11. In every run from a fresh planner each diagnostic is emitted at a
    process time above 5 s, by a tick whose curvature solution has a
    not-a-number sample, and the stored time of the last diagnostic is the
    time of the latest one emitted (0 when there was none). *)
Theorem X11_diagnostics_of_a_run cfg VM0 ticks self VM tr :
  run (init_planner cfg) VM0 ticks = Ok (self, VM, tr) ->
  Forall (fun w => 5 < w) (warnings tr)
  /\ (forall w, In w (warnings tr) ->
                exists sm, In sm ticks /\ now sm = w
                           /\ mpc_nans_of (mpc_out sm) = true)
  /\ last_cloudlog_t (mpc self) = last (warnings tr) 0.
Proof.
  intro Hrun.
  destruct (run_warnings _ _ _ _ _ _ Hrun) as (_ & Hall & _).
  destruct (run_warnings_origin _ _ _ _ _ _ Hrun) as (Horigin & Hlast).
  split; [|split; [exact Horigin | exact Hlast]].
  eapply Forall_impl; [|exact Hall]. simpl. intros w (Hw & _). lra.
Qed.

(** ** Tuning values *)

Lemma refresh_tuning_spec tu cur VM nt a o tu1 cur1 ev1 :
  refresh_tuning tu cur VM nt a o = Ok (tu1, cur1, ev1) ->
  steer_rate_cost_prev tu1 == nt_steerRateCost nt
  /\ steer_actuator_delay_prev tu1 == nt_steerActuatorDelay nt
  /\ mpc_frame tu1 = mpc_frame tu
  /\ ((steer_actuator_delay_prev tu == nt_steerActuatorDelay nt
       /\ cur1 = cur /\ ev1 = [])
      \/ (~ steer_actuator_delay_prev tu == nt_steerActuatorDelay nt
          /\ fdiv (Fin (radians (a - o))) (sR VM) = Ok (st_curvature cur1)
          /\ ev1 = [MpcInit MPC_COST_LAT_PATH MPC_COST_LAT_HEADING
                            (steer_rate_cost_prev tu1)])).
Proof.
  unfold refresh_tuning. intro H.
  assert (Hrate : (if negb (Qeq_bool (steer_rate_cost_prev tu)
                                     (nt_steerRateCost nt))
                   then nt_steerRateCost nt else steer_rate_cost_prev tu)
                  == nt_steerRateCost nt).
  { destruct (Qeq_bool (steer_rate_cost_prev tu) (nt_steerRateCost nt))
      eqn:Hq; simpl; [apply Qeq_bool_iff, Hq | reflexivity]. }
  destruct (Qeq_bool (steer_actuator_delay_prev tu)
                     (nt_steerActuatorDelay nt)) eqn:Hd; simpl in H.
  - injection H as <- <- <-. simpl.
    apply Qeq_bool_iff in Hd.
    split; [exact Hrate|]. split; [exact Hd|]. split; [reflexivity|].
    left. repeat split. exact Hd.
  - apply bind_Ok in H. destruct H as (c & Hc & H).
    injection H as <- <- <-. simpl.
    split; [exact Hrate|]. split; [reflexivity|]. split; [reflexivity|].
    right. split; [|split; [exact Hc | reflexivity]].
    intro Hq. apply Qeq_bool_iff in Hq. congruence.
Qed.

Lemma reload_conf_keeps tu nt k :
  steer_rate_cost_prev (reload_conf tu nt k) = steer_rate_cost_prev tu
  /\ steer_actuator_delay_prev (reload_conf tu nt k)
     = steer_actuator_delay_prev tu.
Proof.
  unfold reload_conf.
  destruct (_ =? 0)%Z; [destruct (conf_nTune k)|]; split; reflexivity.
Qed.

Lemma calc_states_keeps_curvature st v a cf sr d st' :
  calc_states_after_delay st v a cf sr d = Ok st' ->
  st_curvature st' = st_curvature st /\ st_x st' = Fin (v * d).
Proof.
  unfold calc_states_after_delay. intro H.
  apply bind_Ok in H. destruct H as (q & _ & H). injection H as <-.
  split; reflexivity.
Qed.

(** X12. After every completed tick the stored steer-rate cost and actuator
    delay equal the tuning values of that tick.  The solver is reinitialised
    before it runs exactly when the actuator delay differs from the stored
    one, with the refreshed cost, and the state handed to the solver then
    carries the curvature radians(angle - offset) / steer ratio of the
    previous tick; a change of the steer-rate cost alone reinitialises
    nothing, and the solver call is then the first call of the tick. *)
Theorem X12_tuning_refresh self VM sm self' VM' tr :
  update self VM sm = Ok (self', VM', tr) ->
  steer_rate_cost_prev (tuning self') == nt_steerRateCost (ntune sm)
  /\ steer_actuator_delay_prev (tuning self')
     == nt_steerActuatorDelay (ntune sm)
  /\ (steer_actuator_delay_prev (tuning self)
      == nt_steerActuatorDelay (ntune sm) ->
      exists cur y h rest,
        tr = RunMpc cur (vEgo (carState sm)) CAR_ROTATION_RADIUS y h :: rest
        /\ st_curvature cur = st_curvature (cur_state (mpc self)))
  /\ (~ steer_actuator_delay_prev (tuning self)
        == nt_steerActuatorDelay (ntune sm) ->
      exists cur y h rest,
        tr = MpcInit MPC_COST_LAT_PATH MPC_COST_LAT_HEADING
                     (steer_rate_cost_prev (tuning self'))
             :: RunMpc cur (vEgo (carState sm)) CAR_ROTATION_RADIUS y h
             :: rest
        /\ fdiv (Fin (radians (steeringAngle (carState sm)
                               - angleOffset (liveParameters sm)))) (sR VM)
           = Ok (st_curvature cur)).
Proof.
  intro H.
  destruct (update_full _ _ _ _ _ _ H)
    as (tu1 & cur1 & ev1 & cur2 & mc & y & h & nc & ncr & a & r & Hfull).
  destruct Hfull as (Href & _ & _ & Hcalc & _ & _ & _ & _ & _ & _ & _ & _ & _
                     & Htun & Htr & _).
  destruct (refresh_tuning_spec _ _ _ _ _ _ _ _ _ Href)
    as (Hrate & Hdelay & _ & Hcases).
  destruct (reload_conf_keeps tu1 (ntune sm) (kegman sm)) as (Hk1 & Hk2).
  destruct (calc_states_keeps_curvature _ _ _ _ _ _ _ Hcalc) as (Hcurv & _).
  rewrite Htun, Hk1, Hk2.
  split; [exact Hrate|]. split; [exact Hdelay|].
  rewrite Htun, Hk1 in Htr.
  destruct Hcases as [(Heq & -> & ->) | (Hne & Hc & ->)]; split.
  - intros _. simpl in Htr. do 4 eexists. split; [exact Htr | exact Hcurv].
  - intro Hx. exfalso. exact (Hx Heq).
  - intro Hx. exfalso. exact (Hne Hx).
  - intros _. simpl in Htr. do 4 eexists. split; [exact Htr|].
    rewrite Hcurv. exact Hc.
Qed.

(** X13. The clamp [max(., 0.1)] of the vehicle-model parameters works on
    numbers only.  A stiffness estimate that is a number reaches the vehicle
    model at no less than 0.1 and not below the estimate, and outside the
    dynamic mode so does the steer ratio (the live one or the tuned one).  A
    not-a-number estimate passes the clamp as it is, and with a not-a-number
    steer ratio a completed tick leaves not-a-number as the desired angle. *)
Theorem X13_vehicle_model_clamped self VM sm self' VM' tr :
  update self VM sm = Ok (self', VM', tr) ->
  (forall q, stiffnessFactor (liveParameters sm) = Fin q ->
             exists x, sF VM' = Fin x /\ 0.1 <= x /\ q <= x)
  /\ (stiffnessFactor (liveParameters sm) = NaN -> sF VM' = NaN)
  /\ (use_dynamic_sr self = false ->
      (forall q,
          (if nt_useLiveSteerRatio (ntune sm)
           then lp_steerRatio (liveParameters sm)
           else nt_steerRatio (ntune sm)) = Fin q ->
          exists r, sR VM' = Fin r /\ 0.1 <= r /\ q <= r)
      /\ ((if nt_useLiveSteerRatio (ntune sm)
           then lp_steerRatio (liveParameters sm)
           else nt_steerRatio (ntune sm)) = NaN ->
          sR VM' = NaN
          /\ desired_steering_wheel_angle_deg self' = Some NaN)).
Proof.
  intro H.
  destruct (update_full _ _ _ _ _ _ H)
    as (? & ? & ? & ? & mc & ? & ? & nc & ? & a & ? & Hfull).
  destruct Hfull as (_ & _ & HVM & _ & _ & Ha & _ & Hdes & _).
  assert (Hclamp : forall q, exists x,
             fmax (Fin q) (Fin 0.1) = Fin x /\ 0.1 <= x /\ q <= x).
  { intro q. unfold fmax, fgt.
    destruct (Qlt_bool q 0.1) eqn:Hq; eexists; (split; [reflexivity|]).
    - apply Qlt_bool_iff in Hq. lra.
    - apply Qlt_bool_false in Hq. lra. }
  assert (HsF : sF VM' = fmax (stiffnessFactor (liveParameters sm)) (Fin 0.1))
    by (rewrite HVM; reflexivity).
  split; [|split].
  - intros q Hq. rewrite HsF, Hq. apply Hclamp.
  - intro Hn. rewrite HsF, Hn. reflexivity.
  - intro Hdyn.
    assert (HsR : sR VM'
                  = fmax (if nt_useLiveSteerRatio (ntune sm)
                          then lp_steerRatio (liveParameters sm)
                          else nt_steerRatio (ntune sm)) (Fin 0.1)).
    { rewrite HVM. unfold update_vehicle_model, VM_update_params. simpl.
      rewrite Hdyn. destruct (nt_useLiveSteerRatio (ntune sm)); reflexivity. }
    split.
    + intros q Hq. rewrite HsR, Hq. apply Hclamp.
    + intro Hn.
      assert (Hnan : sR VM' = NaN) by (rewrite HsR, Hn; reflexivity).
      split; [exact Hnan|].
      rewrite Hdes. rewrite Hnan in Ha.
      assert (Hmul : forall x, fmul x NaN = NaN) by (intros [?|]; reflexivity).
      rewrite Hmul in Ha. unfold fdiv in Ha. simpl in Ha.
      destruct (fzero (vm_curvature_factor sm)); [discriminate|].
      injection Ha as <-. reflexivity.
Qed.

(** X14. [update] never assigns [angle_steers_des_mpc]: along every run from
    a fresh planner it is 0, and so is [angle_steers_des_prev].  In the
    dynamic mode the steer ratio of every tick is therefore the same value,
    the interpolation at 0. *)
Theorem X14_dynamic_ratio_is_constant cfg VM0 ticks self VM tr0 :
  run (init_planner cfg) VM0 ticks = Ok (self, VM, tr0) ->
  angle_steers_des_mpc self = 0
  /\ angle_steers_des_prev self = 0
  /\ use_dynamic_sr self = cfg_car_is_volt cfg
  /\ forall sm self' VM' tr,
      update self VM sm = Ok (self', VM', tr) ->
      cfg_car_is_volt cfg = true ->
      sR VM' = interp (Qabs 0) [5; 35] [Fin 13.5; Fin 17.5].
Proof.
  intro Hrun.
  assert (Hinv : angle_steers_des_mpc self = 0
                 /\ angle_steers_des_prev self = 0
                 /\ use_dynamic_sr self = cfg_car_is_volt cfg).
  { eapply (run_invariant
              (fun s => angle_steers_des_mpc s = 0
                        /\ angle_steers_des_prev s = 0
                        /\ use_dynamic_sr s = cfg_car_is_volt cfg));
      [|exact Hrun|repeat split].
    intros s V sm s' V' t H (Hm & _ & Hdyn).
    unfold update in H.
    repeat (apply bind_Ok in H; destruct H as (? & _ & H);
            repeat match goal with
                   | x : (_ * _)%type |- _ => destruct x
                   end).
    destruct (check_solution _ _ _ _ _ _).
    injection H as <- _ _. simpl. repeat split; assumption. }
  destruct Hinv as (Hm & Hp & Hdyn).
  repeat (split; [assumption|]).
  intros sm self' VM' tr Hup Hvolt.
  destruct (update_full _ _ _ _ _ _ Hup)
    as (? & ? & ? & ? & ? & ? & ? & ? & ? & ? & ? & Hfull).
  destruct Hfull as (_ & _ & -> & _).
  unfold update_vehicle_model, VM_update_params. simpl.
  rewrite Hdyn, Hvolt, Hm. reflexivity.
Qed.

Lemma reload_conf_frame tu nt k :
  (0 <= mpc_frame tu < 500)%Z ->
  mpc_frame (reload_conf tu nt k) = ((mpc_frame tu + 1) mod 500)%Z.
Proof.
  intro Hb. unfold reload_conf.
  destruct ((mpc_frame tu + 1) mod 500 =? 0)%Z eqn:Hz.
  - apply Z.eqb_eq in Hz. rewrite Hz.
    destruct (conf_nTune k); reflexivity.
  - apply Z.eqb_neq in Hz. simpl.
    assert (Hlt : (mpc_frame tu + 1 < 500)%Z).
    { destruct (Z.eq_dec (mpc_frame tu + 1) 500) as [He | Hne]; [|lia].
      rewrite He in Hz. rewrite Z.mod_same in Hz; lia. }
    rewrite Z.mod_small; lia.
Qed.

Lemma run_frame ticks : forall self VM self' VM' tr,
  run self VM ticks = Ok (self', VM', tr) ->
  (0 <= mpc_frame (tuning self) < 500)%Z ->
  mpc_frame (tuning self')
  = ((mpc_frame (tuning self) + Z.of_nat (length ticks)) mod 500)%Z.
Proof.
  induction ticks as [|sm rest IH]; intros self VM self' VM' tr H Hb.
  - injection H as <- _ _. simpl. rewrite Z.add_0_r, Z.mod_small; lia.
  - simpl in H.
    apply bind_Ok in H. destruct H as ([[s1 VM1] tr1] & Hup & H).
    apply bind_Ok in H. destruct H as ([[s2 VM2] tr2] & Hrun & H).
    injection H as <- _ _.
    destruct (update_full _ _ _ _ _ _ Hup)
      as (tu1 & ? & ? & ? & ? & ? & ? & ? & ? & ? & ? & Hfull).
    destruct Hfull as (Href & _ & _ & _ & _ & _ & _ & _ & _ & _ & _ & _ & _
                       & Htun & _).
    destruct (refresh_tuning_spec _ _ _ _ _ _ _ _ _ Href)
      as (_ & _ & Hframe & _).
    assert (Hstep : mpc_frame (tuning s1)
                    = ((mpc_frame (tuning self) + 1) mod 500)%Z).
    { rewrite Htun, reload_conf_frame, Hframe by (rewrite Hframe; exact Hb).
      reflexivity. }
    rewrite (IH _ _ _ _ _ Hrun), Hstep.
    + rewrite Zplus_mod_idemp_l. f_equal.
      change (length (sm :: rest)) with (S (length rest)). lia.
    + rewrite Hstep. apply Z.mod_pos_bound. lia.
Qed.

(** X15. The frame counter wraps at 500: after [n] completed ticks of a
    fresh planner it is [n mod 500]. *)
Theorem X15_frame_counter cfg VM0 ticks self VM tr :
  run (init_planner cfg) VM0 ticks = Ok (self, VM, tr) ->
  mpc_frame (tuning self) = (Z.of_nat (length ticks) mod 500)%Z.
Proof.
  intro Hrun.
  rewrite (run_frame _ _ _ _ _ _ Hrun); simpl; [reflexivity | lia].
Qed.

(** ** Accepted forecasts *)

Lemma column_stack_Ok x : forall y z rows,
  column_stack x y z = Ok rows ->
  length y = length x /\ length z = length x
  /\ map (fun r => fst (fst r)) rows = x
  /\ map col1 rows = y
  /\ map snd rows = z.
Proof.
  induction x as [|a x IH]; intros [|b y] [|c z] rows H;
    simpl in H; try discriminate.
  - injection H as <-. repeat split.
  - apply bind_Ok in H. destruct H as (rows' & Hrows & H).
    injection H as <-.
    destruct (IH _ _ _ Hrows) as (Hy & Hz & Hx' & Hy' & Hz').
    simpl. unfold col1 in *. simpl.
    rewrite Hy, Hz, Hx', Hy', Hz'. repeat split.
Qed.

(** X16. When a tick that completes has taken in a forecast (position x and
    orientation x of the expected length), the stored path holds the
    position's x, y and z as its three columns, the stored time indices are
    the position's t and the stored yaw is the orientation's z.  The length
    test looks at the two x sequences only, so completing also shows what
    the other sequences were: y, z and the yaw have the expected length and
    the time sequence has at least [MPC_N + 1] entries; with any other
    shape the tick raises. *)
Theorem X16_accepted_forecast self VM sm self' VM' tr :
  update self VM sm = Ok (self', VM', tr) ->
  length (xs (position (modelV2 sm))) = TRAJECTORY_SIZE ->
  length (xs (orientation (modelV2 sm))) = TRAJECTORY_SIZE ->
  (map (fun r => fst (fst r)) (path_xyz (forecast self'))
   = xs (position (modelV2 sm))
   /\ map col1 (path_xyz (forecast self')) = ys (position (modelV2 sm))
   /\ map snd (path_xyz (forecast self')) = zs (position (modelV2 sm))
   /\ t_idxs (forecast self') = ts (position (modelV2 sm))
   /\ plan_yaw (forecast self') = zs (orientation (modelV2 sm)))
  /\ length (ys (position (modelV2 sm))) = TRAJECTORY_SIZE
  /\ length (zs (position (modelV2 sm))) = TRAJECTORY_SIZE
  /\ length (zs (orientation (modelV2 sm))) = TRAJECTORY_SIZE
  /\ (MPC_N + 1 <= length (ts (position (modelV2 sm))))%nat.
Proof.
  intros H Hpos Hori.
  destruct (update_leaves_usable _ _ _ _ _ _ H) as (Husable & _).
  apply update_stages in H.
  destruct H as (tu1 & cur1 & ev1 & cur2 & mc & y & h & H).
  destruct H as (_ & _ & _ & Hacc & _).
  unfold accept_forecast in Hacc.
  rewrite Hpos, Hori, Nat.eqb_refl in Hacc. simpl in Hacc.
  apply bind_Ok in Hacc. destruct Hacc as (rows & Hrows & Hacc).
  injection Hacc as Hfc. rewrite <- Hfc in *. simpl in *.
  destruct (column_stack_Ok _ _ _ _ Hrows) as (Hy & Hz & Hcx & Hcy & Hcz).
  unfold forecast_usable in Husable. simpl in Husable.
  apply andb_prop in Husable. destruct Husable as (Hu & Hidx).
  apply andb_prop in Hu. destruct Hu as (Hu & _).
  apply Nat.eqb_eq in Hu. apply Nat.leb_le in Hidx.
  assert (Hlen : length rows = TRAJECTORY_SIZE).
  { rewrite <- Hpos. rewrite <- Hcx. rewrite length_map. reflexivity. }
  split; [repeat split; assumption|].
  split; [congruence|]. split; [congruence|]. split; [congruence|exact Hidx].
Qed.

Lemma update_targets self VM sm self' VM' tr :
  update self VM sm = Ok (self', VM', tr) ->
  exists cur y h,
    In (RunMpc cur (vEgo (carState sm)) CAR_ROTATION_RADIUS y h) tr
    /\ length y = (MPC_N + 1)%nat
    /\ length h = (MPC_N + 1)%nat
    /\ y_pts self' = y.
Proof.
  unfold update. intro H.
  apply bind_Ok in H. destruct H as ([[tu1 cur1] ev1] & Hrefresh & H).
  apply bind_Ok in H. destruct H as (mc & Hmc & H).
  apply bind_Ok in H. destruct H as (fc1 & Hfc & H).
  apply bind_Ok in H. destruct H as (lc1 & Hlc & H).
  apply bind_Ok in H. destruct H as (y1 & Hy & H).
  apply bind_Ok in H. destruct H as (h1 & Hh & H).
  apply bind_Ok in H. destruct H as (cur2 & Hcur2 & H).
  apply bind_Ok in H. destruct H as (u1 & Hy_len & H).
  apply bind_Ok in H. destruct H as (u2 & Hh_len & H).
  apply bind_Ok in H. destruct H as ([nc ncr] & Hnext & H).
  apply bind_Ok in H. destruct H as (a & Ha & H).
  apply bind_Ok in H. destruct H as (r & Hr & H).
  destruct (check_solution _ _ _ _ _ _) as [mpc1 ev3] eqn:Hchk.
  injection H as <- <- <-.
  apply py_assert_Ok in Hy_len. apply Nat.eqb_eq in Hy_len.
  apply py_assert_Ok in Hh_len. apply Nat.eqb_eq in Hh_len.
  exists cur2, y1, h1. simpl.
  split; [apply in_or_app; right; left; reflexivity|].
  repeat split; assumption.
Qed.

(** X17. The solver always gets [MPC_N + 1] lateral targets and
    [MPC_N + 1] heading targets, and the path points kept and published are
    those lateral targets. *)
Theorem X17_target_lengths self VM sm self' VM' tr :
  update self VM sm = Ok (self', VM', tr) ->
  exists cur y h msg,
    In (RunMpc cur (vEgo (carState sm)) CAR_ROTATION_RADIUS y h) tr
    /\ length y = (MPC_N + 1)%nat
    /\ length h = (MPC_N + 1)%nat
    /\ publish self' VM' sm = Ok msg
    /\ msg_dPathPoints msg = y.
Proof.
  intro H.
  destruct (update_targets _ _ _ _ _ _ H) as (cur & y & h & Hin & Hy & Hh & Hp).
  destruct (publish_after_update _ _ _ _ _ _ H) as (msg & Hpub & _).
  exists cur, y, h, msg.
  repeat (split; [assumption|]).
  unfold publish in Hpub.
  apply bind_Ok in Hpub. destruct Hpub as (? & _ & Hpub).
  apply bind_Ok in Hpub. destruct Hpub as (? & _ & Hpub).
  injection Hpub as <-. simpl. exact Hp.
Qed.

(** ** Publishing *)

Lemma update_assigns_outputs self VM sm self' VM' tr :
  update self VM sm = Ok (self', VM', tr) ->
  desired_steering_wheel_angle_deg self' <> None
  /\ desired_steering_wheel_angle_rate_deg self' <> None.
Proof.
  intro H. apply update_stages in H.
  destruct H as (tu1 & cur1 & ev1 & cur2 & mc & y & h & H).
  split; apply H.
Qed.

(** X18. [publish] reads the desired angle and rate, which only [update]
    assigns: on a fresh planner it raises [AttributeError], and after a run
    of at least one completed tick it returns a message whose validity flag
    is "fewer than two consecutive invalid solutions". *)
Theorem X18_publish_needs_a_tick cfg VM0 ticks self VM tr V sm :
  run (init_planner cfg) VM0 ticks = Ok (self, VM, tr) ->
  (ticks = [] -> publish self V sm = Raise AttributeError)
  /\ (ticks <> [] ->
      exists msg,
        publish self V sm = Ok msg
        /\ mpcSolutionValid msg
           = (solution_invalid_cnt (mpc self) <? 2)%nat).
Proof.
  intro Hrun. split.
  - intros ->. injection Hrun as <- _ _. reflexivity.
  - intro Hne. destruct ticks as [|t0 rest]; [congruence|].
    simpl in Hrun.
    apply bind_Ok in Hrun. destruct Hrun as ([[s1 VM1] tr1] & Hup & Hrun).
    apply bind_Ok in Hrun. destruct Hrun as ([[s2 VM2] tr2] & Hrest & Hrun).
    injection Hrun as <- _ _.
    assert (Hset : desired_steering_wheel_angle_deg s2 <> None
                   /\ desired_steering_wheel_angle_rate_deg s2 <> None).
    { eapply (run_invariant
                (fun s => desired_steering_wheel_angle_deg s <> None
                          /\ desired_steering_wheel_angle_rate_deg s <> None));
        [|exact Hrest|].
      - intros. eapply update_assigns_outputs; eassumption.
      - eapply update_assigns_outputs; eassumption. }
    destruct Hset as (Ha & Hr). unfold publish.
    destruct (desired_steering_wheel_angle_deg s2); [|congruence].
    destruct (desired_steering_wheel_angle_rate_deg s2); [|congruence].
    simpl. eexists. split; reflexivity.
Qed.

(** ** The solver's warm start *)

(** X19. Between two consecutive ticks with the same actuator delay, the
    state handed to the solver in the second tick starts at x = speed times
    delay and carries the curvature the first tick left: the measured
    curvature of the first tick when its solution had a not-a-number
    curvature sample, and otherwise the first solution's curvature
    interpolated one tick period ahead. *)
Theorem X19_warm_start s0 VM0 t1 t2 s1 VM1 tr1 s2 VM2 tr2 :
  update s0 VM0 t1 = Ok (s1, VM1, tr1) ->
  update s1 VM1 t2 = Ok (s2, VM2, tr2) ->
  nt_steerActuatorDelay (ntune t2) == nt_steerActuatorDelay (ntune t1) ->
  exists measured1 cur y h rest,
    measured_curvature_of (vm_curvature_factor t1)
      (steeringAngle (carState t1)) (angleOffset (liveParameters t1)) VM1
    = Ok measured1
    /\ tr2 = RunMpc cur (vEgo (carState t2)) CAR_ROTATION_RADIUS y h :: rest
    /\ st_x cur = Fin (vEgo (carState t2) * nt_steerActuatorDelay (ntune t2))
    /\ st_curvature cur
       = (if mpc_nans_of (mpc_out t1) then measured1
          else interp DT_MDL (firstn (MPC_N + 1) (t_idxs (forecast s1)))
                      (sol_curvature (mpc_out t1))).
Proof.
  intros H1 H2 Hdelay.
  destruct (update_check _ _ _ _ _ _ H1) as (mc1 & Hmc1 & _ & Hcur1 & _).
  destruct (update_full _ _ _ _ _ _ H1)
    as (tu0 & ? & ? & ? & ? & ? & ? & ? & ? & ? & ? & Hfull1).
  destruct Hfull1 as (Href1 & _ & _ & _ & _ & _ & _ & _ & _ & _ & _ & _ & _
                      & Htun1 & _).
  destruct (refresh_tuning_spec _ _ _ _ _ _ _ _ _ Href1)
    as (_ & Hd1 & _).
  destruct (reload_conf_keeps tu0 (ntune t1) (kegman t1)) as (_ & Hk).
  destruct (update_full _ _ _ _ _ _ H2)
    as (tu1 & cur1 & ev1 & cur2 & mc & y & h & nc & ncr & a & r & Hfull).
  destruct Hfull as (Href & _ & _ & Hcalc & _ & _ & _ & _ & _ & _ & _ & _ & _
                     & _ & Htr & _).
  destruct (refresh_tuning_spec _ _ _ _ _ _ _ _ _ Href)
    as (_ & _ & _ & Hcases).
  destruct (calc_states_keeps_curvature _ _ _ _ _ _ _ Hcalc) as (Hcurv & Hx).
  destruct Hcases as [(_ & -> & ->) | (Hne & _)].
  - exists mc1, cur2, y, h. eexists.
    split; [exact Hmc1|]. split; [exact Htr|]. split; [exact Hx|].
    rewrite Hcurv. exact Hcur1.
  - exfalso. apply Hne. rewrite Htun1, Hk, Hd1, Hdelay. reflexivity.
Qed.

End Proofs.

(** * Further properties of the car-state decoder *)

Section CarStateProofs.
Import String.StringSyntax.
#[local] Open Scope string_scope.

Lemma kbind_Found {A B : Type} (m : GMCan.keyed A) (k : A -> GMCan.keyed B)
    (b : B) :
  GMCan.kbind m k = GMCan.Found b ->
  exists a, m = GMCan.Found a /\ k a = GMCan.Found b.
Proof.
  destruct m as [a|msg sig]; simpl; intro H; [eauto | discriminate].
Qed.

(** Takes a successful run of dictionary reads apart, read by read. *)
Ltac kinv H :=
  cbn [GMCan.kbind] in H;
  lazymatch type of H with
  | GMCan.kbind _ _ = GMCan.Found _ =>
      let a := fresh "v" in
      let Ha := fresh "Hget" in
      apply kbind_Found in H; destruct H as (a & Ha & H);
      kinv Ha; try (injection Ha as <-); kinv H
  | (if Qeq_bool ?v 1 then _ else _) = GMCan.Found _ =>
      let Hq := fresh "Hdoor" in
      destruct (Qeq_bool v 1) eqn:Hq; kinv H
  | _ => idtac
  end.

(** Reads the first dictionary access of the goal off the subscription. *)
Ltac find_signal :=
  simpl; repeat (first [left; reflexivity | right]).

Ltac read_key Hsub :=
  match goal with
  | |- context [GMCan.kbind (GMCan.get ?vl ?m ?s) _] =>
      let v := fresh "v" in
      let Hv := fresh "Hv" in
      assert (exists x, GMCan.get vl m s = GMCan.Found x) as (v & Hv)
        by (eapply Hsub;
            first [ apply in_or_app; left; solve [find_signal]
                  | apply in_or_app; right; solve [find_signal]
                  | solve [find_signal] ]);
      rewrite Hv; cbn [GMCan.kbind]
  end.

(** X20. [update] finds every key it reads: with a powertrain parser that
    holds the signals [get_can_parser] lists for the car, and a chassis
    parser that holds those of [get_chassis_can_parser], it raises no
    [KeyError], for the Volt and for the other cars. *)
Theorem X20_subscribed_keys_suffice V is_volt conf self pt_cp ch_cp :
  GMCan.subscribes pt_cp (GMCan.get_can_parser V is_volt) ->
  GMCan.subscribes ch_cp GMCan.get_chassis_can_parser ->
  exists self' ret,
    GMCan.update V is_volt conf self pt_cp ch_cp = GMCan.Found (self', ret).
Proof.
  intros Hpt Hch. unfold GMCan.update, GMCan.any_is_one.
  destruct is_volt; repeat read_key Hpt; read_key Hch;
    repeat match goal with
           | |- context [if Qeq_bool ?v 1 then GMCan.Found true else _] =>
               destruct (Qeq_bool v 1); cbn [GMCan.kbind]
           end;
    do 2 eexists; reflexivity.
Qed.

(** X21. For the Volt, [update] reads the regen paddle: with a parser that
    holds the signals listed for another car and not the paddle, it raises
    [KeyError] for that key, whatever the chassis parser holds. *)
Theorem X21_volt_needs_regen_paddle V conf self pt_cp ch_cp :
  GMCan.subscribes pt_cp (GMCan.get_can_parser V false) ->
  GMCan.get pt_cp "EBCMRegenPaddle" "RegenPaddle"
  = GMCan.KeyError "EBCMRegenPaddle" "RegenPaddle" ->
  GMCan.update V true conf self pt_cp ch_cp
  = GMCan.KeyError "EBCMRegenPaddle" "RegenPaddle".
Proof.
  intros Hpt Hmiss. unfold GMCan.update, GMCan.any_is_one.
  repeat read_key Hpt. rewrite Hmiss.
  repeat match goal with
         | |- context [if Qeq_bool ?v 1 then GMCan.Found true else _] =>
             destruct (Qeq_bool v 1); cbn [GMCan.kbind]
         end;
    reflexivity.
Qed.

Lemma brake_pressed_from_10 (pedal : Q) :
  Qlt_bool 0.00001
    (if Qlt_bool (pedal / 208) (10 / 208) then 0 else pedal / 208)
  = Qle_bool 10 pedal.
Proof.
  destruct (Qlt_bool (pedal / 208) (10 / 208)) eqn:Hlow.
  - apply Qlt_bool_iff in Hlow.
    destruct (Qle_bool 10 pedal) eqn:Hle.
    + apply Qle_bool_iff in Hle. exfalso.
      assert (Hp : pedal / 208 == pedal * (1 # 208)) by (unfold Qdiv; reflexivity).
      assert (Ht : 10 / 208 == 10 * (1 # 208)) by (unfold Qdiv; reflexivity).
      rewrite Hp, Ht in Hlow. lra.
    + reflexivity.
  - apply Qlt_bool_false in Hlow.
    assert (Hp : pedal / 208 == pedal * (1 # 208)) by (unfold Qdiv; reflexivity).
    assert (Ht : 10 / 208 == 10 * (1 # 208)) by (unfold Qdiv; reflexivity).
    rewrite Hp, Ht in Hlow.
    assert (Hle : 10 <= pedal) by lra.
    apply Qle_bool_iff in Hle. rewrite Hle.
    apply Qlt_bool_iff. rewrite Hp. lra.
Qed.

(** X23. The brake counts as pressed exactly from a raw pedal position of
    10 (lower readings are zeroed), or, on the Volt only, when the regen
    paddle is pulled; the decoded brake is 0 or at least 10/208; pressed
    brakes always light the brake lights; and on other cars the stored regen
    flag is left alone. *)
Theorem X23_brake_pressed V is_volt conf self pt_cp ch_cp self' ret pedal :
  GMCan.update V is_volt conf self pt_cp ch_cp = GMCan.Found (self', ret) ->
  GMCan.get pt_cp "EBCMBrakePedalPosition" "BrakePedalPosition"
  = GMCan.Found pedal ->
  GMCan.brakePressed ret
  = Qle_bool 10 pedal || (is_volt && GMCan.regenPaddlePressed self')
  /\ (GMCan.brake ret = 0 \/ 10 / 208 <= GMCan.brake ret)
  /\ (GMCan.brakePressed ret = true -> GMCan.brakeLights ret = true)
  /\ (is_volt = false ->
      GMCan.regenPaddlePressed self' = GMCan.regenPaddlePressed self).
Proof.
  intros H Hpedal.
  unfold GMCan.update, GMCan.any_is_one in H.
  rewrite Hpedal in H.
  assert (Hzone : (if Qlt_bool (pedal / 208) (10 / 208) then 0
                   else pedal / 208) = 0
                  \/ 10 / 208
                     <= (if Qlt_bool (pedal / 208) (10 / 208) then 0
                         else pedal / 208)).
  { destruct (Qlt_bool (pedal / 208) (10 / 208)) eqn:Hlow;
      [left; reflexivity | right; apply Qlt_bool_false, Hlow]. }
  destruct is_volt; kinv H; injection H as <- <-; simpl;
    rewrite brake_pressed_from_10;
    (split; [rewrite ?orb_false_r; reflexivity|]);
    (split; [exact Hzone|]);
    (split; [intro Hp; rewrite Hp; apply orb_true_r|]);
    intro Hv; first [reflexivity | discriminate].
Qed.

(** X24. The previous-button attributes lag one call behind: after two calls
    of [update] they hold the button values the first call read, and the
    current ones hold the values the second call read. *)
Theorem X24_button_history V is_volt conf s0 pt1 ch1 s1 r1 pt2 ch2 s2 r2 :
  GMCan.update V is_volt conf s0 pt1 ch1 = GMCan.Found (s1, r1) ->
  GMCan.update V is_volt conf s1 pt2 ch2 = GMCan.Found (s2, r2) ->
  GMCan.get pt1 "ASCMSteeringButton" "ACCButtons"
  = GMCan.Found (GMCan.prev_cruise_buttons s2)
  /\ GMCan.get pt1 "ASCMSteeringButton" "LKAButton"
     = GMCan.Found (GMCan.prev_lka_button s2)
  /\ GMCan.get pt1 "ASCMSteeringButton" "DistanceButton"
     = GMCan.Found (GMCan.prev_distance_button s2)
  /\ GMCan.get pt2 "ASCMSteeringButton" "ACCButtons"
     = GMCan.Found (GMCan.cruise_buttons s2)
  /\ GMCan.get pt2 "ASCMSteeringButton" "LKAButton"
     = GMCan.Found (GMCan.lka_button s2)
  /\ GMCan.get pt2 "ASCMSteeringButton" "DistanceButton"
     = GMCan.Found (GMCan.distance_button s2).
Proof.
  assert (Hone : forall s pt ch s' r,
             GMCan.update V is_volt conf s pt ch = GMCan.Found (s', r) ->
             GMCan.get pt "ASCMSteeringButton" "ACCButtons"
             = GMCan.Found (GMCan.cruise_buttons s')
             /\ GMCan.get pt "ASCMSteeringButton" "LKAButton"
                = GMCan.Found (GMCan.lka_button s')
             /\ GMCan.get pt "ASCMSteeringButton" "DistanceButton"
                = GMCan.Found (GMCan.distance_button s')
             /\ GMCan.prev_cruise_buttons s' = GMCan.cruise_buttons s
             /\ GMCan.prev_lka_button s' = GMCan.lka_button s
             /\ GMCan.prev_distance_button s' = GMCan.distance_button s).
  { intros s pt ch s' r H.
    unfold GMCan.update, GMCan.any_is_one in H.
    apply kbind_Found in H. destruct H as (b1 & Hb1 & H).
    apply kbind_Found in H. destruct H as (b2 & Hb2 & H).
    apply kbind_Found in H. destruct H as (b3 & Hb3 & H).
    destruct is_volt; kinv H; injection H as <- _; simpl;
      repeat split; assumption. }
  intros H1 H2.
  destruct (Hone _ _ _ _ _ H1) as (Ha1 & Hl1 & Hd1 & _).
  destruct (Hone _ _ _ _ _ H2) as (Ha2 & Hl2 & Hd2 & Hpa & Hpl & Hpd).
  rewrite Hpa, Hpl, Hpd. repeat split; assumption.
Qed.

(** X25. With a non-negative [STEER_THRESHOLD], the planner's torque test
    (outside nudge-less mode), fed with the decoded steering torque and
    [steeringPressed], holds exactly when the raw driver torque is below
    minus the threshold. *)
Theorem X25_nudge_is_torque_below_threshold thr pt_cp cs pre limit :
  0 <= thr ->
  steeringTorque cs = GM.steeringTorque (GM.update thr pt_cp) ->
  steeringPressed cs = GM.steeringPressed (GM.update thr pt_cp) ->
  torque_applied_of false pre limit none cs
  = Qlt_bool (GM.LKADriverAppldTrq pt_cp) (- thr).
Proof.
  intros Hthr Ht Hp. unfold torque_applied_of. simpl.
  rewrite Ht, Hp. simpl.
  set (t := GM.LKADriverAppldTrq pt_cp).
  destruct (Qlt_bool t 0) eqn:Hneg; simpl.
  - apply Qlt_bool_iff in Hneg.
    assert (Habs : Qabs t == - t).
    { apply Qabs_neg. lra. }
    destruct (Qlt_bool thr (Qabs t)) eqn:Hpr.
    + apply Qlt_bool_iff in Hpr. symmetry. apply Qlt_bool_iff.
      rewrite Habs in Hpr. lra.
    + apply Qlt_bool_false in Hpr. symmetry. apply Qlt_bool_false.
      rewrite Habs in Hpr. lra.
  - apply Qlt_bool_false in Hneg. symmetry. apply Qlt_bool_false. lra.
Qed.

End CarStateProofs.

(** * The properties at concrete inputs *)

#[local] Existing Instance Demo.extern.

(** C1. The code departs from the specification.  The planner has reached
    [preLaneChange] for a change to the left, nudge-less mode is off and no
    blind spot is reported.  A tick with positive torque and
    [steeringPressed] leaves the state in [preLaneChange]; the same tick with
    negative torque moves it to [laneChangeStarting]. *)
Theorem C1_left_nudge_ignored :
  (exists self VM tr,
      run (init_planner Demo.cfg) Demo.VM0
          [Demo.cruise; Demo.signal_left; Demo.nudge_left] = Ok (self, VM, tr)
      /\ lane_change_direction (lc self) = left
      /\ lane_change_state (lc self) = preLaneChange)
  /\ (exists self VM tr,
         run (init_planner Demo.cfg) Demo.VM0
             [Demo.cruise; Demo.signal_left; Demo.nudge_right]
         = Ok (self, VM, tr)
         /\ lane_change_direction (lc self) = left
         /\ lane_change_state (lc self) = laneChangeStarting).
Proof.
  split; do 3 eexists; (split; [vm_compute; reflexivity|]);
    split; reflexivity.
Qed.

(** C9. The code departs from the specification.  The first tick of a fresh
    planner with the controller active and the left blinker on raises
    [AttributeError]. *)
Theorem C9_first_tick_raises :
  update (init_planner Demo.cfg) Demo.VM0 Demo.signal_left
  = Raise AttributeError.
Proof.
  vm_compute. reflexivity.
Qed.

(** Counterexample to C2 as the specification words it: a solution of cost
    25000 with finite curvature is invalid, yet nothing is called after the
    solver and the carried curvature is not the measured one. *)
Lemma C2_counterexample :
  exists self' VM' tr mc,
    update (init_planner Demo.cfg) Demo.VM0 (Demo.solve Demo.high_cost 100)
    = Ok (self', VM', tr)
    /\ solution_invalid (mpc_out (Demo.solve Demo.high_cost 100)) = true
    /\ measured_curvature_of (Fin 0.4) 10 0 VM' = Ok mc
    /\ ~ feq (st_curvature (cur_state (mpc self'))) mc
    /\ after_solve tr = [].
Proof.
  do 4 eexists.
  split; [vm_compute; reflexivity|].
  split; [reflexivity|].
  split; [vm_compute; reflexivity|].
  split; [|reflexivity].
  vm_compute. discriminate.
Qed.

Lemma C2_witness :
  exists self' VM' tr,
    update (init_planner Demo.cfg) Demo.VM0 (Demo.solve Demo.broken 100)
    = Ok (self', VM', tr)
    /\ exists measured_curvature,
        measured_curvature_of (Fin 0.4) 10 0 VM' = Ok measured_curvature
        /\ (solution_invalid Demo.broken = true ->
            solution_invalid_cnt (mpc self') = 1%nat)
        /\ (mpc_nans_of Demo.broken = true ->
            st_curvature (cur_state (mpc self')) = measured_curvature
            /\ exists rest,
                after_solve tr
                = MpcInit 1 1 (steer_rate_cost_prev (tuning self')) :: rest)
        /\ (mpc_nans_of Demo.broken = false ->
            st_curvature (cur_state (mpc self'))
            = Demo.interp_f 0.05
                (firstn 17 (t_idxs (forecast self')))
                (sol_curvature Demo.broken)
            /\ after_solve tr = []).
Proof.
  destruct (update (init_planner Demo.cfg) Demo.VM0
              (Demo.solve Demo.broken 100))
    as [[[self' VM'] tr]|e] eqn:H.
  - exists self', VM', tr. split; [reflexivity|].
    exact (C2_invalid_solution_handling _ _ _ _ _ _ H).
  - vm_compute in H. discriminate.
Defined.


Lemma C3_witness :
  exists s1 VM1 tr1 s2 VM2 tr2,
    update (init_planner Demo.cfg) Demo.VM0 (Demo.solve Demo.broken 100)
    = Ok (s1, VM1, tr1)
    /\ update s1 VM1 (Demo.solve Demo.good 100.05) = Ok (s2, VM2, tr2)
    /\ exists m1 m2,
        publish s1 VM1 (Demo.solve Demo.broken 100) = Ok m1
        /\ publish s2 VM2 (Demo.solve Demo.good 100.05) = Ok m2
        /\ mpcSolutionValid m1 = true
        /\ solution_invalid_cnt (mpc s2) = 0%nat
        /\ mpcSolutionValid m2 = true.
Proof.
  destruct (update (init_planner Demo.cfg) Demo.VM0
              (Demo.solve Demo.broken 100))
    as [[[s1 VM1] tr1]|e] eqn:H1; [|vm_compute in H1; discriminate].
  pose proof H1 as H1c. vm_compute in H1c. injection H1c as <- <- <-.
  match type of H1 with _ = Ok (?s, ?v, _) =>
    destruct (update s v (Demo.solve Demo.good 100.05))
      as [[[s2 VM2] tr2]|e] eqn:H2; [|vm_compute in H2; discriminate]
  end.
  do 6 eexists. split; [exact H1|]. split; [exact H2|].
  destruct (C3_solution_valid_flag _ _ _ _ _ _ _ _ _ _ H1 H2)
    as (m1 & m2 & Hp1 & Hp2 & _ & _ & _ & Hsingle).
  exists m1, m2. split; [exact Hp1|]. split; [exact Hp2|].
  apply Hsingle; reflexivity.
Defined.

(** Counterexample to C4 as the specification words it: three ticks in a row
    with cost 25000 and finite curvature take the counter to 3, and no
    diagnostic is emitted, although the clock is well past the first 5 s. *)
Lemma C4_counterexample :
  exists self VM tr,
    run (init_planner Demo.cfg) Demo.VM0
        [Demo.solve Demo.high_cost 100; Demo.solve Demo.high_cost 100.05;
         Demo.solve Demo.high_cost 100.1] = Ok (self, VM, tr)
    /\ solution_invalid_cnt (mpc self) = 3%nat
    /\ length (warnings tr) <> 1%nat.
Proof.
  do 3 eexists. split; [vm_compute; reflexivity|].
  split; [reflexivity|]. vm_compute. discriminate.
Qed.

Lemma C4_witness :
  (exists s1 VM1 tr1 s2 VM2 tr2 s3 VM3 tr3,
      update (init_planner Demo.cfg) Demo.VM0 (Demo.solve Demo.high_cost 100)
      = Ok (s1, VM1, tr1)
      /\ update s1 VM1 (Demo.solve Demo.high_cost 100.05) = Ok (s2, VM2, tr2)
      /\ update s2 VM2 (Demo.solve Demo.high_cost 100.1) = Ok (s3, VM3, tr3)
      /\ solution_invalid_cnt (mpc s3) = 3%nat
      /\ (exists m1 m2 m3,
             publish s1 VM1 (Demo.solve Demo.high_cost 100) = Ok m1
             /\ mpcSolutionValid m1 = true
             /\ publish s2 VM2 (Demo.solve Demo.high_cost 100.05) = Ok m2
             /\ mpcSolutionValid m2 = false
             /\ publish s3 VM3 (Demo.solve Demo.high_cost 100.1) = Ok m3
             /\ mpcSolutionValid m3 = false)
      /\ warnings (tr1 ++ tr2 ++ tr3) = [])
  /\ (exists self VM tr,
         run (init_planner Demo.cfg) Demo.VM0
             [Demo.solve Demo.broken 100; Demo.solve Demo.broken 101;
              Demo.solve Demo.broken 106] = Ok (self, VM, tr)
         /\ spaced (warnings tr)).
Proof.
  destruct C4_divergence_run as [Hthree Hspaced].
  split.
  - destruct (update (init_planner Demo.cfg) Demo.VM0
                (Demo.solve Demo.high_cost 100))
      as [[[s1 VM1] tr1]|e] eqn:H1; [|vm_compute in H1; discriminate].
    pose proof H1 as H1c. vm_compute in H1c. injection H1c as <- <- <-.
    match type of H1 with _ = Ok (?s, ?v, _) =>
      destruct (update s v (Demo.solve Demo.high_cost 100.05))
        as [[[s2 VM2] tr2]|e] eqn:H2; [|vm_compute in H2; discriminate]
    end.
    pose proof H2 as H2c. vm_compute in H2c. injection H2c as <- <- <-.
    match type of H2 with _ = Ok (?s, ?v, _) =>
      destruct (update s v (Demo.solve Demo.high_cost 100.1))
        as [[[s3 VM3] tr3]|e] eqn:H3; [|vm_compute in H3; discriminate]
    end.
    do 9 eexists. split; [exact H1|]. split; [exact H2|]. split; [exact H3|].
    assert (Hsol : forall t,
               In t [Demo.solve Demo.high_cost 100;
                     Demo.solve Demo.high_cost 100.05;
                     Demo.solve Demo.high_cost 100.1] ->
               fgt (sol_cost (mpc_out t)) (Fin 20000) = true
               /\ mpc_nans_of (mpc_out t) = false).
    { intros t [<- | [<- | [<- | []]]]; split; reflexivity. }
    destruct (Hthree _ _ _ _ _ _ _ _ _ _ _ _ _ _ Hsol H1 H2 H3)
      as (Hcnt & (m1 & m2 & m3 & Hp1 & Hv1 & Hrest) & Hw).
    split; [exact Hcnt|]. split; [|exact Hw].
    exists m1, m2, m3. split; [exact Hp1|].
    split; [apply Hv1; reflexivity | exact Hrest].
  - destruct (run (init_planner Demo.cfg) Demo.VM0
                [Demo.solve Demo.broken 100; Demo.solve Demo.broken 101;
                 Demo.solve Demo.broken 106])
      as [[[self VM] tr]|e] eqn:H; [|vm_compute in H; discriminate].
    exists self, VM, tr. split; [reflexivity|].
    exact (Hspaced _ _ _ _ _ _ H).
Defined.


Lemma C6_witness :
  inject_Z 20 * 0.05 == 1
  /\ 0.01 <= 0.05
  /\ (exists self VM tr0 self' VM' tr,
        run (init_planner Demo.cfg) Demo.VM0
            [Demo.cruise; Demo.signal_left; Demo.nudge_right]
        = Ok (self, VM, tr0)
        /\ update self VM Demo.signal_left = Ok (self', VM', tr)
        /\ lane_change_state (lc self) = laneChangeStarting
        /\ lane_change_ll_prob (lc self) == 1
        /\ lane_change_ll_prob (lc self') == 0.9)
  /\ (exists self VM tr0 self' VM' tr,
        run (init_planner Demo.cfg) Demo.VM0
            ([Demo.cruise; Demo.signal_left; Demo.nudge_right]
             ++ repeat Demo.signal_left 10)
        = Ok (self, VM, tr0)
        /\ update self VM Demo.cruise = Ok (self', VM', tr)
        /\ lane_change_state (lc self) = laneChangeFinishing
        /\ lane_change_ll_prob (lc self) == 0
        /\ lane_change_ll_prob (lc self') == 0.05)
  /\ (exists self VM tr0 self' VM' tr,
        run (init_planner Demo.cfg) Demo.VM0 DemoMore.broken_off
        = Ok (self, VM, tr0)
        /\ update self VM Demo.signal_left = Ok (self', VM', tr)
        /\ lane_change_state (lc self) = off
        /\ lane_change_ll_prob (lc self) == 0.9
        /\ lane_change_state (lc self') = preLaneChange
        /\ lane_change_ll_prob (lc self') = 1)
  /\ (exists self VM tr0,
        run (init_planner Demo.cfg) Demo.VM0 Demo.lane_change_left
        = Ok (self, VM, tr0)
        /\ 0 <= lane_change_ll_prob (lc self) <= 1).
Proof.
  assert (Hrate : inject_Z 20 * 0.05 == 1) by reflexivity.
  assert (Hmin : 0.01 <= 0.05) by (vm_compute; discriminate).
  destruct (C6_blend_factor (E := Demo.extern) 20 Hrate Hmin)
    as (Htick & Hrun).
  split; [exact Hrate|]. split; [exact Hmin|].
  split; [|split; [|split]].
  - destruct (run (init_planner Demo.cfg) Demo.VM0
                [Demo.cruise; Demo.signal_left; Demo.nudge_right])
      as [[[self VM] tr0]|e] eqn:H1; [|vm_compute in H1; discriminate].
    pose proof H1 as H1c. vm_compute in H1c. injection H1c as <- <- <-.
    match type of H1 with _ = Ok (?s, ?v, _) =>
      destruct (update s v Demo.signal_left)
        as [[[self' VM'] tr]|e] eqn:H2; [|vm_compute in H2; discriminate];
      assert (Hst : lane_change_state (lc s) = laneChangeStarting)
        by reflexivity;
      assert (Ht : lane_change_timer (lc s) <= 10)
        by (vm_compute; discriminate)
    end.
    destruct (Htick _ _ _ _ _ _ H2) as (Hout & _).
    specialize (Hout Hst eq_refl Ht).
    do 6 eexists. split; [exact H1|]. split; [exact H2|].
    split; [exact Hst|]. split; [reflexivity|].
    rewrite Hout. vm_compute. reflexivity.
  - destruct (run (init_planner Demo.cfg) Demo.VM0
                ([Demo.cruise; Demo.signal_left; Demo.nudge_right]
                 ++ repeat Demo.signal_left 10))
      as [[[self VM] tr0]|e] eqn:H1; [|vm_compute in H1; discriminate].
    pose proof H1 as H1c. vm_compute in H1c. injection H1c as <- <- <-.
    match type of H1 with _ = Ok (?s, ?v, _) =>
      destruct (update s v Demo.cruise)
        as [[[self' VM'] tr]|e] eqn:H2; [|vm_compute in H2; discriminate];
      assert (Hst : lane_change_state (lc s) = laneChangeFinishing)
        by reflexivity;
      assert (Ht : lane_change_timer (lc s) <= 10)
        by (vm_compute; discriminate)
    end.
    destruct (Htick _ _ _ _ _ _ H2) as (_ & Hin & _).
    specialize (Hin Hst eq_refl Ht).
    do 6 eexists. split; [exact H1|]. split; [exact H2|].
    split; [exact Hst|]. split; [vm_compute; reflexivity|].
    rewrite Hin. vm_compute. reflexivity.
  - destruct (run (init_planner Demo.cfg) Demo.VM0 DemoMore.broken_off)
      as [[[self VM] tr0]|e] eqn:H1; [|vm_compute in H1; discriminate].
    pose proof H1 as H1c. vm_compute in H1c. injection H1c as <- <- <-.
    match type of H1 with _ = Ok (?s, ?v, _) =>
      destruct (update s v Demo.signal_left)
        as [[[self' VM'] tr]|e] eqn:H2; [|vm_compute in H2; discriminate];
      assert (Hst : lane_change_state (lc s) = off) by reflexivity
    end.
    assert (Hpre : lane_change_state (lc self') = preLaneChange).
    { pose proof H2 as H2c. vm_compute in H2c.
      injection H2c as <- _ _. reflexivity. }
    destruct (Htick _ _ _ _ _ _ H2) as (_ & _ & Hreset & _).
    do 6 eexists. split; [exact H1|]. split; [exact H2|].
    split; [exact Hst|]. split; [vm_compute; reflexivity|].
    split; [exact Hpre | exact (Hreset Hst Hpre)].
  - destruct (run (init_planner Demo.cfg) Demo.VM0 Demo.lane_change_left)
      as [[[self VM] tr0]|e] eqn:H; [|vm_compute in H; discriminate].
    exists self, VM, tr0. split; [reflexivity|].
    exact (proj1 (Hrun _ _ _ _ _ _ H)).
Defined.

Lemma C7_witness :
  exists self VM tr0 self' VM' tr,
    update (init_planner Demo.cfg) Demo.VM0 Demo.cruise = Ok (self, VM, tr0)
    /\ (length (xs (position (modelV2 Demo.short_forecast))) <> 33%nat
        \/ length (xs (orientation (modelV2 Demo.short_forecast))) <> 33%nat)
    /\ collaborators_sane self VM Demo.short_forecast = true
    /\ update self VM Demo.short_forecast = Ok (self', VM', tr)
    /\ path_xyz (forecast self') = path_xyz (forecast self)
    /\ t_idxs (forecast self') = t_idxs (forecast self)
    /\ plan_yaw (forecast self') = plan_yaw (forecast self)
    /\ exists cur y,
        In (RunMpc cur 20 0 y (heading_targets (forecast self) 20)) tr.
Proof.
  destruct (update (init_planner Demo.cfg) Demo.VM0 Demo.cruise)
    as [[[self VM] tr0]|e] eqn:H1; [|vm_compute in H1; discriminate].
  pose proof H1 as H1c. vm_compute in H1c. injection H1c as <- <- <-.
  assert (Hlen : length (xs (position (modelV2 Demo.short_forecast)))
                 <> 33%nat
                 \/ length (xs (orientation (modelV2 Demo.short_forecast)))
                    <> 33%nat) by (left; vm_compute; discriminate).
  match type of H1 with _ = Ok (?s, ?v, _) =>
    assert (Hsane : collaborators_sane s v Demo.short_forecast = true)
      by (vm_compute; reflexivity)
  end.
  match type of H1 with _ = Ok (?s, ?v, _) =>
    destruct (C7_forecast_mismatch (E := Demo.extern) s v
                Demo.short_forecast Hlen)
      as [Hframe Htotal]
  end.
  destruct (Htotal _ _ _ _ H1 Hsane) as (self' & VM' & tr & Hup).
  destruct (Hframe _ _ _ Hup) as (Hp & Ht & Hy & Hrun).
  do 6 eexists. split; [exact H1|]. split; [exact Hlen|].
  split; [exact Hsane|]. split; [exact Hup|].
  split; [exact Hp|]. split; [exact Ht|]. split; [exact Hy|]. exact Hrun.
Defined.

(** Counterexample to C8 as the specification words it: a lane change to the
    left runs to its end, the state returns to [off] from
    [laneChangeFinishing], and the direction is still left. *)
Lemma C8_counterexample :
  exists self VM tr0 self' VM' tr,
    run (init_planner Demo.cfg) Demo.VM0 Demo.lane_change_left
    = Ok (self, VM, tr0)
    /\ lane_change_state (lc self) = laneChangeFinishing
    /\ update self VM Demo.cruise = Ok (self', VM', tr)
    /\ lane_change_state (lc self') = off
    /\ lane_change_direction (lc self') = left
    /\ lane_change_direction (lc self') <> none.
Proof.
  do 6 eexists. split; [vm_compute; reflexivity|].
  split; [reflexivity|].
  split; [vm_compute; reflexivity|].
  split; [reflexivity|]. split; [reflexivity | discriminate].
Qed.

Lemma C8_witness :
  exists self VM tr0,
    run (init_planner Demo.cfg) Demo.VM0 Demo.lane_change_left
    = Ok (self, VM, tr0)
    /\ (lane_change_state (lc self) <> off ->
        lane_change_direction (lc self) = left
        \/ lane_change_direction (lc self) = right)
    /\ forall sm self' VM' tr,
        update self VM sm = Ok (self', VM', tr) ->
        lane_change_direction (lc self')
        = (if negb (active sm) || Qlt_bool 10 (lane_change_timer (lc self))
           then lane_change_direction (lc self)
           else if leftBlinker (carState sm) then left
           else if rightBlinker (carState sm) then right
           else lane_change_direction (lc self))
        /\ (lane_change_direction (lc self) <> none ->
            lane_change_direction (lc self') <> none)
        /\ (lane_change_state (lc self) = laneChangeFinishing ->
            lane_change_state (lc self') = off ->
            lane_change_direction (lc self') = left
            \/ lane_change_direction (lc self') = right).
Proof.
  destruct (run (init_planner Demo.cfg) Demo.VM0 Demo.lane_change_left)
    as [[[self VM] tr0]|e] eqn:H; [|vm_compute in H; discriminate].
  exists self, VM, tr0. split; [reflexivity|].
  exact (C8_direction _ _ _ _ _ _ H).
Defined.

(** * The further properties at concrete inputs *)

(** Makes the state named by a computed run or tick explicit. *)
Ltac concrete H :=
  let Hc := fresh "Hc" in
  pose proof H as Hc; vm_compute in Hc; injection Hc as <- <- <-.

Lemma X1_witness :
  exists self VM tr0 self' VM' tr,
    run (init_planner Demo.cfg) Demo.VM0 [Demo.cruise; Demo.signal_left]
    = Ok (self, VM, tr0)
    /\ update self VM Demo.nudge_right = Ok (self', VM', tr)
    /\ lane_change_edge (lane_change_state (lc self))
                        (lane_change_state (lc self')) = true.
Proof.
  destruct (run (init_planner Demo.cfg) Demo.VM0
              [Demo.cruise; Demo.signal_left])
    as [[[self VM] tr0]|e] eqn:H1; [|vm_compute in H1; discriminate].
  concrete H1.
  match type of H1 with _ = Ok (?s, ?v, _) =>
    destruct (update s v Demo.nudge_right)
      as [[[self' VM'] tr]|e] eqn:H2; [|vm_compute in H2; discriminate]
  end.
  do 6 eexists. split; [exact H1|]. split; [exact H2|].
  exact (X1_moves_along_edges _ _ _ _ _ _ H2).
Defined.

Lemma X2_witness :
  exists self VM tr0 self' VM' tr,
    update (init_planner Demo.cfg) Demo.VM0 Demo.cruise = Ok (self, VM, tr0)
    /\ update self VM Demo.signal_left = Ok (self', VM', tr)
    /\ lane_change_state (lc self) = off
    /\ lane_change_state (lc self') = preLaneChange
    /\ lane_change_ll_prob (lc self') = 1
    /\ lane_change_direction (lc self') = left
    /\ prev_one_blinker (lc self') = true.
Proof.
  destruct (update (init_planner Demo.cfg) Demo.VM0 Demo.cruise)
    as [[[self VM] tr0]|e] eqn:H1; [|vm_compute in H1; discriminate].
  concrete H1.
  match type of H1 with _ = Ok (?s, ?v, _) =>
    destruct (update s v Demo.signal_left)
      as [[[self' VM'] tr]|e] eqn:H2; [|vm_compute in H2; discriminate];
    assert (Hoff : lane_change_state (lc s) = off) by reflexivity
  end.
  destruct (X2_off_to_pre _ _ _ _ _ _ H2 Hoff) as (Hiff & Hpre & Hprev).
  assert (Hs : lane_change_state (lc self') = preLaneChange).
  { apply Hiff. repeat split; try reflexivity; vm_compute; discriminate. }
  destruct (Hpre Hs) as (Hll & Hdir).
  do 6 eexists. split; [exact H1|]. split; [exact H2|].
  split; [exact Hoff|]. split; [exact Hs|]. split; [exact Hll|].
  split; [exact Hdir | exact Hprev].
Defined.

Lemma X3_witness :
  exists self VM tr0 self' VM' tr,
    run (init_planner Demo.cfg) Demo.VM0 [Demo.cruise; Demo.signal_left]
    = Ok (self, VM, tr0)
    /\ update self VM DemoMore.blocked_left = Ok (self', VM', tr)
    /\ lane_change_state (lc self) = preLaneChange
    /\ leftBlinker (carState DemoMore.blocked_left) = true
    /\ leftBlindspot (carState DemoMore.blocked_left) = true
    /\ lane_change_state (lc self') <> laneChangeStarting.
Proof.
  destruct (run (init_planner Demo.cfg) Demo.VM0
              [Demo.cruise; Demo.signal_left])
    as [[[self VM] tr0]|e] eqn:H1; [|vm_compute in H1; discriminate].
  concrete H1.
  match type of H1 with _ = Ok (?s, ?v, _) =>
    destruct (update s v DemoMore.blocked_left)
      as [[[self' VM'] tr]|e] eqn:H2; [|vm_compute in H2; discriminate];
    assert (Hpre : lane_change_state (lc s) = preLaneChange) by reflexivity
  end.
  do 6 eexists. split; [exact H1|]. split; [exact H2|].
  split; [exact Hpre|]. split; [reflexivity|]. split; [reflexivity|].
  apply (X3_blind_spot_blocks _ _ _ _ _ _ H2 Hpre).
  left. split; reflexivity.
Defined.

Lemma X4_witness :
  exists self VM tr0 self' VM' tr,
    run (init_planner Demo.cfg) Demo.VM0
        [Demo.cruise; Demo.signal_left; Demo.nudge_right]
    = Ok (self, VM, tr0)
    /\ update self VM Demo.cruise = Ok (self', VM', tr)
    /\ lane_change_state (lc self) = laneChangeStarting
    /\ lane_change_timer (lc self) <= 10
    /\ (lane_change_state (lc self') = laneChangeStarting
        \/ lane_change_state (lc self') = laneChangeFinishing).
Proof.
  destruct (run (init_planner Demo.cfg) Demo.VM0
              [Demo.cruise; Demo.signal_left; Demo.nudge_right])
    as [[[self VM] tr0]|e] eqn:H1; [|vm_compute in H1; discriminate].
  concrete H1.
  match type of H1 with _ = Ok (?s, ?v, _) =>
    destruct (update s v Demo.cruise)
      as [[[self' VM'] tr]|e] eqn:H2; [|vm_compute in H2; discriminate];
    assert (Hst : lane_change_state (lc s) = laneChangeStarting)
      by reflexivity;
    assert (Ht : lane_change_timer (lc s) <= 10)
      by (vm_compute; discriminate)
  end.
  do 6 eexists. split; [exact H1|]. split; [exact H2|].
  split; [exact Hst|]. split; [exact Ht|].
  apply (X4_starting_runs_on _ _ _ _ _ _ H2 Hst eq_refl Ht).
Defined.

Lemma X5_witness :
  exists self VM tr0 self' VM' tr t,
    run (init_planner DemoMore.cfg_nudge_less) Demo.VM0
        [Demo.cruise; Demo.signal_left] = Ok (self, VM, tr0)
    /\ update self VM Demo.signal_left = Ok (self', VM', tr)
    /\ lane_change_state (lc self) = preLaneChange
    /\ pre_lane_change_timer (lc self) = Some t
    /\ alc_timer self < t + DT_MDL
    /\ lane_change_state (lc self') = laneChangeStarting
    /\ pre_lane_change_timer (lc self') = Some (t + DT_MDL).
Proof.
  destruct (run (init_planner DemoMore.cfg_nudge_less) Demo.VM0
              [Demo.cruise; Demo.signal_left])
    as [[[self VM] tr0]|e] eqn:H1; [|vm_compute in H1; discriminate].
  concrete H1.
  match type of H1 with _ = Ok (?s, ?v, _) =>
    destruct (update s v Demo.signal_left)
      as [[[self' VM'] tr]|e] eqn:H2; [|vm_compute in H2; discriminate];
    assert (Hst : lane_change_state (lc s) = preLaneChange) by reflexivity;
    assert (Ht : lane_change_timer (lc s) <= 10)
      by (vm_compute; discriminate);
    assert (Hnl : alc_nudge_less s = true) by reflexivity;
    assert (Hpre : pre_lane_change_timer (lc s) = Some 0.05) by reflexivity;
    assert (Hlim : alc_timer s < 0.05 + DT_MDL) by (vm_compute; reflexivity);
    assert (Hv : alc_min_speed s <= vEgo (carState Demo.signal_left))
      by (vm_compute; discriminate)
  end.
  assert (Hblind : blindspot_detected_of (lane_change_direction (lc self'))
                     (carState Demo.signal_left) = false).
  { destruct (lane_change_direction (lc self')); reflexivity. }
  destruct (X5_nudge_less_starts _ _ _ _ _ _ _ H2 Hst eq_refl Ht Hnl Hpre
              Hlim eq_refl Hv Hblind) as (Hs & Hp).
  do 7 eexists. split; [exact H1|]. split; [exact H2|].
  split; [exact Hst|]. split; [exact Hpre|]. split; [exact Hlim|].
  split; [exact Hs | exact Hp].
Defined.

Lemma X6_witness :
  exists self VM tr0 self' VM' tr,
    run (init_planner Demo.cfg) Demo.VM0
        [Demo.cruise; Demo.signal_left; Demo.nudge_right]
    = Ok (self, VM, tr0)
    /\ update self VM DemoMore.disengaged = Ok (self', VM', tr)
    /\ active DemoMore.disengaged = false
    /\ lane_change_state (lc self) = laneChangeStarting
    /\ lane_change_state (lc self') = off
    /\ lane_change_timer (lc self') = 0
    /\ desire self' = Desire_none
    /\ LP self' = lp_parsed DemoMore.disengaged.
Proof.
  destruct (run (init_planner Demo.cfg) Demo.VM0
              [Demo.cruise; Demo.signal_left; Demo.nudge_right])
    as [[[self VM] tr0]|e] eqn:H1; [|vm_compute in H1; discriminate].
  concrete H1.
  match type of H1 with _ = Ok (?s, ?v, _) =>
    destruct (update s v DemoMore.disengaged)
      as [[[self' VM'] tr]|e] eqn:H2; [|vm_compute in H2; discriminate]
  end.
  destruct (X6_forced_off _ _ _ _ _ _ H2 (or_introl eq_refl))
    as (Hs & Ht & _ & Hd & HLP & _).
  do 6 eexists. split; [exact H1|]. split; [exact H2|].
  split; [reflexivity|]. split; [reflexivity|].
  split; [exact Hs|]. split; [exact Ht|]. split; [exact Hd | exact HLP].
Defined.

Lemma X7_witness :
  0 <= DT_MDL
  /\ exists self VM tr,
      run (init_planner Demo.cfg) Demo.VM0 Demo.lane_change_left
      = Ok (self, VM, tr)
      /\ 0 <= lane_change_timer (lc self) <= 10 + DT_MDL
      /\ (changing (lane_change_state (lc self)) = false ->
          lane_change_timer (lc self) = 0).
Proof.
  assert (Hd : 0 <= DT_MDL) by (vm_compute; discriminate).
  split; [exact Hd|].
  destruct (run (init_planner Demo.cfg) Demo.VM0 Demo.lane_change_left)
    as [[[self VM] tr]|e] eqn:H; [|vm_compute in H; discriminate].
  exists self, VM, tr. split; [reflexivity|].
  exact (X7_timer_bounded _ _ _ _ _ _ Hd H).
Defined.

Lemma X8_witness :
  exists self VM tr msg,
    run (init_planner Demo.cfg) Demo.VM0 Demo.lane_change_left
    = Ok (self, VM, tr)
    /\ publish self VM Demo.cruise = Ok msg
    /\ desire self = Desire_laneChangeLeft
    /\ lane_change_state (lc self) = laneChangeFinishing
    /\ lane_change_direction (lc self) = left
    /\ msg_desire msg = desire self
    /\ laneChangeState msg = lane_change_state (lc self)
    /\ laneChangeDirection msg = lane_change_direction (lc self).
Proof.
  destruct (run (init_planner Demo.cfg) Demo.VM0 Demo.lane_change_left)
    as [[[self VM] tr]|e] eqn:H; [|vm_compute in H; discriminate].
  pose proof H as Hc. vm_compute in Hc. injection Hc as <- <- <-.
  match type of H with _ = Ok (?s, ?v, _) =>
    destruct (publish s v Demo.cruise) as [msg|e] eqn:Hp;
      [|vm_compute in Hp; discriminate];
    assert (Hst : lane_change_state (lc s) = laneChangeFinishing)
      by reflexivity;
    assert (Hdir : lane_change_direction (lc s) = left) by reflexivity
  end.
  destruct (X8_desire_follows_state _ _ _ _ _ _ H)
    as (_ & _ & Hleft & _ & Hmsg).
  destruct (Hmsg _ _ _ Hp) as (Hd & Hs & Hdr & _).
  do 4 eexists. split; [exact H|]. split; [exact Hp|].
  split; [apply Hleft; split; [reflexivity | exact Hdir]|].
  split; [exact Hst|]. split; [exact Hdir|].
  split; [exact Hd|]. split; [exact Hs | exact Hdr].
Defined.

Lemma X9_witness :
  0 <= DT_MDL
  /\ exists self VM tr0 self' VM' tr,
      run (init_planner Demo.cfg) Demo.VM0 Demo.lane_change_left
      = Ok (self, VM, tr0)
      /\ update self VM Demo.signal_left = Ok (self', VM', tr)
      /\ 0 <= lll_prob (lp_parsed Demo.signal_left)
      /\ 0 <= lll_prob (LP self') <= lll_prob (lp_parsed Demo.signal_left).
Proof.
  assert (Hd : 0 <= DT_MDL) by (vm_compute; discriminate).
  split; [exact Hd|].
  destruct (run (init_planner Demo.cfg) Demo.VM0 Demo.lane_change_left)
    as [[[self VM] tr0]|e] eqn:H1; [|vm_compute in H1; discriminate].
  pose proof H1 as H1c. vm_compute in H1c. injection H1c as Hs Hv _.
  destruct (update self VM Demo.signal_left)
    as [[[self' VM'] tr]|e] eqn:H2;
    [|rewrite <- Hs, <- Hv in H2; vm_compute in H2; discriminate].
  assert (Hp : 0 <= lll_prob (lp_parsed Demo.signal_left))
    by (vm_compute; discriminate).
  do 6 eexists. split; [reflexivity|]. split; [exact H2|]. split; [exact Hp|].
  destruct (X9_lane_lines_faded _ _ _ _ _ _ _ _ _ _ Hd H1 H2)
    as (_ & _ & Hl & _).
  exact (Hl Hp).
Defined.

Lemma X10_witness :
  exists s1 VM1 tr1 s2 VM2 tr2 m2,
    update (init_planner Demo.cfg) Demo.VM0 (Demo.solve Demo.high_cost 100)
    = Ok (s1, VM1, tr1)
    /\ update s1 VM1 (Demo.solve Demo.broken 100.05) = Ok (s2, VM2, tr2)
    /\ publish s2 VM2 (Demo.solve Demo.broken 100.05) = Ok m2
    /\ mpcSolutionValid m2 = false.
Proof.
  destruct (update (init_planner Demo.cfg) Demo.VM0
              (Demo.solve Demo.high_cost 100))
    as [[[s1 VM1] tr1]|e] eqn:H1; [|vm_compute in H1; discriminate].
  concrete H1.
  match type of H1 with _ = Ok (?s, ?v, _) =>
    destruct (update s v (Demo.solve Demo.broken 100.05))
      as [[[s2 VM2] tr2]|e] eqn:H2; [|vm_compute in H2; discriminate]
  end.
  destruct (X10_flag_is_last_two _ _ _ _ _ _ _ _ _ _ H1 H2)
    as (m2 & Hp & Hiff).
  do 7 eexists. split; [exact H1|]. split; [exact H2|]. split; [exact Hp|].
  apply Hiff. split; reflexivity.
Defined.

Lemma X11_witness :
  exists self VM tr,
    run (init_planner Demo.cfg) Demo.VM0
        [Demo.solve Demo.broken 3; Demo.solve Demo.broken 100;
         Demo.solve Demo.broken 106] = Ok (self, VM, tr)
    /\ Forall (fun w => 5 < w) (warnings tr)
    /\ last_cloudlog_t (mpc self) = last (warnings tr) 0.
Proof.
  destruct (run (init_planner Demo.cfg) Demo.VM0
              [Demo.solve Demo.broken 3; Demo.solve Demo.broken 100;
               Demo.solve Demo.broken 106])
    as [[[self VM] tr]|e] eqn:H; [|vm_compute in H; discriminate].
  exists self, VM, tr. split; [reflexivity|].
  destruct (X11_diagnostics_of_a_run _ _ _ _ _ _ H) as (Hall & _ & Hlast).
  split; [exact Hall | exact Hlast].
Defined.

Lemma X12_witness :
  exists self' VM' tr,
    update (init_planner Demo.cfg) Demo.VM0 Demo.cruise = Ok (self', VM', tr)
    /\ steer_rate_cost_prev (tuning self')
       == nt_steerRateCost (ntune Demo.cruise)
    /\ steer_actuator_delay_prev (tuning self')
       == nt_steerActuatorDelay (ntune Demo.cruise)
    /\ exists cur y h rest,
        tr = RunMpc cur (vEgo (carState Demo.cruise)) CAR_ROTATION_RADIUS y h
             :: rest
        /\ st_curvature cur
           = st_curvature (cur_state (mpc (init_planner Demo.cfg))).
Proof.
  destruct (update (init_planner Demo.cfg) Demo.VM0 Demo.cruise)
    as [[[self' VM'] tr]|e] eqn:H; [|vm_compute in H; discriminate].
  exists self', VM', tr. split; [reflexivity|].
  destruct (X12_tuning_refresh _ _ _ _ _ _ H) as (Hr & Hd & Hsame & _).
  split; [exact Hr|]. split; [exact Hd|].
  apply Hsame. reflexivity.
Defined.

Lemma X13_witness :
  (exists self' VM' tr,
      update (init_planner Demo.cfg) Demo.VM0 Demo.cruise
      = Ok (self', VM', tr)
      /\ stiffnessFactor (liveParameters Demo.cruise) = Fin 1
      /\ nt_steerRatio (ntune Demo.cruise) = Fin 15
      /\ (exists x, sF VM' = Fin x /\ 0.1 <= x /\ 1 <= x)
      /\ (exists r, sR VM' = Fin r /\ 0.1 <= r /\ 15 <= r))
  /\ (exists self' VM' tr,
      update (init_planner Demo.cfg) Demo.VM0 DemoMore.no_estimate
      = Ok (self', VM', tr)
      /\ stiffnessFactor (liveParameters DemoMore.no_estimate) = NaN
      /\ lp_steerRatio (liveParameters DemoMore.no_estimate) = NaN
      /\ sF VM' = NaN
      /\ sR VM' = NaN
      /\ desired_steering_wheel_angle_deg self' = Some NaN).
Proof.
  split.
  - destruct (update (init_planner Demo.cfg) Demo.VM0 Demo.cruise)
      as [[[self' VM'] tr]|e] eqn:H; [|vm_compute in H; discriminate].
    destruct (X13_vehicle_model_clamped _ _ _ _ _ _ H) as (Hf & _ & Hr).
    destruct (Hr eq_refl) as (Hnum & _).
    exists self', VM', tr. split; [reflexivity|].
    split; [reflexivity|]. split; [reflexivity|].
    split; [exact (Hf 1 eq_refl) | exact (Hnum 15 eq_refl)].
  - destruct (update (init_planner Demo.cfg) Demo.VM0 DemoMore.no_estimate)
      as [[[self' VM'] tr]|e] eqn:H; [|vm_compute in H; discriminate].
    destruct (X13_vehicle_model_clamped _ _ _ _ _ _ H) as (_ & Hf & Hr).
    destruct (Hr eq_refl) as (_ & Hnan).
    destruct (Hnan eq_refl) as (HsR & Hdes).
    exists self', VM', tr. split; [reflexivity|].
    split; [reflexivity|]. split; [reflexivity|].
    split; [exact (Hf eq_refl)|]. split; [exact HsR | exact Hdes].
Defined.

Lemma X14_witness :
  exists self VM tr,
    run (init_planner Demo.cfg) Demo.VM0 [Demo.cruise; Demo.signal_left]
    = Ok (self, VM, tr)
    /\ angle_steers_des_mpc self = 0
    /\ angle_steers_des_prev self = 0.
Proof.
  destruct (run (init_planner Demo.cfg) Demo.VM0
              [Demo.cruise; Demo.signal_left])
    as [[[self VM] tr]|e] eqn:H; [|vm_compute in H; discriminate].
  exists self, VM, tr. split; [reflexivity|].
  destruct (X14_dynamic_ratio_is_constant _ _ _ _ _ _ H) as (Hm & Hp & _).
  split; [exact Hm | exact Hp].
Defined.

Lemma X15_witness :
  exists self VM tr,
    run (init_planner Demo.cfg) Demo.VM0 Demo.lane_change_left
    = Ok (self, VM, tr)
    /\ mpc_frame (tuning self) = 32%Z.
Proof.
  destruct (run (init_planner Demo.cfg) Demo.VM0 Demo.lane_change_left)
    as [[[self VM] tr]|e] eqn:H; [|vm_compute in H; discriminate].
  exists self, VM, tr. split; [reflexivity|].
  exact (X15_frame_counter _ _ _ _ _ _ H).
Defined.

Lemma X16_witness :
  exists self' VM' tr,
    update (init_planner Demo.cfg) Demo.VM0 Demo.cruise = Ok (self', VM', tr)
    /\ length (xs (position (modelV2 Demo.cruise))) = TRAJECTORY_SIZE
    /\ length (xs (orientation (modelV2 Demo.cruise))) = TRAJECTORY_SIZE
    /\ t_idxs (forecast self') = ts (position (modelV2 Demo.cruise))
    /\ plan_yaw (forecast self') = zs (orientation (modelV2 Demo.cruise))
    /\ (MPC_N + 1 <= length (ts (position (modelV2 Demo.cruise))))%nat.
Proof.
  destruct (update (init_planner Demo.cfg) Demo.VM0 Demo.cruise)
    as [[[self' VM'] tr]|e] eqn:H; [|vm_compute in H; discriminate].
  exists self', VM', tr. split; [reflexivity|].
  assert (Hp : length (xs (position (modelV2 Demo.cruise)))
               = TRAJECTORY_SIZE) by reflexivity.
  assert (Ho : length (xs (orientation (modelV2 Demo.cruise)))
               = TRAJECTORY_SIZE) by reflexivity.
  split; [exact Hp|]. split; [exact Ho|].
  destruct (X16_accepted_forecast _ _ _ _ _ _ H Hp Ho)
    as ((_ & _ & _ & Ht & Hy) & _ & _ & _ & Hn).
  split; [exact Ht|]. split; [exact Hy | exact Hn].
Defined.

Lemma X17_witness :
  exists self' VM' tr cur y h msg,
    update (init_planner Demo.cfg) Demo.VM0 Demo.cruise = Ok (self', VM', tr)
    /\ In (RunMpc cur (vEgo (carState Demo.cruise)) CAR_ROTATION_RADIUS y h)
          tr
    /\ length y = (MPC_N + 1)%nat
    /\ length h = (MPC_N + 1)%nat
    /\ publish self' VM' Demo.cruise = Ok msg
    /\ msg_dPathPoints msg = y.
Proof.
  destruct (update (init_planner Demo.cfg) Demo.VM0 Demo.cruise)
    as [[[self' VM'] tr]|e] eqn:H; [|vm_compute in H; discriminate].
  destruct (X17_target_lengths _ _ _ _ _ _ H) as (cur & y & h & msg & Hall).
  exists self', VM', tr, cur, y, h, msg. split; [reflexivity | exact Hall].
Defined.

Lemma X18_witness :
  exists self VM tr msg,
    run (init_planner Demo.cfg) Demo.VM0 [Demo.cruise] = Ok (self, VM, tr)
    /\ [Demo.cruise] <> []
    /\ publish self VM Demo.cruise = Ok msg
    /\ mpcSolutionValid msg = (solution_invalid_cnt (mpc self) <? 2)%nat.
Proof.
  destruct (run (init_planner Demo.cfg) Demo.VM0 [Demo.cruise])
    as [[[self VM] tr]|e] eqn:H; [|vm_compute in H; discriminate].
  assert (Hne : [Demo.cruise] <> []) by discriminate.
  destruct (X18_publish_needs_a_tick _ _ _ _ _ _ VM Demo.cruise H)
    as (_ & Hsome).
  destruct (Hsome Hne) as (msg & Hp & Hv).
  exists self, VM, tr, msg. split; [reflexivity|]. split; [exact Hne|].
  split; [exact Hp | exact Hv].
Defined.

Lemma X19_witness :
  exists s1 VM1 tr1 s2 VM2 tr2,
    update (init_planner Demo.cfg) Demo.VM0 (Demo.solve Demo.broken 100)
    = Ok (s1, VM1, tr1)
    /\ update s1 VM1 Demo.cruise = Ok (s2, VM2, tr2)
    /\ nt_steerActuatorDelay (ntune Demo.cruise)
       == nt_steerActuatorDelay (ntune (Demo.solve Demo.broken 100))
    /\ exists measured1 cur y h rest,
        measured_curvature_of
          (vm_curvature_factor (Demo.solve Demo.broken 100))
          (steeringAngle (carState (Demo.solve Demo.broken 100)))
          (angleOffset (liveParameters (Demo.solve Demo.broken 100))) VM1
        = Ok measured1
        /\ tr2 = RunMpc cur (vEgo (carState Demo.cruise)) CAR_ROTATION_RADIUS
                        y h :: rest
        /\ st_curvature cur = measured1.
Proof.
  destruct (update (init_planner Demo.cfg) Demo.VM0
              (Demo.solve Demo.broken 100))
    as [[[s1 VM1] tr1]|e] eqn:H1; [|vm_compute in H1; discriminate].
  concrete H1.
  match type of H1 with _ = Ok (?s, ?v, _) =>
    destruct (update s v Demo.cruise)
      as [[[s2 VM2] tr2]|e] eqn:H2; [|vm_compute in H2; discriminate]
  end.
  assert (Hd : nt_steerActuatorDelay (ntune Demo.cruise)
               == nt_steerActuatorDelay (ntune (Demo.solve Demo.broken 100)))
    by reflexivity.
  destruct (X19_warm_start _ _ _ _ _ _ _ _ _ _ H1 H2 Hd)
    as (m1 & cur & y & h & rest & Hm & Htr & _ & Hc).
  do 6 eexists. split; [exact H1|]. split; [exact H2|]. split; [exact Hd|].
  exists m1, cur, y, h, rest.
  split; [exact Hm|]. split; [exact Htr | exact Hc].
Defined.

Section CarStateWitnesses.
Import String.StringSyntax.
#[local] Open Scope string_scope.

(** Checks a subscription of a concrete parser, signal by signal. *)
Ltac subscribed :=
  let Hin := fresh "Hin" in
  intros ? ? ? Hin; vm_compute in Hin;
  repeat (destruct Hin as [Hin|Hin];
          [injection Hin as <- <- <-; eexists; vm_compute; reflexivity|]);
  destruct Hin.

Lemma X20_witness :
  GMCan.subscribes DemoMore.volt_pt
    (GMCan.get_can_parser DemoMore.values true)
  /\ GMCan.subscribes DemoMore.chassis GMCan.get_chassis_can_parser
  /\ exists self' ret,
      GMCan.update DemoMore.values true false DemoMore.car_obj
        DemoMore.volt_pt DemoMore.chassis = GMCan.Found (self', ret).
Proof.
  assert (Hpt : GMCan.subscribes DemoMore.volt_pt
                  (GMCan.get_can_parser DemoMore.values true))
    by subscribed.
  assert (Hch : GMCan.subscribes DemoMore.chassis
                  GMCan.get_chassis_can_parser)
    by subscribed.
  split; [exact Hpt|]. split; [exact Hch|].
  exact (X20_subscribed_keys_suffice DemoMore.values true false
           DemoMore.car_obj _ _ Hpt Hch).
Defined.

Lemma X21_witness :
  GMCan.subscribes DemoMore.other_pt
    (GMCan.get_can_parser DemoMore.values false)
  /\ GMCan.get DemoMore.other_pt "EBCMRegenPaddle" "RegenPaddle"
     = GMCan.KeyError "EBCMRegenPaddle" "RegenPaddle"
  /\ GMCan.update DemoMore.values true false DemoMore.car_obj
       DemoMore.other_pt DemoMore.chassis
     = GMCan.KeyError "EBCMRegenPaddle" "RegenPaddle".
Proof.
  assert (Hpt : GMCan.subscribes DemoMore.other_pt
                  (GMCan.get_can_parser DemoMore.values false))
    by subscribed.
  assert (Hmiss : GMCan.get DemoMore.other_pt "EBCMRegenPaddle" "RegenPaddle"
                  = GMCan.KeyError "EBCMRegenPaddle" "RegenPaddle")
    by reflexivity.
  split; [exact Hpt|]. split; [exact Hmiss|].
  exact (X21_volt_needs_regen_paddle DemoMore.values false DemoMore.car_obj
           _ DemoMore.chassis Hpt Hmiss).
Defined.

Lemma X23_witness :
  exists self' ret,
    GMCan.update DemoMore.values true false DemoMore.car_obj
      DemoMore.volt_pt DemoMore.chassis = GMCan.Found (self', ret)
    /\ GMCan.get DemoMore.volt_pt "EBCMBrakePedalPosition"
         "BrakePedalPosition" = GMCan.Found 12
    /\ GMCan.brakePressed ret
       = Qle_bool 10 12 || (true && GMCan.regenPaddlePressed self')
    /\ (GMCan.brake ret = 0 \/ 10 / 208 <= GMCan.brake ret)
    /\ (GMCan.brakePressed ret = true -> GMCan.brakeLights ret = true).
Proof.
  destruct (GMCan.update DemoMore.values true false DemoMore.car_obj
              DemoMore.volt_pt DemoMore.chassis)
    as [[self' ret]|m s] eqn:H; [|vm_compute in H; discriminate].
  assert (Hpedal : GMCan.get DemoMore.volt_pt "EBCMBrakePedalPosition"
                     "BrakePedalPosition" = GMCan.Found 12)
    by reflexivity.
  destruct (X23_brake_pressed _ _ _ _ _ _ _ _ _ H Hpedal)
    as (Hp & Hb & Hl & _).
  exists self', ret. split; [reflexivity|]. split; [exact Hpedal|].
  split; [exact Hp|]. split; [exact Hb | exact Hl].
Defined.

Lemma X24_witness :
  exists s1 r1 s2 r2,
    GMCan.update DemoMore.values true false DemoMore.car_obj
      DemoMore.volt_pt DemoMore.chassis = GMCan.Found (s1, r1)
    /\ GMCan.update DemoMore.values true false s1
         DemoMore.volt_pt_next DemoMore.chassis = GMCan.Found (s2, r2)
    /\ GMCan.get DemoMore.volt_pt "ASCMSteeringButton" "LKAButton"
       = GMCan.Found (GMCan.prev_lka_button s2)
    /\ GMCan.get DemoMore.volt_pt_next "ASCMSteeringButton" "LKAButton"
       = GMCan.Found (GMCan.lka_button s2).
Proof.
  destruct (GMCan.update DemoMore.values true false DemoMore.car_obj
              DemoMore.volt_pt DemoMore.chassis)
    as [[s1 r1]|m s] eqn:H1; [|vm_compute in H1; discriminate].
  pose proof H1 as H1c. vm_compute in H1c. injection H1c as <- <-.
  match type of H1 with _ = GMCan.Found (?s, _) =>
    destruct (GMCan.update DemoMore.values true false s
                DemoMore.volt_pt_next DemoMore.chassis)
      as [[s2 r2]|m sg] eqn:H2; [|vm_compute in H2; discriminate]
  end.
  destruct (X24_button_history _ _ _ _ _ _ _ _ _ _ _ _ H1 H2)
    as (_ & Hprev & _ & _ & Hcur & _).
  do 4 eexists. split; [exact H1|]. split; [exact H2|].
  split; [exact Hprev | exact Hcur].
Defined.

Lemma X25_witness :
  exists signals,
    GMCan.signals_of DemoMore.volt_pt = GMCan.Found signals
    /\ 0 <= 1
    /\ torque_applied_of false 0 0 none
         {| vEgo := 20; steeringAngle := 0;
            steeringTorque := GM.steeringTorque (GM.update 1 signals);
            steeringPressed := GM.steeringPressed (GM.update 1 signals);
            leftBlinker := GM.leftBlinker (GM.update 1 signals);
            rightBlinker := GM.rightBlinker (GM.update 1 signals);
            leftBlindspot := false; rightBlindspot := false |}
       = Qlt_bool (GM.LKADriverAppldTrq signals) (- (1)).
Proof.
  destruct (GMCan.signals_of DemoMore.volt_pt)
    as [signals|m s] eqn:Hs; [|vm_compute in Hs; discriminate].
  assert (Hthr : 0 <= 1) by (vm_compute; discriminate).
  exists signals. split; [reflexivity|]. split; [exact Hthr|].
  apply (X25_nudge_is_torque_below_threshold 1 signals);
    [exact Hthr | reflexivity | reflexivity].
Defined.

End CarStateWitnesses.
